(** * Charging station simulator: smart-charging limits, boot status,
      registration, reservations, lifecycle flags and request statistics

    A shallow embedding of the parts of [Helpers.ts], [ChargingStation.ts]
    and [PerformanceStatistics.ts] that decide the behaviour of

    - [getLimitFromChargingProfiles] and the preparation of recurring
      profiles,
    - [getChargingStationConnectorChargingProfilesPowerLimit],
    - [getBootConnectorStatus],
    - the registration loop of [ChargingStation.onOpen],
    - [isConnectorReservable] and [removeReservation],
    - the [started] / [starting] / [stopping] flags,
    - [PerformanceStatistics.addRequestStatistic].

    Conventions of the model.

    - A [Date] is its time value: milliseconds since the epoch, in [Z].
      The model covers valid [Date] instances inside the representable
      range, in a time zone without daylight-saving shifts, so that the
      date-fns helpers are plain integer arithmetic (a day is 86400000 ms).
    - JavaScript numbers that carry seconds, identifiers and counters are
      integers ([Z]); limits, voltages and powers are exact rationals ([Q]),
      rounding of IEEE doubles is not modelled. Results of a division or of
      a product with an absent operand live in [JsNumber], which has the
      infinities and NaN.
    - [undefined] and [null] are [None].
    - A JavaScript [Map] keyed by numbers is an association list in
      insertion order ([JsMap]): the code iterates over maps and takes the
      first match.
    - Logging is dropped. *)

From Stdlib Require Import ZArith QArith Lia Bool.
From stdpp Require Import base option list gmap strings sorting.

Open Scope Z_scope.

(** ** JavaScript numbers with the non-finite values *)

Inductive JsNumber : Type :=
  | Finite (q : Q)
  | PlusInfinity
  | MinusInfinity
  | NaN.

(** Sign of a rational: -1, 0 or 1. *)
Definition Qsign (q : Q) : Z := Z.sgn (Qnum q).

Definition jsOfOption (o : option Q) : JsNumber :=
  match o with
  | Some q => Finite q
  | None => NaN
  end.

(** [a * b] on JavaScript numbers. *)
Definition jsMul (a b : JsNumber) : JsNumber :=
  let inf (s : Z) := if (0 <? s) then PlusInfinity else MinusInfinity in
  let sgn (x : JsNumber) : option Z :=
    match x with
    | Finite q => Some (Qsign q)
    | PlusInfinity => Some 1
    | MinusInfinity => Some (-1)
    | NaN => None
    end in
  match a, b with
  | Finite x, Finite y => Finite (x * y)%Q
  | NaN, _ | _, NaN => NaN
  | _, _ =>
      match sgn a, sgn b with
      | Some sa, Some sb => if (sa * sb =? 0) then NaN else inf (sa * sb)
      | _, _ => NaN
      end
  end.

(** [a / b] on JavaScript numbers with finite or absent operands: a zero
    divisor gives an infinity, or NaN for [0 / 0]. *)
Definition jsDiv (a b : option Q) : JsNumber :=
  match a, b with
  | Some x, Some y =>
      if (Qsign y =? 0) then
        (if (Qsign x =? 0) then NaN
         else if (0 <? Qsign x) then PlusInfinity else MinusInfinity)
      else Finite (x / y)%Q
  | _, _ => NaN
  end.

(** [a > b]; every comparison with NaN is false. *)
Definition jsGt (a b : JsNumber) : bool :=
  match a, b with
  | NaN, _ | _, NaN => false
  | Finite x, Finite y => negb (Qle_bool x y)
  | PlusInfinity, PlusInfinity => false
  | PlusInfinity, _ => true
  | _, MinusInfinity => match a with MinusInfinity => false | _ => true end
  | _, _ => false
  end.

(** ** date-fns, on time values *)

Module DateFns.

Definition millisecondsInSecond : Z := 1000.
Definition millisecondsInDay : Z := 86400000.

(** [maxTime] of date-fns/constants: 10^8 days in milliseconds. *)
Definition maxTime : Z := 8640000000000000.

Definition addSeconds (date amount : Z) : Z := date + amount * millisecondsInSecond.
Definition addDays (date amount : Z) : Z := date + amount * millisecondsInDay.
Definition addWeeks (date amount : Z) : Z := addDays date (amount * 7).

(** The differences truncate towards zero. *)
Definition differenceInSeconds (later earlier : Z) : Z :=
  Z.quot (later - earlier) millisecondsInSecond.
Definition differenceInDays (later earlier : Z) : Z :=
  Z.quot (later - earlier) millisecondsInDay.
Definition differenceInWeeks (later earlier : Z) : Z :=
  Z.quot (differenceInDays later earlier) 7.

Definition isAfter (date dateToCompare : Z) : bool := dateToCompare <? date.
Definition isBefore (date dateToCompare : Z) : bool := date <? dateToCompare.

(** Both ends belong to the interval; date-fns 3 puts the ends in order
    before comparing. *)
Definition isWithinInterval (date start_ end_ : Z) : bool :=
  (Z.min start_ end_ <=? date) && (date <=? Z.max start_ end_).

(** [isPast date] compares with the clock, which is the argument [now]. *)
Definition isPast (now date : Z) : bool := date <? now.

End DateFns.

(** ** Types of [types/index.ts] used below *)

Inductive ConnectorStatusEnum : Type :=
  | Available | Preparing | Charging | SuspendedEV | SuspendedEVSE
  | Finishing | Reserved | Unavailable | Faulted.

Inductive AvailabilityType : Type := Operative | Inoperative.

Inductive ChargingProfileKindType : Type := ABSOLUTE | RECURRING | RELATIVE.

Inductive RecurrencyKindType : Type := DAILY | WEEKLY.

Inductive ChargingRateUnitType : Type := WATT | AMPERE.

Inductive CurrentType : Type := AC | DC.

#[global] Instance ConnectorStatusEnum_eq_dec : EqDecision ConnectorStatusEnum.
Proof. solve_decision. Defined.
#[global] Instance AvailabilityType_eq_dec : EqDecision AvailabilityType.
Proof. solve_decision. Defined.

(** A duration in seconds; [differenceInSeconds] of an absent date is NaN. *)
Inductive JsSeconds : Type :=
  | Seconds (n : Z)
  | SecondsNaN.

Record ChargingSchedulePeriod : Type := mkPeriod {
  startPeriod : Z;
  limit : Q;
  numberPhases : option Z
}.

Record ChargingSchedule : Type := mkSchedule {
  startSchedule : option Z;
  duration : option JsSeconds;
  chargingRateUnit : ChargingRateUnitType;
  chargingSchedulePeriod : list ChargingSchedulePeriod
}.

Record ChargingProfile : Type := mkProfile {
  chargingProfileId : Z;
  stackLevel : Z;
  chargingProfileKind : ChargingProfileKindType;
  recurrencyKind : option RecurrencyKindType;
  validFrom : option Z;
  validTo : option Z;
  chargingSchedule : ChargingSchedule
}.

Record Reservation : Type := mkReservation {
  reservationId : Z;
  reservationConnectorId : Z;
  idTag : string;
  expiryDate : Z;
  parentIdTag : option string
}.

Record ConnectorStatus : Type := mkConnector {
  availability : option AvailabilityType;
  status : option ConnectorStatusEnum;
  bootStatus : option ConnectorStatusEnum;
  transactionStarted : option bool;
  transactionStart : option Z;
  chargingProfiles : option (list ChargingProfile);
  reservation : option Reservation
}.

(** A [Map<number, V>]: pairs in insertion order. *)
Definition JsMap (V : Type) : Type := list (Z * V).

Fixpoint mapGet {V : Type} (k : Z) (m : JsMap V) : option V :=
  match m with
  | [] => None
  | (k', v) :: rest => if (k' =? k) then Some v else mapGet k rest
  end.

Definition mapHas {V : Type} (k : Z) (m : JsMap V) : bool :=
  match mapGet k m with
  | Some _ => true
  | None => false
  end.

(** The entry under [k] is an object: a write through a reference to it
    changes the entry in place. *)
Fixpoint mapUpdate {V : Type} (k : Z) (f : V -> V) (m : JsMap V) : JsMap V :=
  match m with
  | [] => []
  | (k', v) :: rest =>
      if (k' =? k) then (k', f v) :: rest else (k', v) :: mapUpdate k f rest
  end.

Record EvseStatus : Type := mkEvse {
  evseAvailability : option AvailabilityType;
  evseConnectors : JsMap ConnectorStatus
}.

Record ChargingStationInfo : Type := mkStationInfo {
  currentOutType : option CurrentType;
  voltageOut : option Q;
  numberOfPhases : option Z;
  maximumPower : option Q;
  registrationMaxRetries : option Z
}.

Inductive RegistrationStatusEnumType : Type :=
  | ACCEPTED | PENDING | REJECTED.

Record BootNotificationResponse : Type := mkBootResponse {
  bootStatusField : option RegistrationStatusEnumType;
  interval : option Z
}.

(** A StatusNotification request handed to the request service. *)
Record StatusNotification : Type := mkStatusNotification {
  notifiedConnectorId : Z;
  notifiedStatus : ConnectorStatusEnum
}.

(** The fields of a [ChargingStation] that the modelled methods read or
    write; [sentStatusNotifications] records, oldest first, the
    StatusNotification requests issued through the request service. *)
Record ChargingStation : Type := mkStation {
  stationInfo : option ChargingStationInfo;
  connectors : JsMap ConnectorStatus;
  evses : JsMap EvseStatus;
  powerDivider : option Q;
  bootNotificationResponse : option BootNotificationResponse;
  sentStatusNotifications : list StatusNotification
}.

(** ** Completions: a call returns a value or throws *)

Inductive JsError : Type :=
  | TypeError
  | BaseError (message : string).

Inductive Completion (A : Type) : Type :=
  | Returns (a : A)
  | Throws (e : JsError).

Arguments Returns {A} a.
Arguments Throws {A} e.

(** ** Helpers of [utils/] that the modelled code calls *)

(** Modelled from the spec: [isNotEmptyArray] of utils/, which is not among
    the sources; an array with at least one element. *)
Definition isNotEmptyArray {A : Type} (l : list A) : bool :=
  match l with
  | [] => false
  | _ :: _ => true
  end.

(** Modelled from the spec: [isArraySorted] of utils/, which is not among
    the sources; no element is followed by one that the compare function
    puts before it. *)
Fixpoint isArraySorted {A : Type} (compareFn : A -> A -> Z) (l : list A) : bool :=
  match l with
  | [] => true
  | a :: rest =>
      match rest with
      | [] => true
      | b :: _ => if (0 <? compareFn a b) then false else isArraySorted compareFn rest
      end
  end.

(** Modelled from the spec: [isValidDate] of utils/, which is not among the
    sources; a defined date, dates of the model being valid. *)
Definition isValidDate (d : option Z) : bool :=
  match d with
  | Some _ => true
  | None => false
  end.

(** [Array.prototype.sort] with a compare function is a stable sort; its
    result is the one of the stable insertion sort. *)
Fixpoint sortInsert {A : Type} (compareFn : A -> A -> Z) (x : A) (l : list A) : list A :=
  match l with
  | [] => [x]
  | y :: rest =>
      if (compareFn x y <=? 0) then x :: y :: rest
      else y :: sortInsert compareFn x rest
  end.

Fixpoint arraySort {A : Type} (compareFn : A -> A -> Z) (l : list A) : list A :=
  match l with
  | [] => []
  | x :: rest => sortInsert compareFn x (arraySort compareFn rest)
  end.

(** [Number.isSafeInteger]. *)
Definition isSafeInteger (d : JsSeconds) : bool :=
  match d with
  | Seconds n => Z.abs n <=? 2 ^ 53 - 1
  | SecondsNaN => false
  end.

(** [a > b] on durations. *)
Definition secondsGt (a b : JsSeconds) : bool :=
  match a, b with
  | Seconds x, Seconds y => y <? x
  | _, _ => false
  end.

Module ACElectricUtils.
(** Modelled from the spec: [ACElectricUtils.powerTotal] of utils/, which is
    not among the sources; the three-phase sum V*I*phases. *)
Definition powerTotal (nbOfPhases : Z) (V : JsNumber) (Iph : Q) : JsNumber :=
  jsMul (jsMul V (Finite Iph)) (Finite (inject_Z nbOfPhases)).
End ACElectricUtils.

Module DCElectricUtils.
(** Modelled from the spec: [DCElectricUtils.power] of utils/, which is not
    among the sources; V*I. *)
Definition power (V : JsNumber) (I : Q) : JsNumber := jsMul V (Finite I).
End DCElectricUtils.

(** ** Accessors of [ChargingStation] *)

Definition hasEvses (st : ChargingStation) : bool :=
  (length (connectors st) =? 0)%nat && (0 <? length (evses st))%nat.

Fixpoint getEvsesConnectorStatus (connectorId : Z) (es : JsMap EvseStatus)
  : option ConnectorStatus :=
  match es with
  | [] => None
  | (_, evseStatus) :: rest =>
      if mapHas connectorId (evseConnectors evseStatus)
      then mapGet connectorId (evseConnectors evseStatus)
      else getEvsesConnectorStatus connectorId rest
  end.

Definition getConnectorStatus (st : ChargingStation) (connectorId : Z)
  : option ConnectorStatus :=
  if hasEvses st then getEvsesConnectorStatus connectorId (evses st)
  else mapGet connectorId (connectors st).

Definition isChargingStationAvailable (st : ChargingStation) : bool :=
  match getConnectorStatus st 0 with
  | Some c => bool_decide (availability c = Some Operative)
  | None => false
  end.

Definition isConnectorAvailable (st : ChargingStation) (connectorId : Z) : bool :=
  (0 <? connectorId) &&
  match getConnectorStatus st connectorId with
  | Some c => bool_decide (availability c = Some Operative)
  | None => false
  end.

Definition getCurrentOutType (info : ChargingStationInfo) : CurrentType :=
  match currentOutType info with
  | Some t => t
  | None => AC
  end.

Definition getNumberOfPhases (info : ChargingStationInfo) : Z :=
  match getCurrentOutType info with
  | AC => match numberOfPhases info with Some n => n | None => 3 end
  | DC => 0
  end.

(** ** [Helpers.ts] *)

Module Helpers.
Import DateFns.

Definition hasReservationExpired (now : Z) (r : Reservation) : bool :=
  isPast now (expiryDate r).

Fixpoint getNumberOfReservableConnectors (cs : JsMap ConnectorStatus) : Z :=
  match cs with
  | [] => 0
  | (connectorId, connectorStatus) :: rest =>
      if (connectorId =? 0) then getNumberOfReservableConnectors rest
      else if bool_decide (status connectorStatus = Some Available)
      then 1 + getNumberOfReservableConnectors rest
      else getNumberOfReservableConnectors rest
  end.

Definition getBootConnectorStatus (st : ChargingStation) (connectorId : Z)
    (connectorStatus : ConnectorStatus) : ConnectorStatusEnum :=
  let statusIsNull := bool_decide (status connectorStatus = None) in
  if statusIsNull &&
     (negb (isChargingStationAvailable st) || negb (isConnectorAvailable st connectorId))
  then Unavailable
  else
    match status connectorStatus, bootStatus connectorStatus with
    | None, Some boot => boot     (* boot status of the template *)
    | Some previous, _ => previous (* previous status *)
    | None, None => Available      (* default status *)
    end.

(** *** Charging profiles *)

Definition setStartSchedule (s : option Z) (cp : ChargingProfile) : ChargingProfile :=
  let cs := chargingSchedule cp in
  mkProfile (chargingProfileId cp) (stackLevel cp) (chargingProfileKind cp)
    (recurrencyKind cp) (validFrom cp) (validTo cp)
    (mkSchedule s (duration cs) (chargingRateUnit cs) (chargingSchedulePeriod cs)).

Definition setDuration (d : option JsSeconds) (cp : ChargingProfile) : ChargingProfile :=
  let cs := chargingSchedule cp in
  mkProfile (chargingProfileId cp) (stackLevel cp) (chargingProfileKind cp)
    (recurrencyKind cp) (validFrom cp) (validTo cp)
    (mkSchedule (startSchedule cs) d (chargingRateUnit cs) (chargingSchedulePeriod cs)).

Definition setChargingSchedulePeriod (ps : list ChargingSchedulePeriod)
    (cp : ChargingProfile) : ChargingProfile :=
  let cs := chargingSchedule cp in
  mkProfile (chargingProfileId cp) (stackLevel cp) (chargingProfileKind cp)
    (recurrencyKind cp) (validFrom cp) (validTo cp)
    (mkSchedule (startSchedule cs) (duration cs) (chargingRateUnit cs) ps).

Definition stackLevelCompareFn (a b : ChargingProfile) : Z :=
  stackLevel b - stackLevel a.

(** [getConnectorStatus (id)?.chargingProfiles ?? []]. *)
Definition chargingProfilesOrEmpty (st : ChargingStation) (id : Z)
  : list ChargingProfile :=
  match getConnectorStatus st id with
  | Some c => match chargingProfiles c with Some l => l | None => [] end
  | None => []
  end.

(** The profiles of the connector, highest stack level first, followed by
    the profiles of connector 0, highest stack level first. *)
Definition getConnectorChargingProfiles (st : ChargingStation) (connectorId : Z)
  : list ChargingProfile :=
  arraySort stackLevelCompareFn (chargingProfilesOrEmpty st connectorId)
    ++ arraySort stackLevelCompareFn (chargingProfilesOrEmpty st 0).

(** An interval of two dates; [None] when its ends are not valid dates. *)
Definition Interval : Type := option (Z * Z).

Definition intervalSeconds (i : Interval) : JsSeconds :=
  match i with
  | Some (start_, end_) => Seconds (differenceInSeconds end_ start_)
  | None => SecondsNaN
  end.

Definition checkRecurringChargingProfileDuration (cp : ChargingProfile) (i : Interval)
  : ChargingProfile :=
  match duration (chargingSchedule cp) with
  | None => setDuration (Some (intervalSeconds i)) cp
  | Some d =>
      if secondsGt d (intervalSeconds i)
      then setDuration (Some (intervalSeconds i)) cp
      else cp
  end.

(** Returns [recurringIntervalTranslated] and the profile as written. *)
Definition prepareRecurringChargingProfile (cp : ChargingProfile) (currentDate : Z)
  : bool * ChargingProfile :=
  let start_ := startSchedule (chargingSchedule cp) in
  match recurrencyKind cp with
  | Some DAILY =>
      let recurringInterval : Interval :=
        match start_ with Some s => Some (s, addDays s 1) | None => None end in
      let cp1 := checkRecurringChargingProfileDuration cp recurringInterval in
      match recurringInterval with
      | Some (s, e) =>
          if negb (isWithinInterval currentDate s e) && isBefore e currentDate
          then (true, setStartSchedule (Some (addDays s (differenceInDays currentDate s))) cp1)
          else (false, cp1)
      | None => (false, cp1)
      end
  | Some WEEKLY =>
      let recurringInterval : Interval :=
        match start_ with Some s => Some (s, addWeeks s 1) | None => None end in
      let cp1 := checkRecurringChargingProfileDuration cp recurringInterval in
      match recurringInterval with
      | Some (s, e) =>
          if negb (isWithinInterval currentDate s e) && isBefore e currentDate
          then (true, setStartSchedule (Some (addWeeks s (differenceInWeeks currentDate s))) cp1)
          else (false, cp1)
      | None => (false, cp1)
      end
  | None => (false, cp)
  end.

Definition canProceedRecurringChargingProfile (cp : ChargingProfile) : bool :=
  match chargingProfileKind cp with
  | RECURRING =>
      match recurrencyKind cp with
      | None => false
      | Some _ =>
          match startSchedule (chargingSchedule cp) with
          | None => false
          | Some _ => true
          end
      end
  | _ => true
  end.

(** Returns whether the profile can be used, and the profile as written. *)
Definition prepareChargingProfileKind (connectorStatus : option ConnectorStatus)
    (cp : ChargingProfile) (currentDate : Z) : bool * ChargingProfile :=
  match chargingProfileKind cp with
  | RECURRING =>
      if negb (canProceedRecurringChargingProfile cp) then (false, cp)
      else (true, snd (prepareRecurringChargingProfile cp currentDate))
  | RELATIVE =>
      let cp1 :=
        match startSchedule (chargingSchedule cp) with
        | Some _ => setStartSchedule None cp
        | None => cp
        end in
      match connectorStatus with
      | Some c =>
          if bool_decide (transactionStarted c = Some true)
          then (true, setStartSchedule (transactionStart c) cp1)
          else (true, cp1)
      | None => (true, cp1)
      end
  | ABSOLUTE => (true, cp)
  end.

Definition canProceedChargingProfile (cp : ChargingProfile) (currentDate : Z) : bool :=
  let notYetValid :=
    match validFrom cp with
    | Some f => isValidDate (validFrom cp) && isBefore currentDate f
    | None => false
    end in
  let noMoreValid :=
    match validTo cp with
    | Some t => isValidDate (validTo cp) && isAfter currentDate t
    | None => false
    end in
  if notYetValid || noMoreValid then false
  else
    match startSchedule (chargingSchedule cp), duration (chargingSchedule cp) with
    | Some _, Some d =>
        if negb (isValidDate (startSchedule (chargingSchedule cp))) then false
        else if negb (isSafeInteger d) then false
        else true
    | _, _ => false
    end.

Record ChargingProfilesLimit : Type := mkProfilesLimit {
  resultLimit : Q;
  resultChargingProfile : ChargingProfile
}.

Definition chargingSchedulePeriodCompareFn (a b : ChargingSchedulePeriod) : Z :=
  startPeriod a - startPeriod b.

(** The search loop over the schedule periods. [previous] is
    [previousChargingSchedulePeriod]; [Returns None] is the loop running
    to its end without a return; reading the limit of an undefined
    previous period throws a TypeError. *)
Fixpoint searchSchedulePeriod (start_ currentDate duration_ : Z)
    (previous : option ChargingSchedulePeriod) (ps : list ChargingSchedulePeriod)
  : Completion (option Q) :=
  match ps with
  | [] => Returns None
  | p :: rest =>
      if isAfter (addSeconds start_ (startPeriod p)) currentDate
      then match previous with
           | Some q => Returns (Some (limit q))
           | None => Throws TypeError
           end
      else
        match rest with
        | [] => Returns (Some (limit p))
        | next :: _ =>
            if (duration_ <? differenceInSeconds (addSeconds start_ (startPeriod next)) start_)
            then Returns (Some (limit p))
            else searchSchedulePeriod start_ currentDate duration_ (Some p) rest
        end
  end.

(** The periods as the code leaves them in the schedule: sorted in place
    when [isArraySorted] says that they are not. *)
Definition sortedSchedulePeriods (ps : list ChargingSchedulePeriod)
  : list ChargingSchedulePeriod :=
  if negb (isArraySorted chargingSchedulePeriodCompareFn ps)
  then arraySort chargingSchedulePeriodCompareFn ps
  else ps.

(** From the test on the schedule periods to the end of the loop body, for
    an active schedule. The periods are left sorted in the profile. *)
Definition getLimitFromSchedulePeriods (start_ currentDate duration_ : Z)
    (ps : list ChargingSchedulePeriod)
  : Completion (option Q) * list ChargingSchedulePeriod :=
  if isNotEmptyArray ps then
    let sorted := sortedSchedulePeriods ps in
    match sorted with
    | [] => (Returns None, sorted)
    | first :: others =>
        if negb (startPeriod first =? 0) then (Returns None, sorted)
        else
          match others with
          | [] => (Returns (Some (limit first)), sorted)
          | _ :: _ =>
              (searchSchedulePeriod start_ currentDate duration_ None sorted, sorted)
          end
    end
  else (Returns None, ps).

(** [connectorStatus?.transactionStart]. *)
Definition transactionStartOf (connectorStatus : option ConnectorStatus) : option Z :=
  match connectorStatus with
  | Some c => transactionStart c
  | None => None
  end.

(** The first statements of the loop body: a missing start of schedule is
    taken from the transaction of the connector, a missing duration runs
    to [maxTime]. A date of the model needs no conversion. *)
Definition defaultStartScheduleAndDuration (connectorStatus : option ConnectorStatus)
    (cp : ChargingProfile) : ChargingProfile :=
  let cp1 :=
    match startSchedule (chargingSchedule cp) with
    | None => setStartSchedule (transactionStartOf connectorStatus) cp
    | Some _ => cp
    end in
  match duration (chargingSchedule cp1) with
  | None =>
      setDuration
        (Some (match startSchedule (chargingSchedule cp1) with
               | Some s => Seconds (differenceInSeconds maxTime s)
               | None => SecondsNaN
               end)) cp1
  | Some _ => cp1
  end.

(** The profile when the loop body reaches the test on the interval of the
    schedule; [None] when the body went on to the next profile before. *)
Definition preparedChargingProfile (connectorStatus : option ConnectorStatus)
    (currentDate : Z) (cp : ChargingProfile) : option ChargingProfile :=
  let cp1 := defaultStartScheduleAndDuration connectorStatus cp in
  let '(proceed, cp2) := prepareChargingProfileKind connectorStatus cp1 currentDate in
  if negb proceed then None
  else if negb (canProceedChargingProfile cp2 currentDate) then None
  else Some cp2.

(** One turn of the loop of [getLimitFromChargingProfiles]:
    [Returns (Some r)] returns [r] from the function, [Returns None] goes
    on to the next profile. *)
Definition getLimitFromChargingProfile (connectorStatus : option ConnectorStatus)
    (currentDate : Z) (cp : ChargingProfile)
  : Completion (option ChargingProfilesLimit) :=
  match preparedChargingProfile connectorStatus currentDate cp with
  | None => Returns None
  | Some cp2 =>
      match startSchedule (chargingSchedule cp2), duration (chargingSchedule cp2) with
      | Some s, Some (Seconds d) =>
          if isWithinInterval currentDate s (addSeconds s d) then
            let '(found, sorted) :=
              getLimitFromSchedulePeriods s currentDate d
                (chargingSchedulePeriod (chargingSchedule cp2)) in
            match found with
            | Returns (Some l) =>
                Returns (Some (mkProfilesLimit l (setChargingSchedulePeriod sorted cp2)))
            | Returns None => Returns None
            | Throws e => Throws e
            end
          else Returns None
      | _, _ => Returns None
      end
  end.

Fixpoint getLimitFromChargingProfilesLoop (connectorStatus : option ConnectorStatus)
    (currentDate : Z) (cps : list ChargingProfile)
  : Completion (option ChargingProfilesLimit) :=
  match cps with
  | [] => Returns None
  | cp :: rest =>
      match getLimitFromChargingProfile connectorStatus currentDate cp with
      | Returns None => getLimitFromChargingProfilesLoop connectorStatus currentDate rest
      | r => r
      end
  end.

(** [currentDate] is the reading of the clock, [new Date()]. *)
Definition getLimitFromChargingProfiles (st : ChargingStation) (connectorId : Z)
    (cps : list ChargingProfile) (currentDate : Z)
  : Completion (option ChargingProfilesLimit) :=
  getLimitFromChargingProfilesLoop (getConnectorStatus st connectorId) currentDate cps.

(** The limit in Watts; [Returns None] is [undefined]. *)
Definition getChargingStationConnectorChargingProfilesPowerLimit
    (st : ChargingStation) (connectorId : Z) (currentDate : Z)
  : Completion (option JsNumber) :=
  let cps := getConnectorChargingProfiles st connectorId in
  if isNotEmptyArray cps then
    match getLimitFromChargingProfiles st connectorId cps currentDate with
    | Throws e => Throws e
    | Returns None => Returns None
    | Returns (Some result) =>
        let limit0 := Finite (resultLimit result) in
        let unit_ := chargingRateUnit (chargingSchedule (resultChargingProfile result)) in
        match stationInfo st with
        | None => Throws TypeError
        | Some info =>
            let limit1 :=
              match currentOutType info with
              | Some AC =>
                  match unit_ with
                  | WATT => limit0
                  | AMPERE =>
                      ACElectricUtils.powerTotal (getNumberOfPhases info)
                        (jsOfOption (voltageOut info)) (resultLimit result)
                  end
              | Some DC =>
                  match unit_ with
                  | WATT => limit0
                  | AMPERE =>
                      DCElectricUtils.power (jsOfOption (voltageOut info)) (resultLimit result)
                  end
              | None => limit0
              end in
            let connectorMaximumPower := jsDiv (maximumPower info) (powerDivider st) in
            if jsGt limit1 connectorMaximumPower
            then Returns (Some connectorMaximumPower)
            else Returns (Some limit1)
        end
    end
  else Returns None.

End Helpers.

(** ** [ChargingStation.ts]: registration *)

Definition inUnknownState (st : ChargingStation) : bool :=
  match bootNotificationResponse st with
  | Some r => match bootStatusField r with Some _ => false | None => true end
  | None => true
  end.

Definition inRegistrationState (s : RegistrationStatusEnumType) (st : ChargingStation) : bool :=
  match bootNotificationResponse st with
  | Some r =>
      match bootStatusField r, s with
      | Some ACCEPTED, ACCEPTED | Some PENDING, PENDING | Some REJECTED, REJECTED => true
      | _, _ => false
      end
  | None => false
  end.

Definition inPendingState : ChargingStation -> bool := inRegistrationState PENDING.
Definition inAcceptedState : ChargingStation -> bool := inRegistrationState ACCEPTED.
Definition inRejectedState : ChargingStation -> bool := inRegistrationState REJECTED.

Definition isRegistered (st : ChargingStation) : bool :=
  negb (inUnknownState st) && (inAcceptedState st || inPendingState st).

Definition setBootNotificationResponse (r : option BootNotificationResponse)
    (st : ChargingStation) : ChargingStation :=
  mkStation (stationInfo st) (connectors st) (evses st) (powerDivider st) r
    (sentStatusNotifications st).

(** What the request service answers to one BootNotification request. *)
Inductive BootNotificationOutcome : Type :=
  | Responded (r : BootNotificationResponse)
  | RequestFailed.

Inductive ChargingStationEvents : Type :=
  | registered | accepted | updated.

(** What [onOpen] does that can be seen from outside, oldest first. *)
Inductive OnOpenAction : Type :=
  | BootNotificationSent
  | Slept (milliseconds : Z)
  | Emitted (e : ChargingStationEvents)
  | RegistrationFailureLogged
  | ConnectionFailureLogged.

(** How a run of [onOpen] ends: it returns, its promise is rejected by a
    failed request or by a TypeError, or it stays suspended on a request
    that the given answers do not cover. *)
Inductive OnOpenEnd : Type :=
  | OnOpenReturned
  | OnOpenRequestFailed
  | OnOpenTypeError
  | OnOpenAwaitingResponse.

Record OnOpenRun : Type := mkOnOpenRun {
  runStation : ChargingStation;
  runRetryCount : Z;
  runActions : list OnOpenAction;
  runEnd : OnOpenEnd
}.

Section OnOpen.

(** [Constants.DEFAULT_BOOT_NOTIFICATION_INTERVAL], in milliseconds. *)
Variable DEFAULT_BOOT_NOTIFICATION_INTERVAL : Z.

Definition secondsToMilliseconds (s : Z) : Z := s * 1000.

(** What follows the loop. *)
Definition onOpenEpilogue (st : ChargingStation) (registrationRetryCount : Z)
    (done : list OnOpenAction) : OnOpenRun :=
  let outcome :=
    if isRegistered st then
      Emitted registered :: (if inAcceptedState st then [Emitted accepted] else [])
    else [RegistrationFailureLogged] in
  mkOnOpenRun st registrationRetryCount (done ++ outcome ++ [Emitted updated]) OnOpenReturned.

(** The do-while loop; each turn takes the answer to its request from
    [answers]. *)
Fixpoint registrationLoop (answers : list BootNotificationOutcome)
    (st : ChargingStation) (registrationRetryCount : Z) (done : list OnOpenAction)
  : OnOpenRun :=
  match answers with
  | [] =>
      mkOnOpenRun st registrationRetryCount (done ++ [BootNotificationSent])
        OnOpenAwaitingResponse
  | RequestFailed :: _ =>
      mkOnOpenRun st registrationRetryCount (done ++ [BootNotificationSent])
        OnOpenRequestFailed
  | Responded r :: rest =>
      let st1 := setBootNotificationResponse (Some r) st in
      let maxRetries :=
        match stationInfo st1 with
        | Some info => registrationMaxRetries info
        | None => None
        end in
      let notUnbounded := negb (bool_decide (maxRetries = Some (-1))) in
      let '(count1, done1) :=
        if negb (isRegistered st1) then
          ((if notUnbounded then registrationRetryCount + 1 else registrationRetryCount),
           done ++ [BootNotificationSent;
                    Slept (match interval r with
                           | Some i => secondsToMilliseconds i
                           | None => DEFAULT_BOOT_NOTIFICATION_INTERVAL
                           end)])
        else (registrationRetryCount, done ++ [BootNotificationSent]) in
      if negb (isRegistered st1) then
        match stationInfo st1 with
        | None => mkOnOpenRun st1 count1 done1 OnOpenTypeError
        | Some _ =>
            let withinRetries :=
              match maxRetries with
              | Some m => count1 <=? m
              | None => false
              end in
            if withinRetries || negb notUnbounded
            then registrationLoop rest st1 count1 done1
            else onOpenEpilogue st1 count1 done1
        end
      else onOpenEpilogue st1 count1 done1
  end.

(** [webSocketOpened] is [isWebSocketConnectionOpened ()]. *)
Definition onOpen (webSocketOpened : bool) (answers : list BootNotificationOutcome)
    (st : ChargingStation) : OnOpenRun :=
  if webSocketOpened then
    if negb (isRegistered st) then registrationLoop answers st 0 []
    else onOpenEpilogue st 0 []
  else mkOnOpenRun st 0 [ConnectionFailureLogged] OnOpenReturned.

End OnOpen.

(** ** [ChargingStation.ts]: reservations *)

Inductive ReservationTerminationReason : Type :=
  | EXPIRED
  | TRANSACTION_STARTED
  | CONNECTOR_STATE_CHANGED
  | RESERVATION_CANCELED
  | REPLACE_EXISTING
  | OtherReason (value : string).  (* a value outside the enumeration *)

(** The key and the value given to [getReservationBy]. *)
Inductive ReservationFilter : Type :=
  | ByReservationId (value : Z)
  | ByIdTag (value : string).

Definition reservationMatches (f : ReservationFilter) (r : Reservation) : bool :=
  match f with
  | ByReservationId v => reservationId r =? v
  | ByIdTag v => String.eqb (idTag r) v
  end.

Fixpoint findReservation (f : ReservationFilter) (cs : JsMap ConnectorStatus)
  : option Reservation :=
  match cs with
  | [] => None
  | (_, connectorStatus) :: rest =>
      match reservation connectorStatus with
      | Some r => if reservationMatches f r then Some r else findReservation f rest
      | None => findReservation f rest
      end
  end.

Fixpoint findEvsesReservation (f : ReservationFilter) (es : JsMap EvseStatus)
  : option Reservation :=
  match es with
  | [] => None
  | (_, evseStatus) :: rest =>
      match findReservation f (evseConnectors evseStatus) with
      | Some r => Some r
      | None => findEvsesReservation f rest
      end
  end.

Definition getReservationBy (st : ChargingStation) (f : ReservationFilter)
  : option Reservation :=
  if hasEvses st then findEvsesReservation f (evses st)
  else findReservation f (connectors st).

Definition getNumberOfReservationsOnConnectorZero (st : ChargingStation) : Z :=
  let reservedOn (c : option ConnectorStatus) : bool :=
    match c with
    | Some c => match reservation c with Some _ => true | None => false end
    | None => false
    end in
  if (hasEvses st &&
      reservedOn (match mapGet 0 (evses st) with
                  | Some e => mapGet 0 (evseConnectors e)
                  | None => None
                  end))
     || (negb (hasEvses st) && reservedOn (mapGet 0 (connectors st)))
  then 1 else 0.

Definition getNumberOfReservableConnectors (st : ChargingStation) : Z :=
  let numberOfReservableConnectors :=
    if hasEvses st then
      fold_left (fun n e => n + Helpers.getNumberOfReservableConnectors (evseConnectors (snd e)))
        (evses st) 0
    else Helpers.getNumberOfReservableConnectors (connectors st) in
  numberOfReservableConnectors - getNumberOfReservationsOnConnectorZero st.

(** [argumentsLength] is [arguments.length], the number of arguments of the
    call, whether [undefined] or not; [now] is the reading of the clock. *)
Definition isConnectorReservable (st : ChargingStation) (now : Z) (argumentsLength : nat)
    (reservationId : Z) (idTag : option string) (connectorId : option Z) : bool :=
  let reservationExists :=
    match getReservationBy st (ByReservationId reservationId) with
    | Some r => negb (Helpers.hasReservationExpired now r)
    | None => false
    end in
  if (argumentsLength =? 1)%nat then negb reservationExists
  else if (1 <? argumentsLength)%nat then
    let userReservation :=
      match idTag with
      | Some tag => getReservationBy st (ByIdTag tag)
      | None => None
      end in
    let userReservationExists :=
      match userReservation with
      | Some r => negb (Helpers.hasReservationExpired now r)
      | None => false
      end in
    let notConnectorZero :=
      match connectorId with
      | None => true
      | Some id => 0 <? id
      end in
    let freeConnectorsAvailable := 0 <? getNumberOfReservableConnectors st in
    negb reservationExists && negb userReservationExists
      && notConnectorZero && freeConnectorsAvailable
  else false.

Definition setStatus (s : option ConnectorStatusEnum) (c : ConnectorStatus) : ConnectorStatus :=
  mkConnector (availability c) s (bootStatus c) (transactionStarted c)
    (transactionStart c) (chargingProfiles c) (reservation c).

Definition deleteReservation (c : ConnectorStatus) : ConnectorStatus :=
  mkConnector (availability c) (status c) (bootStatus c) (transactionStarted c)
    (transactionStart c) (chargingProfiles c) None.

Fixpoint updateEvsesConnector (connectorId : Z) (f : ConnectorStatus -> ConnectorStatus)
    (es : JsMap EvseStatus) : JsMap EvseStatus :=
  match es with
  | [] => []
  | (evseId, evseStatus) :: rest =>
      if mapHas connectorId (evseConnectors evseStatus)
      then (evseId, mkEvse (evseAvailability evseStatus)
                      (mapUpdate connectorId f (evseConnectors evseStatus))) :: rest
      else (evseId, evseStatus) :: updateEvsesConnector connectorId f rest
  end.

(** A write to the object that [getConnectorStatus st connectorId] returns. *)
Definition updateConnectorStatus (connectorId : Z) (f : ConnectorStatus -> ConnectorStatus)
    (st : ChargingStation) : ChargingStation :=
  if hasEvses st then
    mkStation (stationInfo st) (connectors st)
      (updateEvsesConnector connectorId f (evses st)) (powerDivider st)
      (bootNotificationResponse st) (sentStatusNotifications st)
  else
    mkStation (stationInfo st) (mapUpdate connectorId f (connectors st)) (evses st)
      (powerDivider st) (bootNotificationResponse st) (sentStatusNotifications st).

Definition sendStatusNotification (n : StatusNotification) (st : ChargingStation)
  : ChargingStation :=
  mkStation (stationInfo st) (connectors st) (evses st) (powerDivider st)
    (bootNotificationResponse st) (sentStatusNotifications st ++ [n]).

(** Modelled from the spec: [sendAndSetConnectorStatus] of ocpp/, which is
    not among the sources; it sends a StatusNotification with the status for
    the connector when the option [send] is set, the request being answered,
    and sets the status of the connector. *)
Definition sendAndSetConnectorStatus (st : ChargingStation) (connectorId : Z)
    (s : ConnectorStatusEnum) (send : bool) : ChargingStation :=
  let st1 :=
    if send then sendStatusNotification (mkStatusNotification connectorId s) st else st in
  updateConnectorStatus connectorId (setStatus (Some s)) st1.

(** The station as the call leaves it, and the error when the call throws. *)
Definition removeReservation (st : ChargingStation) (r : Reservation)
    (reason : ReservationTerminationReason) : ChargingStation * option JsError :=
  let connector := getConnectorStatus st (reservationConnectorId r) in
  let deleteConnectorReservation (st' : ChargingStation) : ChargingStation * option JsError :=
    match connector with
    | Some _ => (updateConnectorStatus (reservationConnectorId r) deleteReservation st', None)
    | None => (st', Some TypeError)
    end in
  match reason with
  | CONNECTOR_STATE_CHANGED | TRANSACTION_STARTED => deleteConnectorReservation st
  | RESERVATION_CANCELED | REPLACE_EXISTING | EXPIRED =>
      deleteConnectorReservation
        (sendAndSetConnectorStatus st (reservationConnectorId r) Available
           (negb (reservationConnectorId r =? 0)))
  | OtherReason value =>
      (st, Some (BaseError ("Unknown reservation termination reason '" ++ value ++ "'")))
  end.

(** ** [ChargingStation.ts]: the lifecycle flags

    [started], [starting] and [stopping] are written by the constructor,
    [start] and [stop] only. [stop] and [reset] are asynchronous: between
    two awaits a call runs without interruption, and at an await other calls
    may run. The model has one transition for each such piece of a call. The
    listeners of the [started] and [stopped] events, which the constructor
    registers, return normally. *)

Module Lifecycle.

Record Flags : Type := mkFlags {
  started : bool;
  starting : bool;
  stopping : bool
}.

(** The flags together with the calls that are suspended at an await. *)
Record State : Type := mkState {
  flags : Flags;
  suspendedStops : nat;   (* calls of [stop] awaiting [stopMessageSequence] *)
  suspendedResets : nat   (* calls of [reset] awaiting [stop] or [sleep] *)
}.

Definition constructor : State := mkState (mkFlags false false false) 0 0.

(** [start ()]. [opened] tells whether the statements between the write of
    [starting] and the write of [started], which open the connection and
    watch the template file, complete; when one of them throws, the call
    ends there. *)
Definition start (opened : bool) (f : Flags) : Flags :=
  if negb (started f) then
    if negb (starting f) then
      let f1 := mkFlags (started f) true (stopping f) in
      if opened then
        let f2 := mkFlags true (starting f1) (stopping f1) in
        mkFlags (started f2) false (stopping f2)
      else f1
    else f
  else f.

(** [stop ()] up to its await: [true] when the call is suspended there,
    [false] when it has returned. *)
Definition stopEnter (f : Flags) : Flags * bool :=
  if started f then
    if negb (stopping f) then (mkFlags (started f) (starting f) true, true)
    else (f, false)
  else (f, false).

(** [stop ()] after its await, when [stopMessageSequence] is fulfilled. *)
Definition stopResume (f : Flags) : Flags :=
  let f1 := mkFlags false (starting f) (stopping f) in
  mkFlags (started f1) (starting f1) false.

Inductive Event : Type :=
  | CallStart (opened : bool)
  | CallStop
  | StopSequenceFulfilled
  | StopSequenceRejected
  | CallReset
  (* [reset ()] after [await this.stop (reason)] and [await sleep (...)]:
     [initialize ()] returns and [start ()] runs, or [initialize ()]
     throws *)
  | ResetResumed (initialized opened : bool)
  | ResetRejected.

Definition step (s : State) (e : Event) : option State :=
  match e with
  | CallStart opened =>
      Some (mkState (start opened (flags s)) (suspendedStops s) (suspendedResets s))
  | CallStop =>
      let '(f, suspended) := stopEnter (flags s) in
      Some (mkState f (if suspended then S (suspendedStops s) else suspendedStops s)
              (suspendedResets s))
  | StopSequenceFulfilled =>
      match suspendedStops s with
      | O => None
      | S n => Some (mkState (stopResume (flags s)) n (suspendedResets s))
      end
  | StopSequenceRejected =>
      match suspendedStops s with
      | O => None
      | S n => Some (mkState (flags s) n (suspendedResets s))
      end
  | CallReset =>
      let '(f, suspended) := stopEnter (flags s) in
      Some (mkState f (if suspended then S (suspendedStops s) else suspendedStops s)
              (S (suspendedResets s)))
  | ResetResumed initialized opened =>
      match suspendedResets s with
      | O => None
      | S n =>
          Some (mkState (if initialized then start opened (flags s) else flags s)
                  (suspendedStops s) n)
      end
  | ResetRejected =>
      match suspendedResets s with
      | O => None
      | S n => Some (mkState (flags s) (suspendedStops s) n)
      end
  end.

(** The states that a station goes through from its construction. *)
Inductive reachable : State -> Prop :=
  | reachable_constructor : reachable constructor
  | reachable_step s e s' : reachable s -> step s e = Some s' -> reachable s'.

Fixpoint run (s : State) (es : list Event) : option State :=
  match es with
  | [] => Some s
  | e :: rest =>
      match step s e with
      | Some s' => run s' rest
      | None => None
      end
  end.

Definition invariant (f : Flags) : Prop :=
  ~ (started f = true /\ starting f = true) /\ (stopping f = true -> started f = true).

End Lifecycle.

(** ** [PerformanceStatistics.ts] *)

Module PerformanceStatistics.

Inductive MessageType : Type :=
  | CALL_MESSAGE
  | CALL_RESULT_MESSAGE
  | CALL_ERROR_MESSAGE
  | OtherMessageType (code : Z).

(** An entry of [statisticsData]; every field may be missing. The time
    measurements are written by [addPerformanceEntryToStatistics] only. *)
Record StatisticsData : Type := mkStatisticsData {
  requestCount : option Z;
  responseCount : option Z;
  errorCount : option Z;
  messageSize : option Z;
  timeMeasurementCount : option Z;
  currentTimeMeasurement : option Q;
  minTimeMeasurement : option Q;
  maxTimeMeasurement : option Q;
  totalTimeMeasurement : option Q;
  measurementTimeSeries : option (list (Q * Q))
}.

Definition emptyStatisticsData : StatisticsData :=
  mkStatisticsData None None None None None None None None None None.

Definition setRequestCount (n : option Z) (d : StatisticsData) : StatisticsData :=
  mkStatisticsData n (responseCount d) (errorCount d) (messageSize d)
    (timeMeasurementCount d) (currentTimeMeasurement d) (minTimeMeasurement d)
    (maxTimeMeasurement d) (totalTimeMeasurement d) (measurementTimeSeries d).

Definition setResponseCount (n : option Z) (d : StatisticsData) : StatisticsData :=
  mkStatisticsData (requestCount d) n (errorCount d) (messageSize d)
    (timeMeasurementCount d) (currentTimeMeasurement d) (minTimeMeasurement d)
    (maxTimeMeasurement d) (totalTimeMeasurement d) (measurementTimeSeries d).

Definition setErrorCount (n : option Z) (d : StatisticsData) : StatisticsData :=
  mkStatisticsData (requestCount d) (responseCount d) n (messageSize d)
    (timeMeasurementCount d) (currentTimeMeasurement d) (minTimeMeasurement d)
    (maxTimeMeasurement d) (totalTimeMeasurement d) (measurementTimeSeries d).

Definition setMessageSize (n : option Z) (d : StatisticsData) : StatisticsData :=
  mkStatisticsData (requestCount d) (responseCount d) (errorCount d) n
    (timeMeasurementCount d) (currentTimeMeasurement d) (minTimeMeasurement d)
    (maxTimeMeasurement d) (totalTimeMeasurement d) (measurementTimeSeries d).

(** [{ ...statisticsData.get (command) }]: the fields of the entry, none
    when there is no entry. *)
Definition spreadEntry (statisticsData : gmap string StatisticsData) (command : string)
  : StatisticsData :=
  match statisticsData !! command with
  | Some d => d
  | None => emptyStatisticsData
  end.

Definition addRequestStatistic (statisticsData : gmap string StatisticsData)
    (command : string) (messageType : MessageType) (size : option Z)
  : gmap string StatisticsData :=
  match messageType with
  | CALL_MESSAGE =>
      match statisticsData !! command with
      | Some (mkStatisticsData (Some n) _ _ _ _ _ _ _ _ _ as d) =>
          <[command := setRequestCount (Some (n + 1)) d]> statisticsData
      | _ =>
          match size with
          | Some sz =>
              <[command := setMessageSize (Some sz)
                             (setRequestCount (Some 1) (spreadEntry statisticsData command))]>
                statisticsData
          | None =>
              <[command := setRequestCount (Some 1) (spreadEntry statisticsData command)]>
                statisticsData
          end
      end
  | CALL_RESULT_MESSAGE =>
      match statisticsData !! command with
      | Some (mkStatisticsData _ (Some n) _ _ _ _ _ _ _ _ as d) =>
          <[command := setResponseCount (Some (n + 1)) d]> statisticsData
      | _ =>
          <[command := setResponseCount (Some 1) (spreadEntry statisticsData command)]>
            statisticsData
      end
  | CALL_ERROR_MESSAGE =>
      match statisticsData !! command with
      | Some (mkStatisticsData _ _ (Some n) _ _ _ _ _ _ _ as d) =>
          <[command := setErrorCount (Some (n + 1)) d]> statisticsData
      | _ =>
          <[command := setErrorCount (Some 1) (spreadEntry statisticsData command)]>
            statisticsData
      end
  | OtherMessageType _ => statisticsData
  end.

(** The calls of [addRequestStatistic] for one command, in order. *)
Definition addRequestStatistics (statisticsData : gmap string StatisticsData)
    (command : string) (calls : list (MessageType * option Z))
  : gmap string StatisticsData :=
  fold_left (fun m c => addRequestStatistic m command (fst c) (snd c)) calls statisticsData.

End PerformanceStatistics.

(** * The specification's wording and example data *)

(** ** Boot connector status *)

(** The resolution as the specification words it: previous status, then the
    boot status of the template, then the availability. *)
Definition bootConnectorStatus_as_specified (st : ChargingStation) (connectorId : Z)
    (c : ConnectorStatus) : ConnectorStatusEnum :=
  match status c with
  | Some previous => previous
  | None =>
      match bootStatus c with
      | Some boot => boot
      | None =>
          if negb (isChargingStationAvailable st) || negb (isConnectorAvailable st connectorId)
          then Unavailable
          else Available
      end
  end.

Definition inoperativeConnector : ConnectorStatus :=
  mkConnector (Some Inoperative) None None None None None None.

Definition connectorWithBootStatus (boot : ConnectorStatusEnum) : ConnectorStatus :=
  mkConnector (Some Operative) None (Some boot) None None None None.

Definition inoperativeStation : ChargingStation :=
  mkStation None [(0, inoperativeConnector); (1, connectorWithBootStatus Charging)] []
    None None [].


(** ** Reservations *)

(** Whether [getReservationBy] finds a reservation that has not expired. *)
Definition hasActiveReservation (st : ChargingStation) (now : Z) (f : ReservationFilter)
  : bool :=
  match getReservationBy st f with
  | Some r => negb (Helpers.hasReservationExpired now r)
  | None => false
  end.

(** [isConnectorReservable] as the specification words it, whatever the
    number of arguments of the call. *)
Definition isConnectorReservable_as_specified (st : ChargingStation) (now : Z)
    (reservationId : Z) (idTag : option string) (connectorId : option Z) : bool :=
  match getReservationBy st (ByReservationId reservationId) with
  | Some _ => false
  | None =>
      negb (match idTag with
            | Some tag => hasActiveReservation st now (ByIdTag tag)
            | None => false
            end)
      && match connectorId with
         | Some id => 0 <? id
         | None => false
         end
      && (0 <? getNumberOfReservableConnectors st)
  end.

(** A station whose only connector is charging. *)
Definition busyStation : ChargingStation :=
  mkStation None
    [(0, mkConnector (Some Operative) None None None None None None);
     (1, mkConnector (Some Operative) (Some Charging) None (Some true) (Some 0) None None)]
    [] None None [].

Definition sampleReservation : Reservation := mkReservation 7 1 "TAG-1" 2000 None.

(** A station with a reservation on connector 1, without EVSEs. *)
Definition reservedStation : ChargingStation :=
  mkStation None
    [(0, mkConnector (Some Operative) None None None None None None);
     (1, mkConnector (Some Operative) (Some Reserved) None None None None
           (Some sampleReservation));
     (2, mkConnector (Some Operative) (Some Available) None None None None None)]
    [] None None [].

(** ** Request statistics *)

(** A first CALL_MESSAGE with the message size [size] followed by
    CALL_MESSAGEs with the sizes [laterSizes], for one command. *)
Definition callMessages (size : option Z) (laterSizes : list (option Z))
  : list (PerformanceStatistics.MessageType * option Z) :=
  (PerformanceStatistics.CALL_MESSAGE, size)
    :: map (fun s => (PerformanceStatistics.CALL_MESSAGE, s)) laterSizes.

(** ** Registration *)

(** Whether a BootNotification response leaves the station registered. *)
Definition registers (r : BootNotificationResponse) : bool :=
  match bootStatusField r with
  | Some ACCEPTED | Some PENDING => true
  | Some REJECTED | None => false
  end.

Definition accepts (r : BootNotificationResponse) : bool :=
  match bootStatusField r with
  | Some ACCEPTED => true
  | _ => false
  end.

(** The station after a sequence of responses. *)
Definition afterResponses (st : ChargingStation) (rs : list BootNotificationResponse)
  : ChargingStation :=
  fold_left (fun s r => setBootNotificationResponse (Some r) s) rs st.

(** The sleep that follows a response which does not register. *)
Definition retrySleep (defaultInterval : Z) (r : BootNotificationResponse) : Z :=
  match interval r with
  | Some i => secondsToMilliseconds i
  | None => defaultInterval
  end.

(** A request and the sleep after its response, for each of the responses. *)
Definition retryActions (defaultInterval : Z) (rs : list BootNotificationResponse)
  : list OnOpenAction :=
  flat_map (fun r => [BootNotificationSent; Slept (retrySleep defaultInterval r)]) rs.

Definition unregisteredStation (maxRetries : Z) : ChargingStation :=
  mkStation (Some (mkStationInfo (Some AC) (Some (230 # 1)) (Some 3) (Some (22080 # 1))
                     (Some maxRetries)))
    [(0, mkConnector (Some Operative) None None None None None None);
     (1, mkConnector (Some Operative) None None None None None None)]
    [] (Some (1 # 1)) None [].

(** ** Schedule periods *)

(** The order of an array sorted by a numeric key. *)
Definition ascendingBy {A : Type} (key : A -> Z) (a b : A) : Prop := key a <= key b.



(** 2024-01-01T00:00:00Z, in milliseconds. *)
Definition date_2024_01_01 : Z := 1704067200000.

(** An absolute profile in Amperes for one day from 2024-01-01, whose
    periods are given out of order: 16 A from the start, 11 A after one
    hour, 6 A after two hours. *)
Definition unsortedPeriodsProfile : ChargingProfile :=
  mkProfile 1 1 ABSOLUTE None None None
    (mkSchedule (Some date_2024_01_01) (Some (Seconds 86400)) AMPERE
       [mkPeriod 3600 (11 # 1) None; mkPeriod 0 (16 # 1) None; mkPeriod 7200 (6 # 1) None]).

Definition acStation (profiles1 profiles0 : list ChargingProfile) : ChargingStation :=
  mkStation (Some (mkStationInfo (Some AC) (Some (230 # 1)) (Some 3) (Some (22080 # 1))
                     (Some 5)))
    [(0, mkConnector (Some Operative) None None None None (Some profiles0) None);
     (1, mkConnector (Some Operative) (Some Charging) None (Some true)
           (Some date_2024_01_01) (Some profiles1) None)]
    [] (Some (1 # 1)) None [].

(** ** Recurring profiles *)







(** 2024-01-22T00:00:00Z and 2024-01-22T12:00:00Z, in milliseconds. *)
Definition date_2024_01_22 : Z := 1705881600000.

(** ** Power limit *)


(** The limit of a profile in Watts, for a station with the voltage [v]:
    voltage * current * phases on AC and voltage * current on DC when the
    unit is A, the limit itself when the unit is W. *)
Definition limitInWatts (info : ChargingStationInfo) (v : Q) (unit_ : ChargingRateUnitType)
    (l : Q) : Q :=
  match unit_, currentOutType info with
  | AMPERE, Some AC => (v * l * inject_Z (getNumberOfPhases info))%Q
  | AMPERE, Some DC => (v * l)%Q
  | _, _ => l
  end.

(** An absolute profile in Amperes with one period, running for one day from
    2024-01-01. *)
Definition ampereProfile (id level : Z) (amperes : Q) : ChargingProfile :=
  mkProfile id level ABSOLUTE None None None
    (mkSchedule (Some date_2024_01_01) (Some (Seconds 86400)) AMPERE
       [mkPeriod 0 amperes None]).

(** The station of the scenario: AC, 230 V, 3 phases, connector 1 with a
    profile of stack level 1 at 16 A and one of stack level 2 at 10 A; the
    maximum power and the power divider are left open. *)
Definition twoProfilesStation (power divider : Q) : ChargingStation :=
  mkStation (Some (mkStationInfo (Some AC) (Some (230 # 1)) (Some 3) (Some power) (Some 5)))
    [(0, mkConnector (Some Operative) None None None None None None);
     (1, mkConnector (Some Operative) (Some Charging) None (Some true)
           (Some date_2024_01_01)
           (Some [ampereProfile 1 1 (16 # 1); ampereProfile 2 2 (10 # 1)]) None)]
    [] (Some divider) None [].

(** Noon of 2024-01-01, when both profiles are active. *)
Definition date_2024_01_01_noon : Z := date_2024_01_01 + 43200000.

(** * Further parts of the sources *)

(** ** [ChargingStation.ts]: connectors, EVSEs and the power divider *)

Fixpoint evsesHaveConnector (connectorId : Z) (es : JsMap EvseStatus) : bool :=
  match es with
  | [] => false
  | (_, evseStatus) :: rest =>
      if mapHas connectorId (evseConnectors evseStatus) then true
      else evsesHaveConnector connectorId rest
  end.

Definition hasConnector (st : ChargingStation) (connectorId : Z) : bool :=
  if hasEvses st then evsesHaveConnector connectorId (evses st)
  else mapHas connectorId (connectors st).

(** [map.size]. *)
Definition mapSize {V : Type} (m : JsMap V) : Z := Z.of_nat (length m).

Fixpoint getNumberOfEvsesConnectors (es : JsMap EvseStatus) : Z :=
  match es with
  | [] => 0
  | (evseId, evseStatus) :: rest =>
      if (0 <? evseId)
      then mapSize (evseConnectors evseStatus) + getNumberOfEvsesConnectors rest
      else getNumberOfEvsesConnectors rest
  end.

Definition getNumberOfConnectors (st : ChargingStation) : Z :=
  if hasEvses st then getNumberOfEvsesConnectors (evses st)
  else if mapHas 0 (connectors st) then mapSize (connectors st) - 1
  else mapSize (connectors st).

Definition getNumberOfEvses (st : ChargingStation) : Z :=
  if mapHas 0 (evses st) then mapSize (evses st) - 1 else mapSize (evses st).

(** The connectors of a map with a transaction started. *)
Fixpoint countTransactionsStarted (cs : JsMap ConnectorStatus) : Z :=
  match cs with
  | [] => 0
  | (_, connectorStatus) :: rest =>
      if bool_decide (transactionStarted connectorStatus = Some true)
      then 1 + countTransactionsStarted rest
      else countTransactionsStarted rest
  end.

Fixpoint countEvsesTransactionsStarted (es : JsMap EvseStatus) : Z :=
  match es with
  | [] => 0
  | (evseId, evseStatus) :: rest =>
      if (evseId =? 0) then countEvsesTransactionsStarted rest
      else countTransactionsStarted (evseConnectors evseStatus)
             + countEvsesTransactionsStarted rest
  end.

(** The loop over [connectors.keys ()], which reads each connector through
    [getConnectorStatus]. *)
Fixpoint countKeysTransactionsStarted (st : ChargingStation) (keys : list Z) : Z :=
  match keys with
  | [] => 0
  | connectorId :: rest =>
      if (0 <? connectorId) &&
         match getConnectorStatus st connectorId with
         | Some c => bool_decide (transactionStarted c = Some true)
         | None => false
         end
      then 1 + countKeysTransactionsStarted st rest
      else countKeysTransactionsStarted st rest
  end.

Definition getNumberOfRunningTransactions (st : ChargingStation) : Z :=
  if hasEvses st then countEvsesTransactionsStarted (evses st)
  else countKeysTransactionsStarted st (map fst (connectors st)).

(** [powerSharedByConnectors] is the field of that name of the station
    information. *)
Definition getPowerDivider (st : ChargingStation) (powerSharedByConnectors : option bool)
  : Z :=
  let powerDivider := if hasEvses st then getNumberOfEvses st else getNumberOfConnectors st in
  if bool_decide (powerSharedByConnectors = Some true)
  then getNumberOfRunningTransactions st
  else powerDivider.

(** A station that shares its power between the connectors in use, with no
    transaction running: the power divider set at initialization is 0. *)
Definition idleSharedPowerStation : ChargingStation :=
  mkStation (Some (mkStationInfo (Some AC) (Some (230 # 1)) (Some 3) (Some (22080 # 1))
                     (Some 5)))
    [(0, mkConnector (Some Operative) None None None None None None);
     (1, mkConnector (Some Operative) (Some Available) None (Some false) None
           (Some [ampereProfile 2 2 (100 # 1)]) None)]
    [] (Some (inject_Z 0)) None [].

(** ** [Helpers.ts]: what the preparation of a profile leaves alone *)

(** Two states of a profile that differ at most by the start and the
    duration of the schedule. *)
Definition sameProfileButSchedule (cp cp' : ChargingProfile) : Prop :=
  chargingProfileId cp' = chargingProfileId cp /\
  stackLevel cp' = stackLevel cp /\
  chargingProfileKind cp' = chargingProfileKind cp /\
  recurrencyKind cp' = recurrencyKind cp /\
  validFrom cp' = validFrom cp /\
  validTo cp' = validTo cp /\
  chargingRateUnit (chargingSchedule cp') = chargingRateUnit (chargingSchedule cp) /\
  chargingSchedulePeriod (chargingSchedule cp') = chargingSchedulePeriod (chargingSchedule cp).

(** Whether the connector has a transaction started. *)
Definition hasTransactionStarted (connectorStatus : option ConnectorStatus) : bool :=
  match connectorStatus with
  | Some c => bool_decide (transactionStarted c = Some true)
  | None => false
  end.

(** A relative profile of 8 A in one period, without start of schedule. *)
Definition relativeProfile : ChargingProfile :=
  mkProfile 5 1 RELATIVE None None None
    (mkSchedule None (Some (Seconds 3600)) AMPERE [mkPeriod 0 (8 # 1) None]).

(** The 16 A profile of one day from 2024-01-01, valid from 2024-01-22
    only. *)
Definition notYetValidProfile : ChargingProfile :=
  mkProfile 6 3 ABSOLUTE None (Some date_2024_01_22) None
    (mkSchedule (Some date_2024_01_01) (Some (Seconds 86400)) AMPERE
       [mkPeriod 0 (16 # 1) None]).

(** ** [ChargingStation.ts] and [Helpers.ts]: adding and sweeping reservations *)

Definition setReservation (r : option Reservation) (c : ConnectorStatus) : ConnectorStatus :=
  mkConnector (availability c) (status c) (bootStatus c) (transactionStarted c)
    (transactionStart c) (chargingProfiles c) r.

(** The station as the call leaves it, and the error when the call throws:
    a reservation for a connector that does not exist throws a TypeError. *)
Definition addReservation (st : ChargingStation) (r : Reservation)
  : ChargingStation * option JsError :=
  let '(st1, thrown) :=
    match getReservationBy st (ByReservationId (reservationId r)) with
    | Some reservationFound => removeReservation st reservationFound REPLACE_EXISTING
    | None => (st, None)
    end in
  match thrown with
  | Some e => (st1, Some e)
  | None =>
      match getConnectorStatus st1 (reservationConnectorId r) with
      | None => (st1, Some TypeError)
      | Some _ =>
          (sendAndSetConnectorStatus
             (updateConnectorStatus (reservationConnectorId r) (setReservation (Some r)) st1)
             (reservationConnectorId r) Reserved (negb (reservationConnectorId r =? 0)),
           None)
      end
  end.







(** The connector status objects that the loops over the maps go through. *)
Definition allConnectorStatuses (st : ChargingStation) : list ConnectorStatus :=
  if hasEvses st
  then flat_map (fun e => map snd (evseConnectors (snd e))) (evses st)
  else map snd (connectors st).





(** A reservation for connector 2 of [reservedStation], whose id is not in
    use there. *)
Definition secondReservation : Reservation := mkReservation 8 2 "TAG-2" 5000 None.

(** ** [Helpers.ts] and [ChargingStation.ts]: the station that cannot proceed *)

(** [checkChargingStation], on the flags of the station. *)
Definition checkChargingStation (f : Lifecycle.Flags) : bool :=
  if negb (Lifecycle.started f) && negb (Lifecycle.starting f) then false else true.

(** ** [ChargingStation.ts]: the requests of [onOpen] *)

Fixpoint countBootNotifications (actions : list OnOpenAction) : Z :=
  match actions with
  | [] => 0
  | BootNotificationSent :: rest => 1 + countBootNotifications rest
  | _ :: rest => countBootNotifications rest
  end.

(** ** [PerformanceStatistics.ts]: the counters of a command *)

Definition isMessageType (t t' : PerformanceStatistics.MessageType) : bool :=
  match t, t' with
  | PerformanceStatistics.CALL_MESSAGE, PerformanceStatistics.CALL_MESSAGE
  | PerformanceStatistics.CALL_RESULT_MESSAGE, PerformanceStatistics.CALL_RESULT_MESSAGE
  | PerformanceStatistics.CALL_ERROR_MESSAGE, PerformanceStatistics.CALL_ERROR_MESSAGE => true
  | _, _ => false
  end.

(** The calls of a message type among the calls of [addRequestStatistic]. *)
Fixpoint countMessageType (t : PerformanceStatistics.MessageType)
    (calls : list (PerformanceStatistics.MessageType * option Z)) : Z :=
  match calls with
  | [] => 0
  | (t', _) :: rest =>
      if isMessageType t t' then 1 + countMessageType t rest else countMessageType t rest
  end.

(** A counter after [n] increments: a missing counter stays missing until
    the first one. *)
Definition countedFrom (counter : option Z) (n : Z) : option Z :=
  if n =? 0 then counter else Some (default 0 counter + n).

(** ** Timers *)

(** [setInterval] and [clearInterval] of the runtime: the timers that are
    set and not cleared, in the order of their setting, each with its period
    in milliseconds. *)
Record Timer : Type := mkTimer {
  timerId : nat;
  timerPeriod : Z
}.

Record Timers : Type := mkTimers {
  nextTimerId : nat;
  activeTimers : list Timer
}.

Definition noTimers : Timers := mkTimers 0 [].

Definition setInterval (period : Z) (ts : Timers) : Timer * Timers :=
  let t := mkTimer (nextTimerId ts) period in
  (t, mkTimers (S (nextTimerId ts)) (activeTimers ts ++ [t])).

Definition clearInterval (t : Timer) (ts : Timers) : Timers :=
  mkTimers (nextTimerId ts)
    (List.filter (fun t' => negb (timerId t' =? timerId t)%nat) (activeTimers ts)).

(** The timers that a field of type [NodeJS.Timeout | undefined] accounts
    for. *)
Definition timersOf (field : option Timer) : list Timer :=
  match field with
  | Some t => [t]
  | None => []
  end.

(** ** [PerformanceStatistics.ts]: start, stop and restart *)

Module StatisticsInstance.

(** The section [log] of the configuration, as [startLogStatisticsInterval]
    reads it. *)
Record LogConfiguration : Type := mkLogConfiguration {
  enabled : option bool;
  statisticsInterval : option Z
}.

(** An instance of [PerformanceStatistics]: the timer of the log of the
    statistics, whether the performance observer observes the measures, and
    the timers of the instance. *)
Record Instance : Type := mkInstance {
  displayInterval : option Timer;
  observing : bool;
  timers : Timers
}.

(** The constructor calls [initializePerformanceObserver], the only place
    where the observer is created and set to observe. *)
Definition constructor : Instance := mkInstance None true noTimers.

Definition startLogStatisticsInterval (log : LogConfiguration) (p : Instance) : Instance :=
  let logStatisticsInterval :=
    if bool_decide (enabled log = Some true) then statisticsInterval log else Some 0 in
  match logStatisticsInterval, displayInterval p with
  | Some i, None =>
      if 0 <? i then
        let '(t, ts) := setInterval (secondsToMilliseconds i) (timers p) in
        mkInstance (Some t) (observing p) ts
      else p
  | _, _ => p
  end.

Definition stopLogStatisticsInterval (p : Instance) : Instance :=
  match displayInterval p with
  | Some t => mkInstance None (observing p) (clearInterval t (timers p))
  | None => p
  end.

Definition start (log : LogConfiguration) (p : Instance) : Instance :=
  startLogStatisticsInterval log p.

(** [stop] ends with [this.performanceObserver.disconnect ()]. *)
Definition stop (p : Instance) : Instance :=
  let p1 := stopLogStatisticsInterval p in
  mkInstance (displayInterval p1) false (timers p1).

Definition restart (log : LogConfiguration) (p : Instance) : Instance :=
  start log (stop p).

(** The calls of the public methods, each with the configuration at the
    time of the call. *)
Inductive Call : Type :=
  | CallStart (log : LogConfiguration)
  | CallStop
  | CallRestart (log : LogConfiguration).

Definition call (p : Instance) (c : Call) : Instance :=
  match c with
  | CallStart log => start log p
  | CallStop => stop p
  | CallRestart log => restart log p
  end.

Definition calls (p : Instance) (cs : list Call) : Instance := fold_left call cs p.

End StatisticsInstance.

(** ** [ChargingStation.ts]: the heartbeat *)

Module Heartbeat.

Record State : Type := mkState {
  heartbeatSetInterval : option Timer;
  timers : Timers
}.

Definition constructor : State := mkState None noTimers.

(** [heartbeatInterval] is what [getHeartbeatInterval ()] returns at the
    time of the call, in milliseconds. *)
Definition startHeartbeat (heartbeatInterval : Z) (h : State) : State :=
  match heartbeatSetInterval h with
  | None =>
      if 0 <? heartbeatInterval then
        let '(t, ts) := setInterval heartbeatInterval (timers h) in
        mkState (Some t) ts
      else h
  | Some _ => h
  end.

Definition stopHeartbeat (h : State) : State :=
  match heartbeatSetInterval h with
  | Some t => mkState None (clearInterval t (timers h))
  | None => h
  end.

Definition restartHeartbeat (heartbeatInterval : Z) (h : State) : State :=
  startHeartbeat heartbeatInterval (stopHeartbeat h).

Inductive Call : Type :=
  | CallStartHeartbeat (heartbeatInterval : Z)
  | CallStopHeartbeat
  | CallRestartHeartbeat (heartbeatInterval : Z).

Definition call (h : State) (c : Call) : State :=
  match c with
  | CallStartHeartbeat i => startHeartbeat i h
  | CallStopHeartbeat => stopHeartbeat h
  | CallRestartHeartbeat i => restartHeartbeat i h
  end.

Definition calls (h : State) (cs : list Call) : State := fold_left call cs h.

End Heartbeat.

(** ** [ChargingStation.ts]: the message buffer *)

Module MessageBuffer.

(** [messageBuffer] is a [Set] of strings: its elements in the order of
    their insertion, without duplicates. *)
Definition setAdd (message : string) (s : list string) : list string :=
  if bool_decide (message ∈ s) then s else s ++ [message].

Definition setDelete (message : string) (s : list string) : list string :=
  List.filter (fun m => negb (String.eqb m message)) s.

Record State : Type := mkState {
  messageBuffer : list string;
  flushMessageBufferSetInterval : option Timer;
  timers : Timers
}.

Definition constructor : State := mkState [] None noTimers.

(** What every step keeps: the flush timer is the only timer, it is set
    while the buffer holds a message, and the buffer holds no message
    twice. *)
Definition bufferInvariant (b : State) : Prop :=
  activeTimers (timers b) = timersOf (flushMessageBufferSetInterval b) /\
  (messageBuffer b <> [] -> flushMessageBufferSetInterval b <> None) /\
  NoDup (messageBuffer b).

Section Flush.

(** [Constants.DEFAULT_MESSAGE_BUFFER_FLUSH_INTERVAL]. *)
Variable DEFAULT_MESSAGE_BUFFER_FLUSH_INTERVAL : Z.

(** What [JSON.parse] and the destructuring of its result make of a
    buffered message: whether it is a request, or nothing when they throw.
    The measures taken for the performance statistics are left out, like
    the log. *)
Variable isRequest : string -> option bool.

Definition setIntervalFlushMessageBuffer (b : State) : State :=
  match flushMessageBufferSetInterval b with
  | None =>
      let '(t, ts) := setInterval DEFAULT_MESSAGE_BUFFER_FLUSH_INTERVAL (timers b) in
      mkState (messageBuffer b) (Some t) ts
  | Some _ => b
  end.

Definition clearIntervalFlushMessageBuffer (b : State) : State :=
  match flushMessageBufferSetInterval b with
  | Some t => mkState (messageBuffer b) None (clearInterval t (timers b))
  | None => b
  end.

Definition bufferMessage (message : string) (b : State) : State :=
  setIntervalFlushMessageBuffer
    (mkState (setAdd message (messageBuffer b)) (flushMessageBufferSetInterval b) (timers b)).

(** The loop of [flushMessageBuffer]: the messages given to
    [wsConnection.send], in order, and whether the loop has thrown. The
    callbacks of the sends run after the call has returned. *)
Fixpoint flushMessageBufferLoop (hasWsConnection : bool) (messages : list string)
  : list string * bool :=
  match messages with
  | [] => ([], false)
  | message :: rest =>
      match isRequest message with
      | None => ([], true)
      | Some _ =>
          let '(sent, thrown) := flushMessageBufferLoop hasWsConnection rest in
          ((if hasWsConnection then message :: sent else sent), thrown)
      end
  end.

(** [hasWsConnection] tells whether [wsConnection] is defined. *)
Definition flushMessageBuffer (hasWsConnection : bool) (b : State) : list string * bool :=
  if (0 <? length (messageBuffer b))%nat
  then flushMessageBufferLoop hasWsConnection (messageBuffer b)
  else ([], false).

(** The callback of a send: [error] tells whether it is given an error. *)
Definition sendCallback (message : string) (error : bool) (b : State) : State :=
  if error then b
  else mkState (setDelete message (messageBuffer b)) (flushMessageBufferSetInterval b)
         (timers b).

(** What one run of the callback of the flush timer leaves. *)
Record Tick : Type := mkTick {
  tickState : State;
  tickSent : list string;
  tickThrown : bool
}.

(** The callback of the timer set by [setIntervalFlushMessageBuffer];
    [webSocketOpened] and [inAccepted] are [isWebSocketConnectionOpened ()]
    and [inAcceptedState ()]. *)
Definition flushTick (webSocketOpened inAccepted : bool) (b : State) : Tick :=
  let '(sent, thrown) :=
    if webSocketOpened && inAccepted then flushMessageBuffer true b else ([], false) in
  if thrown then mkTick b sent true
  else if (length (messageBuffer b) =? 0)%nat
       then mkTick (clearIntervalFlushMessageBuffer b) sent false
       else mkTick b sent false.

Inductive Event : Type :=
  | BufferMessage (message : string)
  | TimerTick (webSocketOpened inAccepted : bool)
  | SendCallback (message : string) (error : bool).

Definition step (b : State) (e : Event) : State :=
  match e with
  | BufferMessage message => bufferMessage message b
  | TimerTick webSocketOpened inAccepted => tickState (flushTick webSocketOpened inAccepted b)
  | SendCallback message error => sendCallback message error b
  end.

Definition run (b : State) (es : list Event) : State := fold_left step es b.

End Flush.

End MessageBuffer.

(** ** [ChargingStation.ts]: closing and reconnecting *)

Module Reconnect.

(** The fields of [stationInfo] that [reconnect] reads. *)
Record ReconnectInfo : Type := mkReconnectInfo {
  autoReconnectMaxRetries : option Z;
  reconnectExponentialDelay : option bool
}.

(** The codes of [WebSocketCloseEventStatusCode] that [onClose] tells
    apart. *)
Inductive WebSocketCloseEventStatusCode : Type :=
  | CLOSE_NORMAL
  | CLOSE_NO_STATUS
  | CloseOther.

Inductive Action : Type :=
  | WebSocketPingStopped
  | HeartbeatStopped
  | AutomaticTransactionGeneratorStopped
  | UpdatedEmitted.

(** A reconnection on its way: the sleep awaited, and the handshake
    timeout given to the [openWSConnection] that follows it. *)
Record Retry : Type := mkRetry {
  retryDelay : Q;
  retryHandshakeTimeout : Q
}.

(** What a call leaves: the retry count, what it has done before it returns
    or awaits, the reconnection on its way, and the error of a rejected
    promise. *)
Record Run : Type := mkRun {
  autoReconnectRetryCount : Z;
  actions : list Action;
  retry : option Retry;
  rejection : option JsError
}.

Section Reconnect.

(** [exponentialDelay] of utils/, in milliseconds. *)
Variable exponentialDelay : Z -> Q.

(** What [getConnectionTimeout ()] returns, in seconds. *)
Variable connectionTimeout : Z.

(** [stopOnConnectionFailure] tells whether the configuration of the
    automatic transaction generator has its field of that name set to
    true; [count] is [autoReconnectRetryCount]. *)
Definition reconnect (stationInfo : option ReconnectInfo) (stopOnConnectionFailure : bool)
    (count : Z) : Run :=
  let stops :=
    [WebSocketPingStopped; HeartbeatStopped]
      ++ (if stopOnConnectionFailure then [AutomaticTransactionGeneratorStopped] else []) in
  match stationInfo with
  | None => mkRun count stops None (Some TypeError)
  | Some info =>
      if match autoReconnectMaxRetries info with
         | Some maxRetries => (count <? maxRetries) || (maxRetries =? -1)
         | None => false
         end
      then
        let count1 := count + 1 in
        let reconnectDelay :=
          if bool_decide (reconnectExponentialDelay info = Some true)
          then exponentialDelay count1
          else inject_Z (secondsToMilliseconds connectionTimeout) in
        let reconnectDelayWithdraw := 1000 # 1 in
        let reconnectTimeout :=
          if negb (Qle_bool (reconnectDelay - reconnectDelayWithdraw)%Q (0 # 1))
          then (reconnectDelay - reconnectDelayWithdraw)%Q
          else 0 # 1 in
        mkRun count1 stops (Some (mkRetry reconnectDelay reconnectTimeout)) None
      else mkRun count stops None None
  end.

(** [onClose]; the rejection of [reconnect] is caught and dropped. *)
Definition onClose (code : WebSocketCloseEventStatusCode) (started : bool)
    (stationInfo : option ReconnectInfo) (stopOnConnectionFailure : bool) (count : Z) : Run :=
  match code with
  | CLOSE_NORMAL | CLOSE_NO_STATUS => mkRun 0 [UpdatedEmitted] None None
  | CloseOther =>
      if started then
        let r := reconnect stationInfo stopOnConnectionFailure count in
        mkRun (autoReconnectRetryCount r) (actions r ++ [UpdatedEmitted]) (retry r) None
      else mkRun count [UpdatedEmitted] None None
  end.

(** Connections that close one after the other, each with its code and
    with the value of [started] at the time: the retry count at the end
    and the reconnections that were on their way. *)
Fixpoint onCloses (closes : list (WebSocketCloseEventStatusCode * bool))
    (stationInfo : option ReconnectInfo) (stopOnConnectionFailure : bool) (count : Z)
  : Z * list Retry :=
  match closes with
  | [] => (count, [])
  | (code, started) :: rest =>
      let r := onClose code started stationInfo stopOnConnectionFailure count in
      let '(count', retries) :=
        onCloses rest stationInfo stopOnConnectionFailure (autoReconnectRetryCount r) in
      (count', match retry r with Some t => t :: retries | None => retries end)
  end.

End Reconnect.

End Reconnect.

(** ** [Helpers.ts]: waiting for events *)

Module WaitEvents.

(** The promise of [waitChargingStationEvents]: the events counted by the
    listener, whether the listener is registered, and the value that the
    promise is resolved with. *)
Record Waiting : Type := mkWaiting {
  events : Z;
  listening : bool;
  resolved : option Z
}.

Definition waitChargingStationEvents (eventsToWait : Z) : Waiting :=
  if eventsToWait =? 0 then mkWaiting 0 false (Some 0) else mkWaiting 0 true None.

(** The emitter emits the event once; a promise is resolved once only. *)
Definition emitted (eventsToWait : Z) (w : Waiting) : Waiting :=
  if listening w then
    let events1 := events w + 1 in
    mkWaiting events1 true
      (if events1 =? eventsToWait
       then match resolved w with
            | Some v => Some v
            | None => Some events1
            end
       else resolved w)
  else w.

(** The promise after [n] events. *)
Definition waitedFor (eventsToWait : Z) (n : nat) : Waiting :=
  Nat.iter n (emitted eventsToWait) (waitChargingStationEvents eventsToWait).

End WaitEvents.
(** * Properties *)

(** ** Boot connector status *)

(** C4, as stated, fails: on a station marked inoperative, a connector
    without previous status whose template declares the boot status Charging
    boots as Unavailable, not as Charging. *)
Lemma getBootConnectorStatus_bootStatus_not_first :
  status (connectorWithBootStatus Charging) = None /\
  bootStatus (connectorWithBootStatus Charging) = Some Charging /\
  Helpers.getBootConnectorStatus inoperativeStation 1 (connectorWithBootStatus Charging)
    = Unavailable /\
  Helpers.getBootConnectorStatus inoperativeStation 1 (connectorWithBootStatus Charging)
    <> bootConnectorStatus_as_specified inoperativeStation 1 (connectorWithBootStatus Charging).
Proof. repeat split; vm_compute; congruence. Qed.

(** C4, amended: the previous status comes first; without one, the
    connector is Unavailable when the station or the connector is not
    available; otherwise it takes the boot status of the template, and
    Available when there is none. *)
Theorem getBootConnectorStatus_priority (st : ChargingStation) (connectorId : Z)
    (c : ConnectorStatus) :
  Helpers.getBootConnectorStatus st connectorId c =
    match status c with
    | Some previous => previous
    | None =>
        if negb (isChargingStationAvailable st) || negb (isConnectorAvailable st connectorId)
        then Unavailable
        else match bootStatus c with
             | Some boot => boot
             | None => Available
             end
    end.
Proof.
  unfold Helpers.getBootConnectorStatus.
  destruct (status c) as [previous|] eqn:Hstatus; simpl.
  - reflexivity.
  - destruct (negb (isChargingStationAvailable st) || negb (isConnectorAvailable st connectorId));
      reflexivity.
Qed.

(** ** Maps and connectors *)

Section JsMapFacts.

Context {V : Type}.
Implicit Types (m : JsMap V) (f : V -> V) (k : Z).

Lemma mapGet_mapUpdate_eq k f m :
  mapGet k (mapUpdate k f m) = f <$> mapGet k m.
Proof.
  induction m as [|[k' v] rest IH]; simpl; [reflexivity|].
  destruct (Z.eqb_spec k' k) as [->|Hne]; simpl.
  - rewrite Z.eqb_refl. reflexivity.
  - destruct (Z.eqb_spec k' k); [contradiction|]. exact IH.
Qed.

Lemma mapGet_mapUpdate_ne k k' f m :
  k' <> k -> mapGet k' (mapUpdate k f m) = mapGet k' m.
Proof.
  intros Hne. induction m as [|[k0 v] rest IH]; simpl; [reflexivity|].
  destruct (Z.eqb_spec k0 k) as [->|Hk]; simpl.
  - destruct (Z.eqb_spec k k'); [congruence|reflexivity].
  - destruct (Z.eqb_spec k0 k'); [reflexivity|exact IH].
Qed.

Lemma mapHas_mapUpdate k k' f m :
  mapHas k' (mapUpdate k f m) = mapHas k' m.
Proof.
  unfold mapHas. destruct (Z.eq_dec k' k) as [->|Hne].
  - rewrite mapGet_mapUpdate_eq. destruct (mapGet k m); reflexivity.
  - rewrite mapGet_mapUpdate_ne by assumption. reflexivity.
Qed.

Lemma length_mapUpdate k f m : length (mapUpdate k f m) = length m.
Proof.
  induction m as [|[k' v] rest IH]; simpl; [reflexivity|].
  destruct (k' =? k); simpl; congruence.
Qed.

End JsMapFacts.

Lemma length_updateEvsesConnector (id : Z) (f : ConnectorStatus -> ConnectorStatus)
    (es : JsMap EvseStatus) :
  length (updateEvsesConnector id f es) = length es.
Proof.
  induction es as [|[evseId e] rest IH]; simpl; [reflexivity|].
  destruct (mapHas id (evseConnectors e)); simpl; congruence.
Qed.

Lemma hasEvses_updateConnectorStatus (id : Z) (f : ConnectorStatus -> ConnectorStatus)
    (st : ChargingStation) :
  hasEvses (updateConnectorStatus id f st) = hasEvses st.
Proof.
  unfold updateConnectorStatus.
  destruct (hasEvses st) eqn:He; unfold hasEvses in *; simpl;
    rewrite ?length_updateEvsesConnector, ?length_mapUpdate; exact He.
Qed.

Lemma getEvsesConnectorStatus_update_eq (id : Z) (f : ConnectorStatus -> ConnectorStatus)
    (es : JsMap EvseStatus) :
  getEvsesConnectorStatus id (updateEvsesConnector id f es)
    = f <$> getEvsesConnectorStatus id es.
Proof.
  induction es as [|[evseId e] rest IH]; simpl; [reflexivity|].
  destruct (mapHas id (evseConnectors e)) eqn:Hhas; simpl.
  - rewrite mapHas_mapUpdate, Hhas. apply mapGet_mapUpdate_eq.
  - rewrite Hhas. exact IH.
Qed.

Lemma getEvsesConnectorStatus_update_ne (id id' : Z) (f : ConnectorStatus -> ConnectorStatus)
    (es : JsMap EvseStatus) :
  id' <> id ->
  getEvsesConnectorStatus id' (updateEvsesConnector id f es)
    = getEvsesConnectorStatus id' es.
Proof.
  intros Hne. induction es as [|[evseId e] rest IH]; simpl; [reflexivity|].
  destruct (mapHas id (evseConnectors e)) eqn:Hhas; simpl.
  - rewrite mapHas_mapUpdate, mapGet_mapUpdate_ne by assumption. reflexivity.
  - rewrite IH. reflexivity.
Qed.

Lemma getConnectorStatus_update_eq (id : Z) (f : ConnectorStatus -> ConnectorStatus)
    (st : ChargingStation) :
  getConnectorStatus (updateConnectorStatus id f st) id = f <$> getConnectorStatus st id.
Proof.
  unfold getConnectorStatus. rewrite hasEvses_updateConnectorStatus.
  unfold updateConnectorStatus.
  destruct (hasEvses st); simpl.
  - apply getEvsesConnectorStatus_update_eq.
  - apply mapGet_mapUpdate_eq.
Qed.

Lemma getConnectorStatus_update_ne (id id' : Z) (f : ConnectorStatus -> ConnectorStatus)
    (st : ChargingStation) :
  id' <> id ->
  getConnectorStatus (updateConnectorStatus id f st) id' = getConnectorStatus st id'.
Proof.
  intros Hne. unfold getConnectorStatus. rewrite hasEvses_updateConnectorStatus.
  unfold updateConnectorStatus.
  destruct (hasEvses st); simpl.
  - apply getEvsesConnectorStatus_update_ne; assumption.
  - apply mapGet_mapUpdate_ne; assumption.
Qed.

Lemma getConnectorStatus_sendStatusNotification (n : StatusNotification)
    (st : ChargingStation) (id : Z) :
  getConnectorStatus (sendStatusNotification n st) id = getConnectorStatus st id.
Proof. reflexivity. Qed.

Lemma sentStatusNotifications_updateConnectorStatus (id : Z)
    (f : ConnectorStatus -> ConnectorStatus) (st : ChargingStation) :
  sentStatusNotifications (updateConnectorStatus id f st) = sentStatusNotifications st.
Proof. unfold updateConnectorStatus. destruct (hasEvses st); reflexivity. Qed.

(** ** Reservations *)

Lemma getConnectorStatus_sendAndSet_eq (st : ChargingStation) (id : Z)
    (s : ConnectorStatusEnum) (send : bool) :
  getConnectorStatus (sendAndSetConnectorStatus st id s send) id
    = setStatus (Some s) <$> getConnectorStatus st id.
Proof.
  unfold sendAndSetConnectorStatus. rewrite getConnectorStatus_update_eq.
  destruct send; reflexivity.
Qed.

Lemma getConnectorStatus_sendAndSet_ne (st : ChargingStation) (id id' : Z)
    (s : ConnectorStatusEnum) (send : bool) :
  id' <> id ->
  getConnectorStatus (sendAndSetConnectorStatus st id s send) id'
    = getConnectorStatus st id'.
Proof.
  intros Hne. unfold sendAndSetConnectorStatus.
  rewrite getConnectorStatus_update_ne by assumption.
  destruct send; reflexivity.
Qed.

Lemma sentStatusNotifications_sendAndSet (st : ChargingStation) (id : Z)
    (s : ConnectorStatusEnum) (send : bool) :
  sentStatusNotifications (sendAndSetConnectorStatus st id s send)
    = sentStatusNotifications st
        ++ (if send then [mkStatusNotification id s] else []).
Proof.
  unfold sendAndSetConnectorStatus.
  rewrite sentStatusNotifications_updateConnectorStatus.
  destruct send; simpl; [reflexivity|]. symmetry. apply app_nil_r.
Qed.

(** C7: for a reservation on an existing connector, the reasons
    CONNECTOR_STATE_CHANGED and TRANSACTION_STARTED only delete the
    reservation of the connector and send nothing; the reasons
    RESERVATION_CANCELED, REPLACE_EXISTING and EXPIRED set the status of the
    connector to Available, send one StatusNotification (Available) unless
    the connector is connector 0, and delete the reservation. No other
    connector changes and the call does not throw. *)
Theorem removeReservation_known_reasons (st : ChargingStation) (r : Reservation)
    (c : ConnectorStatus) (reason : ReservationTerminationReason) :
  getConnectorStatus st (reservationConnectorId r) = Some c ->
  let id := reservationConnectorId r in
  let st' := fst (removeReservation st r reason) in
  (reason = CONNECTOR_STATE_CHANGED \/ reason = TRANSACTION_STARTED ->
     snd (removeReservation st r reason) = None /\
     getConnectorStatus st' id = Some (deleteReservation c) /\
     sentStatusNotifications st' = sentStatusNotifications st /\
     (forall id', id' <> id -> getConnectorStatus st' id' = getConnectorStatus st id')) /\
  (reason = RESERVATION_CANCELED \/ reason = REPLACE_EXISTING \/ reason = EXPIRED ->
     snd (removeReservation st r reason) = None /\
     getConnectorStatus st' id = Some (deleteReservation (setStatus (Some Available) c)) /\
     sentStatusNotifications st' =
       sentStatusNotifications st
         ++ (if id =? 0 then [] else [mkStatusNotification id Available]) /\
     (forall id', id' <> id -> getConnectorStatus st' id' = getConnectorStatus st id')).
Proof.
  intros Hc id st'. subst st' id. set (id := reservationConnectorId r) in *. split.
  - intros Hreason.
    assert (removeReservation st r reason
            = (updateConnectorStatus id deleteReservation st, None)) as ->.
    { unfold removeReservation. fold id. rewrite Hc.
      destruct Hreason as [-> | ->]; reflexivity. }
    simpl. repeat split.
    + rewrite getConnectorStatus_update_eq, Hc. reflexivity.
    + apply sentStatusNotifications_updateConnectorStatus.
    + intros id' Hne. apply getConnectorStatus_update_ne; assumption.
  - intros Hreason.
    assert (removeReservation st r reason
            = (updateConnectorStatus id deleteReservation
                 (sendAndSetConnectorStatus st id Available (negb (id =? 0))), None)) as ->.
    { unfold removeReservation. fold id. rewrite Hc.
      destruct Hreason as [-> | [-> | ->]]; reflexivity. }
    simpl. repeat split.
    + rewrite getConnectorStatus_update_eq, getConnectorStatus_sendAndSet_eq.
      rewrite Hc. reflexivity.
    + rewrite sentStatusNotifications_updateConnectorStatus,
        sentStatusNotifications_sendAndSet.
      destruct (id =? 0); reflexivity.
    + intros id' Hne.
      rewrite getConnectorStatus_update_ne, getConnectorStatus_sendAndSet_ne by assumption.
      reflexivity.
Qed.

(** The reservation of [reservedStation] expires: connector 1 becomes
    Available without reservation and one StatusNotification is sent. *)
Lemma removeReservation_known_reasons_witness :
  getConnectorStatus (fst (removeReservation reservedStation sampleReservation EXPIRED)) 1
    = Some (mkConnector (Some Operative) (Some Available) None None None None None) /\
  sentStatusNotifications (fst (removeReservation reservedStation sampleReservation EXPIRED))
    = [mkStatusNotification 1 Available].
Proof.
  pose proof (removeReservation_known_reasons reservedStation sampleReservation
                (mkConnector (Some Operative) (Some Reserved) None None None None
                   (Some sampleReservation)) EXPIRED eq_refl) as [_ H].
  destruct (H (or_intror (or_intror eq_refl))) as (_ & Hget & Hsent & _).
  split; [exact Hget | exact Hsent].
Defined.

(** C10: with a reason outside the five known ones [removeReservation]
    throws a BaseError and leaves the station, hence the reservation of the
    connector, as it was. *)
Theorem removeReservation_unknown_reason (st : ChargingStation) (r : Reservation)
    (value : string) :
  exists message,
    snd (removeReservation st r (OtherReason value)) = Some (BaseError message) /\
    fst (removeReservation st r (OtherReason value)) = st /\
    getConnectorStatus (fst (removeReservation st r (OtherReason value)))
        (reservationConnectorId r)
      = getConnectorStatus st (reservationConnectorId r).
Proof. eexists. repeat split. Qed.

(** C6, as stated, fails: called with the reservation id alone on a station
    whose only connector is charging, [isConnectorReservable] is true
    although no connector is free. *)
Lemma isConnectorReservable_one_argument_ignores_connectors :
  isConnectorReservable busyStation 1000 1 7 None None = true /\
  getNumberOfReservableConnectors busyStation = 0 /\
  isConnectorReservable_as_specified busyStation 1000 7 None None = false.
Proof. repeat split. Qed.

(** C6, amended: called with the reservation id alone, the result is true
    exactly when no unexpired reservation is found for that id; called with
    more arguments, it is true exactly when moreover no unexpired
    reservation is found for the idTag when one is given, the connector id
    is absent or greater than 0, and the number of free reservable
    connectors is greater than 0. *)
Theorem isConnectorReservable_iff (st : ChargingStation) (now : Z) (argumentsLength : nat)
    (reservationId : Z) (idTag : option string) (connectorId : option Z) :
  isConnectorReservable st now argumentsLength reservationId idTag connectorId = true <->
  (argumentsLength = 1%nat /\
   hasActiveReservation st now (ByReservationId reservationId) = false) \/
  ((1 < argumentsLength)%nat /\
   hasActiveReservation st now (ByReservationId reservationId) = false /\
   (forall tag, idTag = Some tag -> hasActiveReservation st now (ByIdTag tag) = false) /\
   (forall id, connectorId = Some id -> 0 < id) /\
   0 < getNumberOfReservableConnectors st).
Proof.
  unfold isConnectorReservable.
  change (match getReservationBy st (ByReservationId reservationId) with
          | Some r => negb (Helpers.hasReservationExpired now r)
          | None => false
          end) with (hasActiveReservation st now (ByReservationId reservationId)).
  destruct (Nat.eqb_spec argumentsLength 1) as [->|Hne].
  - rewrite negb_true_iff. split; [intros H; left; auto|].
    intros [[_ H]|[Hlt _]]; [exact H|lia].
  - destruct (Nat.ltb_spec 1 argumentsLength) as [Hlt|Hge].
    + assert (match match idTag with
                    | Some tag => getReservationBy st (ByIdTag tag)
                    | None => None
                    end with
              | Some r => negb (Helpers.hasReservationExpired now r)
              | None => false
              end = match idTag with
                    | Some tag => hasActiveReservation st now (ByIdTag tag)
                    | None => false
                    end) as -> by (destruct idTag; reflexivity).
      rewrite !andb_true_iff, !negb_true_iff, Z.ltb_lt. split.
      * intros [[[H1 H2] H3] H4]. right. repeat split; try assumption.
        -- intros tag ->. exact H2.
        -- intros id ->. apply Z.ltb_lt. exact H3.
      * intros [[Heq _]|(_ & H1 & H2 & H3 & H4)]; [contradiction|].
        repeat split; try assumption.
        -- destruct idTag as [tag|]; [apply H2; reflexivity|reflexivity].
        -- destruct connectorId as [id|]; [apply Z.ltb_lt, H3; reflexivity|reflexivity].
    + split; [discriminate|]. intros [[Heq _]|[Hlt _]]; lia.
Qed.

(** ** Lifecycle flags *)

Section LifecycleFacts.
Import Lifecycle.

Lemma invariant_constructor : invariant (flags constructor).
Proof. split; simpl; [intros [H _]; discriminate | discriminate]. Qed.

Lemma invariant_start (opened : bool) (f : Flags) :
  invariant f -> invariant (start opened f).
Proof.
  intros [Hboth Hstop]. unfold start.
  destruct f as [[] [] []]; destruct opened; simpl in *; split;
    try tauto; try discriminate; try (intros [? ?]; discriminate);
    intros; try reflexivity; exfalso; auto.
Qed.

Lemma invariant_stopEnter (f : Flags) :
  invariant f -> invariant (fst (stopEnter f)).
Proof.
  intros [Hboth Hstop]. unfold stopEnter.
  destruct f as [[] [] []]; simpl in *; split; tauto.
Qed.

Lemma invariant_stopResume (f : Flags) : invariant (stopResume f).
Proof. split; simpl; [intros [H _]; discriminate | discriminate]. Qed.

Lemma invariant_step (s s' : State) (e : Event) :
  invariant (flags s) -> step s e = Some s' -> invariant (flags s').
Proof.
  intros Hinv Hstep. destruct e; simpl in Hstep.
  - injection Hstep as <-. simpl. apply invariant_start, Hinv.
  - pose proof (invariant_stopEnter _ Hinv) as H.
    destruct (stopEnter (flags s)) as [f suspended]. injection Hstep as <-. exact H.
  - destruct (suspendedStops s); [discriminate|]. injection Hstep as <-.
    apply invariant_stopResume.
  - destruct (suspendedStops s); [discriminate|]. injection Hstep as <-. exact Hinv.
  - pose proof (invariant_stopEnter _ Hinv) as H.
    destruct (stopEnter (flags s)) as [f suspended]. injection Hstep as <-. exact H.
  - destruct (suspendedResets s); [discriminate|]. injection Hstep as <-. simpl.
    destruct initialized; [apply invariant_start|]; exact Hinv.
  - destruct (suspendedResets s); [discriminate|]. injection Hstep as <-. exact Hinv.
Qed.

Lemma invariant_run (es : list Event) (s s' : State) :
  invariant (flags s) -> run s es = Some s' -> invariant (flags s').
Proof.
  revert s. induction es as [|e rest IH]; intros s Hinv Hrun; simpl in Hrun.
  - injection Hrun as <-. exact Hinv.
  - destruct (step s e) as [s1|] eqn:Hstep; [|discriminate].
    eapply IH; [eapply invariant_step; eassumption | exact Hrun].
Qed.

(** Every reachable state is the end of a run from the constructor. *)
Lemma reachable_run (s : State) :
  reachable s <-> exists es, run constructor es = Some s.
Proof.
  split.
  - induction 1 as [|s e s' _ [es Hes] Hstep].
    + exists []. reflexivity.
    + exists (es ++ [e]).
      assert (forall l s0 s1, run s0 l = Some s1 -> run s0 (l ++ [e]) = step s1 e) as Happ.
      { induction l as [|x l IHl]; intros s0 s1 Hl; simpl in *.
        - injection Hl as ->. destruct (step s1 e); reflexivity.
        - destruct (step s0 x); [eauto | discriminate]. }
      rewrite (Happ _ _ _ Hes). exact Hstep.
  - intros [es Hes]. revert s Hes.
    induction es as [|e rest IH] using rev_ind; intros s Hes.
    + injection Hes as <-. constructor.
    + assert (forall l s0, run s0 (l ++ [e])
                = match run s0 l with Some s1 => step s1 e | None => None end) as Happ.
      { induction l as [|x l IHl]; intros s0; simpl.
        - destruct (step s0 e); reflexivity.
        - destruct (step s0 x); [apply IHl | reflexivity]. }
      rewrite Happ in Hes. destruct (run constructor rest) as [s1|] eqn:Hrest; [|discriminate].
      eapply reachable_step; [apply IH; reflexivity | exact Hes].
Qed.



Lemma reachable_invariant (s : State) : reachable s -> invariant (flags s).
Proof.
  intros H. apply reachable_run in H as [es Hes].
  eapply invariant_run; [apply invariant_constructor | exact Hes].
Qed.

End LifecycleFacts.

(** ** Request statistics *)

Section StatisticsFacts.
Import PerformanceStatistics.

Implicit Types (m : gmap string StatisticsData) (d : StatisticsData).

(** A later CALL_MESSAGE: the request count goes up by one and nothing
    else changes in the entry. *)
Lemma addRequestStatistic_call_again m (command : string) d (n : Z) (size : option Z) :
  m !! command = Some d -> requestCount d = Some n ->
  addRequestStatistic m command CALL_MESSAGE size
    = <[command := setRequestCount (Some (n + 1)) d]> m.
Proof.
  intros Hm Hn. unfold addRequestStatistic. rewrite Hm.
  destruct d as [rc ? ? ? ? ? ? ? ? ?]. simpl in Hn. subst rc. reflexivity.
Qed.

(** The first CALL_MESSAGE: the entry keeps its fields, counts one request
    and takes the message size when there is one. *)
Lemma addRequestStatistic_call_first m (command : string) (size : option Z) :
  requestCount (spreadEntry m command) = None ->
  addRequestStatistic m command CALL_MESSAGE size
    = <[command := match size with
                   | Some sz => setMessageSize (Some sz)
                                  (setRequestCount (Some 1) (spreadEntry m command))
                   | None => setRequestCount (Some 1) (spreadEntry m command)
                   end]> m.
Proof.
  unfold addRequestStatistic, spreadEntry.
  destruct (m !! command) as [[[n|] ? ? ? ? ? ? ? ? ?]|]; simpl;
    try discriminate; intros _; destruct size; reflexivity.
Qed.

(** A call with another message type than CALL_MESSAGE never writes the
    message size. *)
Lemma addRequestStatistic_keeps_messageSize m (command : string)
    (messageType : MessageType) (size : option Z) :
  messageType <> CALL_MESSAGE ->
  messageSize (spreadEntry (addRequestStatistic m command messageType size) command)
    = messageSize (spreadEntry m command).
Proof.
  intros Htype. unfold addRequestStatistic, spreadEntry.
  destruct messageType; [contradiction| | |reflexivity];
    destruct (m !! command) as [[? [?|] [?|] ? ? ? ? ? ? ?]|];
    rewrite lookup_insert_eq; reflexivity.
Qed.

Lemma addRequestStatistic_other_command m (command other : string)
    (messageType : MessageType) (size : option Z) :
  other <> command ->
  addRequestStatistic m command messageType size !! other = m !! other.
Proof.
  intros Hne. unfold addRequestStatistic.
  destruct messageType; [| | |reflexivity];
    destruct (m !! command) as [[[?|] [?|] [?|] ? ? ? ? ? ? ?]|]; try destruct size;
    apply lookup_insert_ne; congruence.
Qed.

(** Later CALL_MESSAGEs on an entry with a request count only add to the
    count. *)
Lemma addRequestStatistics_calls_again (laterSizes : list (option Z)) m
    (command : string) d (n : Z) :
  m !! command = Some d -> requestCount d = Some n ->
  addRequestStatistics m command (map (fun s => (CALL_MESSAGE, s)) laterSizes) !! command
    = Some (setRequestCount (Some (n + Z.of_nat (length laterSizes))) d) /\
  (forall other, other <> command ->
     addRequestStatistics m command (map (fun s => (CALL_MESSAGE, s)) laterSizes) !! other
       = m !! other).
Proof.
  revert m d n. induction laterSizes as [|size rest IH]; intros m d n Hm Hn.
  - simpl. split; [|reflexivity]. rewrite Hm, Z.add_0_r. f_equal.
    destruct d; simpl in *. subst. reflexivity.
  - change (addRequestStatistics m command
              (map (fun s => (CALL_MESSAGE, s)) (size :: rest)))
      with (addRequestStatistics (addRequestStatistic m command CALL_MESSAGE size)
              command (map (fun s => (CALL_MESSAGE, s)) rest)).
    pose proof (addRequestStatistic_call_again m command d n size Hm Hn) as Hstep.
    destruct (IH (addRequestStatistic m command CALL_MESSAGE size)
                (setRequestCount (Some (n + 1)) d) (n + 1)) as [Hget Hother].
    { rewrite Hstep. apply lookup_insert_eq. }
    { reflexivity. }
    split.
    + rewrite Hget. f_equal. simpl length. rewrite Nat2Z.inj_succ.
      replace (n + 1 + Z.of_nat (length rest)) with (n + Z.succ (Z.of_nat (length rest)))
        by lia.
      destruct d; reflexivity.
    + intros other Hne. rewrite (Hother other Hne).
      apply addRequestStatistic_other_command. exact Hne.
Qed.

(** C9: when the first CALL_MESSAGE of a command finds no request count,
    it sets the count to 1 and stores its message size if it has one; each
    CALL_MESSAGE that follows for that command adds one to the request
    count and changes nothing else: the entry keeps the message size of
    the first call and all its other fields, and the entries of the other
    commands are untouched. *)
Theorem addRequestStatistic_messageSize_first_call_only m (command : string)
    (size : option Z) (laterSizes : list (option Z)) :
  requestCount (spreadEntry m command) = None ->
  addRequestStatistic m command CALL_MESSAGE size !! command
    = Some (setRequestCount (Some 1)
              (match size with
               | Some sz => setMessageSize (Some sz) (spreadEntry m command)
               | None => spreadEntry m command
               end)) /\
  addRequestStatistics m command (callMessages size laterSizes) !! command
    = Some (setRequestCount (Some (1 + Z.of_nat (length laterSizes)))
              (match size with
               | Some sz => setMessageSize (Some sz) (spreadEntry m command)
               | None => spreadEntry m command
               end)) /\
  (forall other, other <> command ->
     addRequestStatistics m command (callMessages size laterSizes) !! other = m !! other).
Proof.
  intros Hfirst.
  pose proof (addRequestStatistic_call_first m command size Hfirst) as Hcall.
  assert (addRequestStatistic m command CALL_MESSAGE size !! command
          = Some (setRequestCount (Some 1)
                    (match size with
                     | Some sz => setMessageSize (Some sz) (spreadEntry m command)
                     | None => spreadEntry m command
                     end))) as Hm1.
  { rewrite Hcall, lookup_insert_eq. destruct size; reflexivity. }
  split; [exact Hm1|].
  destruct (addRequestStatistics_calls_again laterSizes _ command _ 1 Hm1 eq_refl)
    as [Hget Hother].
  unfold callMessages.
  change (addRequestStatistics m command
            ((CALL_MESSAGE, size) :: map (fun s => (CALL_MESSAGE, s)) laterSizes))
    with (addRequestStatistics (addRequestStatistic m command CALL_MESSAGE size)
            command (map (fun s => (CALL_MESSAGE, s)) laterSizes)).
  split.
  - rewrite Hget. reflexivity.
  - intros other Hne. rewrite (Hother other Hne).
    apply addRequestStatistic_other_command. exact Hne.
Qed.

(** Three CALL_MESSAGEs of 120, 48 and no bytes for a new command: the
    entry counts 3 requests and has the message size 120. *)
Lemma addRequestStatistic_messageSize_first_call_only_witness :
  addRequestStatistics ∅ "Heartbeat" (callMessages (Some 120) [Some 48; None])
    !! "Heartbeat"
  = Some (mkStatisticsData (Some 3) None None (Some 120) None None None None None None).
Proof.
  exact (proj1 (proj2 (addRequestStatistic_messageSize_first_call_only
                         ∅ "Heartbeat" (Some 120) [Some 48; None] eq_refl))).
Defined.

End StatisticsFacts.

(** ** Registration *)

Section RegistrationFacts.

Variable defaultInterval : Z.

Lemma isRegistered_setBootNotificationResponse (r : BootNotificationResponse)
    (st : ChargingStation) :
  isRegistered (setBootNotificationResponse (Some r) st) = registers r.
Proof.
  unfold isRegistered, inUnknownState, inAcceptedState, inPendingState,
    inRegistrationState, registers. simpl.
  destruct (bootStatusField r) as [[]|]; reflexivity.
Qed.

Lemma inAcceptedState_setBootNotificationResponse (r : BootNotificationResponse)
    (st : ChargingStation) :
  inAcceptedState (setBootNotificationResponse (Some r) st) = accepts r.
Proof.
  unfold inAcceptedState, inRegistrationState, accepts. simpl.
  destruct (bootStatusField r) as [[]|]; reflexivity.
Qed.

Lemma stationInfo_afterResponses (rs : list BootNotificationResponse)
    (st : ChargingStation) :
  stationInfo (afterResponses st rs) = stationInfo st.
Proof.
  revert st. induction rs as [|r rest IH]; intros st; simpl; [reflexivity|].
  unfold afterResponses in *. simpl. rewrite IH. reflexivity.
Qed.

(** A response that registers ends the loop: no sleep, no other request,
    the retry count as it was. *)
Lemma registrationLoop_registering (r : BootNotificationResponse)
    (rest : list BootNotificationOutcome) (st : ChargingStation) (count : Z)
    (done : list OnOpenAction) :
  registers r = true ->
  registrationLoop defaultInterval (Responded r :: rest) st count done
    = mkOnOpenRun (setBootNotificationResponse (Some r) st) count
        (done ++ [BootNotificationSent] ++ [Emitted registered]
           ++ (if accepts r then [Emitted accepted] else []) ++ [Emitted updated])
        OnOpenReturned.
Proof.
  intros Hr. simpl. rewrite isRegistered_setBootNotificationResponse, Hr. simpl.
  unfold onOpenEpilogue.
  rewrite isRegistered_setBootNotificationResponse, Hr,
    inAcceptedState_setBootNotificationResponse.
  rewrite <- !app_assoc. reflexivity.
Qed.

(** One turn of the loop on a response that does not register. *)
Lemma registrationLoop_failing (r : BootNotificationResponse)
    (rest : list BootNotificationOutcome) (st : ChargingStation)
    (info : ChargingStationInfo) (m count : Z) (done : list OnOpenAction) :
  stationInfo st = Some info -> registrationMaxRetries info = Some m ->
  registers r = false ->
  let count1 := if m =? -1 then count else count + 1 in
  let done1 := done ++ [BootNotificationSent; Slept (retrySleep defaultInterval r)] in
  let st1 := setBootNotificationResponse (Some r) st in
  registrationLoop defaultInterval (Responded r :: rest) st count done
    = if (count1 <=? m) || (m =? -1)
      then registrationLoop defaultInterval rest st1 count1 done1
      else mkOnOpenRun st1 count1 (done1 ++ [RegistrationFailureLogged; Emitted updated])
             OnOpenReturned.
Proof.
  intros Hinfo Hmax Hr. simpl.
  rewrite isRegistered_setBootNotificationResponse, Hr. simpl.
  rewrite Hinfo, Hmax. unfold retrySleep.
  destruct (Z.eqb_spec m (-1)) as [->|Hne].
  - rewrite bool_decide_eq_true_2 by reflexivity. simpl.
    rewrite orb_true_r. reflexivity.
  - rewrite bool_decide_eq_false_2 by congruence. simpl.
    rewrite !orb_false_r.
    destruct (count + 1 <=? m); [reflexivity|].
    unfold onOpenEpilogue. rewrite isRegistered_setBootNotificationResponse, Hr.
    reflexivity.
Qed.

(** Responses that do not register, while retries remain: each is followed
    by its sleep and by another request. *)
Lemma registrationLoop_failures (fails : list BootNotificationResponse)
    (tail : list BootNotificationOutcome) (st : ChargingStation)
    (info : ChargingStationInfo) (m count : Z) (done : list OnOpenAction) :
  stationInfo st = Some info -> registrationMaxRetries info = Some m ->
  Forall (fun r => registers r = false) fails ->
  m = -1 \/ count + Z.of_nat (length fails) <= m ->
  registrationLoop defaultInterval (map Responded fails ++ tail) st count done
    = registrationLoop defaultInterval tail (afterResponses st fails)
        (if m =? -1 then count else count + Z.of_nat (length fails))
        (done ++ retryActions defaultInterval fails).
Proof.
  intros Hinfo Hmax Hfails. revert st count done Hinfo.
  induction Hfails as [|r rest Hr _ IH]; intros st count done Hinfo Hbound.
  - simpl. rewrite Z.add_0_r, app_nil_r. destruct (m =? -1); reflexivity.
  - change (map Responded (r :: rest) ++ tail)
      with (Responded r :: (map Responded rest ++ tail)).
    rewrite (registrationLoop_failing r _ st info m count done Hinfo Hmax Hr).
    simpl length in *. rewrite Nat2Z.inj_succ in *.
    destruct (Z.eqb_spec m (-1)) as [->|Hne].
    + rewrite orb_true_r, IH by (simpl; auto).
      simpl. rewrite <- app_assoc. reflexivity.
    + assert ((count + 1 <=? m) = true) as -> by (apply Z.leb_le; lia).
      simpl orb. cbv iota. rewrite IH by (simpl; auto; right; lia).
      destruct (Z.eqb_spec m (-1)); [contradiction|].
      simpl. rewrite <- app_assoc. f_equal. lia.
Qed.

(** C5, amended: on a station that is not registered, each response
    whose status is neither Accepted nor Pending is followed by a sleep of
    its interval in seconds (of the default interval when it has none)
    and, while retries remain, by another BootNotification; the retry
    count goes up by one for each such response, unless
    registrationMaxRetries is -1, where it stays 0 and the retries are
    unbounded. A response with the status Accepted or Pending ends the
    loop at once, without sleep or retry. With registrationMaxRetries
    m >= 0, the loop gives up after m + 1 responses that do not
    register. *)
Theorem onOpen_registration_loop (st : ChargingStation) (info : ChargingStationInfo)
    (m : Z) (fails : list BootNotificationResponse) :
  isRegistered st = false ->
  stationInfo st = Some info -> registrationMaxRetries info = Some m ->
  Forall (fun r => registers r = false) fails ->
  (forall ok rest,
     registers ok = true ->
     m = -1 \/ Z.of_nat (length fails) <= m ->
     onOpen defaultInterval true (map Responded fails ++ Responded ok :: rest) st
       = mkOnOpenRun (setBootNotificationResponse (Some ok) (afterResponses st fails))
           (if m =? -1 then 0 else Z.of_nat (length fails))
           (retryActions defaultInterval fails
              ++ [BootNotificationSent; Emitted registered]
              ++ (if accepts ok then [Emitted accepted] else [])
              ++ [Emitted updated])
           OnOpenReturned) /\
  (forall rest,
     0 <= m -> Z.of_nat (length fails) = m + 1 ->
     onOpen defaultInterval true (map Responded fails ++ rest) st
       = mkOnOpenRun (afterResponses st fails) (m + 1)
           (retryActions defaultInterval fails
              ++ [RegistrationFailureLogged; Emitted updated])
           OnOpenReturned).
Proof.
  intros Hreg Hinfo Hmax Hfails. unfold onOpen. rewrite Hreg. simpl negb. cbv iota.
  split.
  - intros ok rest Hok Hbound.
    rewrite (registrationLoop_failures fails _ st info m 0 [] Hinfo Hmax Hfails)
      by (destruct Hbound; [left; assumption | right; lia]).
    rewrite registrationLoop_registering by exact Hok.
    simpl. reflexivity.
  - intros rest Hm Hlen.
    destruct fails as [|r fails' _] using rev_ind; [simpl in Hlen; lia|].
    rewrite length_app in Hlen. simpl in Hlen.
    apply Forall_app in Hfails as [Hinit Hlast].
    apply Forall_cons in Hlast as [Hlast _].
    rewrite map_app, <- app_assoc.
    rewrite (registrationLoop_failures fails' _ st info m 0 [] Hinfo Hmax Hinit)
      by (right; lia).
    assert ((m =? -1) = false) as Hne by (apply Z.eqb_neq; lia).
    rewrite Hne. simpl app at 1.
    rewrite (registrationLoop_failing r rest _ info m _ _
               (eq_trans (stationInfo_afterResponses fails' st) Hinfo) Hmax Hlast).
    rewrite Hne, orb_false_r.
    assert ((0 + Z.of_nat (length fails') + 1 <=? m) = false) as ->
      by (apply Z.leb_gt; lia).
    unfold afterResponses, retryActions.
    rewrite fold_left_app, flat_map_app. simpl.
    rewrite <- !app_assoc. simpl. f_equal. lia.
Qed.

End RegistrationFacts.

(** A Rejected response with the interval 5, then an Accepted one: a sleep
    of 5000 ms between the two requests, one retry counted. *)
Lemma onOpen_registration_loop_witness :
  onOpen 60000 true
      [Responded (mkBootResponse (Some REJECTED) (Some 5));
       Responded (mkBootResponse (Some ACCEPTED) (Some 30))]
      (unregisteredStation 2)
    = mkOnOpenRun
        (setBootNotificationResponse (Some (mkBootResponse (Some ACCEPTED) (Some 30)))
           (unregisteredStation 2))
        1
        [BootNotificationSent; Slept 5000; BootNotificationSent;
         Emitted registered; Emitted accepted; Emitted updated]
        OnOpenReturned.
Proof.
  apply (proj1 (onOpen_registration_loop 60000 (unregisteredStation 2)
                  (mkStationInfo (Some AC) (Some (230 # 1)) (Some 3) (Some (22080 # 1))
                     (Some 2))
                  2 [mkBootResponse (Some REJECTED) (Some 5)]
                  eq_refl eq_refl eq_refl
                  ltac:(repeat constructor))
               (mkBootResponse (Some ACCEPTED) (Some 30)) [] eq_refl).
  right. simpl. lia.
Defined.

(** C5, as stated, fails: after a response with the status Pending and the
    interval 2 the station does not sleep and sends no second
    BootNotification; the Accepted response that would follow is never
    asked for and no retry is counted. *)
Lemma onOpen_pending_is_not_retried :
  onOpen 60000 true
      [Responded (mkBootResponse (Some PENDING) (Some 2));
       Responded (mkBootResponse (Some ACCEPTED) (Some 30))]
      (unregisteredStation 5)
    = mkOnOpenRun
        (setBootNotificationResponse (Some (mkBootResponse (Some PENDING) (Some 2)))
           (unregisteredStation 5))
        0
        [BootNotificationSent; Emitted registered; Emitted updated]
        OnOpenReturned.
Proof. reflexivity. Qed.

(** ** Sorting *)

Section ArraySortFacts.

Context {A : Type} (key : A -> Z) (compareFn : A -> A -> Z).
Hypothesis compareFn_key : forall a b, compareFn a b = key a - key b.

Lemma sortInsert_Permutation (x : A) (l : list A) :
  Permutation (sortInsert compareFn x l) (x :: l).
Proof.
  induction l as [|y rest IH]; simpl; [reflexivity|].
  destruct (compareFn x y <=? 0); [reflexivity|].
  rewrite IH. apply perm_swap.
Qed.

Lemma arraySort_Permutation (l : list A) : Permutation (arraySort compareFn l) l.
Proof.
  induction l as [|x rest IH]; simpl; [reflexivity|].
  rewrite sortInsert_Permutation, IH. reflexivity.
Qed.



Lemma isArraySorted_tail (a : A) (l : list A) :
  isArraySorted compareFn (a :: l) = true -> isArraySorted compareFn l = true.
Proof.
  destruct l as [|b rest]; [reflexivity|].
  simpl. destruct (0 <? compareFn a b); [discriminate | trivial].
Qed.

Lemma isArraySorted_StronglySorted (l : list A) :
  isArraySorted compareFn l = true -> StronglySorted (ascendingBy key) l.
Proof.
  intros H. apply Sorted_StronglySorted.
  - intros a b c. unfold ascendingBy. lia.
  - induction l as [|a rest IH]; [constructor|].
    constructor; [apply IH; eapply isArraySorted_tail; exact H|].
    destruct rest as [|b rest']; constructor.
    simpl in H. rewrite compareFn_key in H.
    destruct (Z.ltb_spec 0 (key a - key b)); [discriminate|]. unfold ascendingBy. lia.
Qed.

(** Sorting an array that [isArraySorted] accepts changes nothing: the
    test only spares the call of the sort. *)
Lemma arraySort_sorted (l : list A) :
  isArraySorted compareFn l = true -> arraySort compareFn l = l.
Proof.
  induction l as [|a rest IH]; intros H; [reflexivity|].
  simpl. rewrite IH by (eapply isArraySorted_tail; exact H).
  destruct rest as [|b rest']; [reflexivity|].
  simpl in *. destruct (Z.ltb_spec 0 (compareFn a b)); [discriminate|].
  destruct (Z.leb_spec (compareFn a b) 0); [reflexivity|lia].
Qed.

End ArraySortFacts.

(** ** Schedule periods *)

Section SchedulePeriodFacts.
Import DateFns Helpers.


Lemma sortedSchedulePeriods_arraySort (ps : list ChargingSchedulePeriod) :
  sortedSchedulePeriods ps = arraySort chargingSchedulePeriodCompareFn ps.
Proof.
  unfold sortedSchedulePeriods.
  destruct (isArraySorted chargingSchedulePeriodCompareFn ps) eqn:Hsorted;
    [|reflexivity].
  simpl. symmetry.
  apply arraySort_sorted. exact Hsorted.
Qed.


Lemma sortedSchedulePeriods_Permutation (ps : list ChargingSchedulePeriod) :
  Permutation (sortedSchedulePeriods ps) ps.
Proof. rewrite sortedSchedulePeriods_arraySort. apply arraySort_Permutation. Qed.


End SchedulePeriodFacts.

(** ** The limit of a charging profile *)

Section ProfileLimitFacts.
Import DateFns Helpers.




End ProfileLimitFacts.

(** ** Recurring profiles *)

Section RecurringFacts.
Import DateFns Helpers.






End RecurringFacts.



(** ** Power limit *)

Section PowerLimitFacts.
Import DateFns Helpers.


(** The function returns what the first profile that yields a limit
    yields. *)
Lemma getLimitFromChargingProfilesLoop_first (cs : option ConnectorStatus)
    (currentDate : Z) (cps : list ChargingProfile) (result : ChargingProfilesLimit) :
  getLimitFromChargingProfilesLoop cs currentDate cps = Returns (Some result) ->
  exists before cp after,
    cps = before ++ cp :: after /\
    Forall (fun c => getLimitFromChargingProfile cs currentDate c = Returns None) before /\
    getLimitFromChargingProfile cs currentDate cp = Returns (Some result).
Proof.
  induction cps as [|c rest IH]; simpl; [discriminate|].
  destruct (getLimitFromChargingProfile cs currentDate c) as [[r|]|e] eqn:Hc.
  - intros Hr. exists [], c, rest. repeat split; [constructor | congruence].
  - intros Hrest. destruct (IH Hrest) as (before & cp & after & -> & Hbefore & Hcp).
    exists (c :: before), cp, after. repeat split; [constructor; assumption | exact Hcp].
  - discriminate.
Qed.



End PowerLimitFacts.


(** With a maximum power of 5000 W for one connector the same profiles give
    the maximum power of the connector. *)
Example getChargingStationConnectorChargingProfilesPowerLimit_clamped :
  Helpers.getChargingStationConnectorChargingProfilesPowerLimit
      (twoProfilesStation (5000 # 1) (1 # 1)) 1 date_2024_01_01_noon
    = Returns (Some (Finite ((5000 # 1) / (1 # 1))%Q)).
Proof. reflexivity. Qed.


Example getLimitFromChargingProfiles_unsorted_periods :
  Helpers.getLimitFromChargingProfiles (acStation [unsortedPeriodsProfile] []) 1
      [unsortedPeriodsProfile] (date_2024_01_01 + 5400000)
    = Returns (Some (Helpers.mkProfilesLimit (11 # 1)
                       (Helpers.setChargingSchedulePeriod
                          [mkPeriod 0 (16 # 1) None; mkPeriod 3600 (11 # 1) None;
                           mkPeriod 7200 (6 # 1) None]
                          unsortedPeriodsProfile))).
Proof. reflexivity. Qed.

(** A first period that does not start at 0 makes the profile yield
    nothing. *)
Example getLimitFromChargingProfiles_first_period_not_zero :
  Helpers.getLimitFromChargingProfiles (acStation [] []) 1
      [mkProfile 4 1 ABSOLUTE None None None
         (mkSchedule (Some date_2024_01_01) (Some (Seconds 86400)) WATT
            [mkPeriod 60 (7000 # 1) None; mkPeriod 3600 (3000 # 1) None])]
      (date_2024_01_01 + 5400000)
    = Returns None.
Proof. reflexivity. Qed.

(** * Properties of the further parts *)

(** ** Connectors, EVSEs and the power divider *)

Section ConnectorFacts.

Lemma evsesHaveConnector_getEvsesConnectorStatus (connectorId : Z) (es : JsMap EvseStatus) :
  evsesHaveConnector connectorId es = true
  <-> exists c, getEvsesConnectorStatus connectorId es = Some c.
Proof.
  induction es as [|[evseId e] rest IH]; simpl.
  - split; [discriminate | intros [c Hc]; discriminate].
  - unfold mapHas at 1 2.
    destruct (mapGet connectorId (evseConnectors e)) as [c|] eqn:Hget.
    + split; [intros _; exists c; reflexivity | reflexivity].
    + exact IH.
Qed.

(** X1: [hasConnector] answers true exactly for the connector ids for which
    [getConnectorStatus] returns a connector status, with connectors as with
    EVSEs. *)
Theorem hasConnector_getConnectorStatus (st : ChargingStation) (connectorId : Z) :
  hasConnector st connectorId = true
  <-> exists c, getConnectorStatus st connectorId = Some c.
Proof.
  unfold hasConnector, getConnectorStatus. destruct (hasEvses st).
  - apply evsesHaveConnector_getEvsesConnectorStatus.
  - unfold mapHas. destruct (mapGet connectorId (connectors st)) as [c|].
    + split; [intros _; exists c; reflexivity | reflexivity].
    + split; [discriminate | intros [c Hc]; discriminate].
Qed.






(** X3: when the power is shared between the connectors in use and no
    transaction is running, the power divider is 0, the maximum power of a
    connector is not finite, and the limit of the charging profiles is
    returned in Watts without being clamped, however large it is. *)
Theorem getChargingStationConnectorChargingProfilesPowerLimit_idle_shared
    (st : ChargingStation) (connectorId currentDate : Z)
    (result : Helpers.ChargingProfilesLimit) (info : ChargingStationInfo) (v power : Q) :
  Helpers.getLimitFromChargingProfiles st connectorId
      (Helpers.getConnectorChargingProfiles st connectorId) currentDate
    = Returns (Some result) ->
  stationInfo st = Some info ->
  voltageOut info = Some v ->
  maximumPower info = Some power ->
  (0 <= power)%Q ->
  getNumberOfRunningTransactions st = 0 ->
  powerDivider st = Some (inject_Z (getPowerDivider st (Some true))) ->
  Helpers.getChargingStationConnectorChargingProfilesPowerLimit st connectorId currentDate
    = Returns (Some (Finite
        (limitInWatts info v
           (chargingRateUnit (chargingSchedule (Helpers.resultChargingProfile result)))
           (Helpers.resultLimit result)))).
Proof.
  intros Hresult Hinfo Hv Hpower Hpos Hidle Hdivider.
  unfold getPowerDivider in Hdivider. simpl in Hdivider. rewrite Hidle in Hdivider.
  unfold Helpers.getChargingStationConnectorChargingProfilesPowerLimit.
  destruct (isNotEmptyArray (Helpers.getConnectorChargingProfiles st connectorId)) eqn:Hempty.
  2:{ destruct (Helpers.getConnectorChargingProfiles st connectorId); [|discriminate].
      discriminate Hresult. }
  rewrite Hresult, Hinfo, Hpower, Hdivider, Hv.
  assert (Hquotient : jsDiv (Some power) (Some (inject_Z 0)) = PlusInfinity
                      \/ jsDiv (Some power) (Some (inject_Z 0)) = NaN).
  { unfold jsDiv, Qsign. simpl.
    assert (0 <= Qnum power) by (unfold Qle in Hpos; simpl in Hpos; lia).
    destruct (Z.eqb_spec (Z.sgn (Qnum power)) 0); [right; reflexivity|].
    left. destruct (Z.ltb_spec 0 (Z.sgn (Qnum power))); [reflexivity|].
    pose proof (Z.sgn_nonneg (Qnum power)). lia. }
  unfold limitInWatts, ACElectricUtils.powerTotal, DCElectricUtils.power.
  destruct Hquotient as [-> | ->];
    destruct (chargingRateUnit (chargingSchedule (Helpers.resultChargingProfile result)));
    destruct (currentOutType info) as [[]|]; reflexivity.
Qed.

(** A profile of 100 A, that is 69000 W, on a station of 22080 W. *)
Lemma getChargingStationConnectorChargingProfilesPowerLimit_idle_shared_witness :
  Helpers.getChargingStationConnectorChargingProfilesPowerLimit
      idleSharedPowerStation 1 date_2024_01_01_noon
    = Returns (Some (Finite (69000 # 1))).
Proof.
  apply (getChargingStationConnectorChargingProfilesPowerLimit_idle_shared
           idleSharedPowerStation 1 date_2024_01_01_noon
           (Helpers.mkProfilesLimit (100 # 1) (ampereProfile 2 2 (100 # 1)))
           (mkStationInfo (Some AC) (Some (230 # 1)) (Some 3) (Some (22080 # 1)) (Some 5))
           (230 # 1) (22080 # 1)); try reflexivity.
  unfold Qle. simpl. lia.
Defined.

End ConnectorFacts.

(** ** Charging profiles: validity, kinds and periods *)

Section ProfilePreparationFacts.
Import DateFns Helpers.

Lemma sameProfileButSchedule_refl (cp : ChargingProfile) : sameProfileButSchedule cp cp.
Proof. repeat split. Qed.

Lemma sameProfileButSchedule_trans (a b c : ChargingProfile) :
  sameProfileButSchedule a b -> sameProfileButSchedule b c -> sameProfileButSchedule a c.
Proof.
  unfold sameProfileButSchedule.
  intros (? & ? & ? & ? & ? & ? & ? & ?) (? & ? & ? & ? & ? & ? & ? & ?).
  repeat split; congruence.
Qed.

Lemma sameProfileButSchedule_setStartSchedule (s : option Z) (cp : ChargingProfile) :
  sameProfileButSchedule cp (setStartSchedule s cp).
Proof. repeat split. Qed.

Lemma sameProfileButSchedule_setDuration (d : option JsSeconds) (cp : ChargingProfile) :
  sameProfileButSchedule cp (setDuration d cp).
Proof. repeat split. Qed.

Lemma sameProfileButSchedule_default (cs : option ConnectorStatus) (cp : ChargingProfile) :
  sameProfileButSchedule cp (defaultStartScheduleAndDuration cs cp).
Proof.
  unfold defaultStartScheduleAndDuration.
  destruct (startSchedule (chargingSchedule cp));
    match goal with
    | |- context [duration (chargingSchedule ?c)] =>
        destruct (duration (chargingSchedule c))
    end; repeat split.
Qed.

Lemma sameProfileButSchedule_checkDuration (cp : ChargingProfile) (i : Interval) :
  sameProfileButSchedule cp (checkRecurringChargingProfileDuration cp i).
Proof.
  unfold checkRecurringChargingProfileDuration.
  destruct (duration (chargingSchedule cp)) as [d|];
    [destruct (secondsGt d (intervalSeconds i))|]; repeat split.
Qed.

Lemma sameProfileButSchedule_prepareRecurring (cp : ChargingProfile) (currentDate : Z) :
  sameProfileButSchedule cp (snd (prepareRecurringChargingProfile cp currentDate)).
Proof.
  unfold prepareRecurringChargingProfile.
  destruct (recurrencyKind cp) as [[]|]; [| |apply sameProfileButSchedule_refl].
  all: destruct (startSchedule (chargingSchedule cp)) as [s|];
    [|apply sameProfileButSchedule_checkDuration].
  all: match goal with
       | |- context [if ?b then _ else _] => destruct b
       end; cbn [snd]; [|apply sameProfileButSchedule_checkDuration].
  all: eapply sameProfileButSchedule_trans;
    [apply sameProfileButSchedule_checkDuration
    |apply sameProfileButSchedule_setStartSchedule].
Qed.

Lemma sameProfileButSchedule_prepareKind (cs : option ConnectorStatus)
    (cp : ChargingProfile) (currentDate : Z) :
  sameProfileButSchedule cp (snd (prepareChargingProfileKind cs cp currentDate)).
Proof.
  unfold prepareChargingProfileKind.
  destruct (chargingProfileKind cp).
  - apply sameProfileButSchedule_refl.
  - destruct (negb (canProceedRecurringChargingProfile cp)); cbn [snd];
      [apply sameProfileButSchedule_refl | apply sameProfileButSchedule_prepareRecurring].
  - destruct (startSchedule (chargingSchedule cp)); destruct cs as [c|];
      try destruct (bool_decide (transactionStarted c = Some true)); repeat split.
Qed.

Lemma sameProfileButSchedule_prepared (cs : option ConnectorStatus) (currentDate : Z)
    (cp cp' : ChargingProfile) :
  preparedChargingProfile cs currentDate cp = Some cp' ->
  sameProfileButSchedule cp cp'.
Proof.
  unfold preparedChargingProfile. intros H.
  pose proof (sameProfileButSchedule_prepareKind cs
                (defaultStartScheduleAndDuration cs cp) currentDate) as Hkind.
  destruct (prepareChargingProfileKind cs (defaultStartScheduleAndDuration cs cp)
              currentDate) as [proceed cp2].
  destruct (negb proceed); [discriminate|].
  destruct (negb (canProceedChargingProfile cp2 currentDate)); [discriminate|].
  injection H as <-.
  eapply sameProfileButSchedule_trans; [apply sameProfileButSchedule_default | exact Hkind].
Qed.

(** A profile that is not prepared yields nothing. *)
Lemma getLimitFromChargingProfile_not_prepared (cs : option ConnectorStatus)
    (currentDate : Z) (cp : ChargingProfile) :
  preparedChargingProfile cs currentDate cp = None ->
  getLimitFromChargingProfile cs currentDate cp = Returns None.
Proof. unfold getLimitFromChargingProfile. intros ->. reflexivity. Qed.

Lemma preparedChargingProfile_validity (cs : option ConnectorStatus) (currentDate : Z)
    (cp : ChargingProfile) :
  (exists from, validFrom cp = Some from /\ currentDate < from)
  \/ (exists to, validTo cp = Some to /\ to < currentDate) ->
  preparedChargingProfile cs currentDate cp = None.
Proof.
  intros Houtside. unfold preparedChargingProfile.
  pose proof (sameProfileButSchedule_prepareKind cs
                (defaultStartScheduleAndDuration cs cp) currentDate) as Hkind.
  pose proof (sameProfileButSchedule_default cs cp) as Hdefault.
  destruct (prepareChargingProfileKind cs (defaultStartScheduleAndDuration cs cp)
              currentDate) as [proceed cp2].
  destruct (negb proceed); [reflexivity|].
  cbn [snd] in Hkind.
  destruct (sameProfileButSchedule_trans _ _ _ Hdefault Hkind)
    as (_ & _ & _ & _ & Hfrom & Hto & _).
  assert (canProceedChargingProfile cp2 currentDate = false) as ->; [|reflexivity].
  unfold canProceedChargingProfile. rewrite Hfrom, Hto.
  destruct Houtside as [(from & -> & Hlt) | (to & -> & Hlt)].
  - simpl. unfold isBefore. destruct (Z.ltb_spec currentDate from); [reflexivity|lia].
  - unfold isValidDate at 2, isAfter.
    destruct (Z.ltb_spec to currentDate); [|lia].
    rewrite orb_true_r. reflexivity.
Qed.

(** X4: a profile whose [validFrom] is after the current date, or whose
    [validTo] is before it, yields no limit whatever its kind and its
    schedule: [getLimitFromChargingProfiles] goes on with the profiles that
    follow it. *)
Theorem getLimitFromChargingProfiles_validity (st : ChargingStation) (connectorId : Z)
    (cp : ChargingProfile) (rest : list ChargingProfile) (currentDate : Z) :
  (exists from, validFrom cp = Some from /\ currentDate < from)
  \/ (exists to, validTo cp = Some to /\ to < currentDate) ->
  getLimitFromChargingProfiles st connectorId (cp :: rest) currentDate
    = getLimitFromChargingProfiles st connectorId rest currentDate.
Proof.
  intros Houtside. unfold getLimitFromChargingProfiles. simpl.
  rewrite getLimitFromChargingProfile_not_prepared; [reflexivity|].
  apply preparedChargingProfile_validity. exact Houtside.
Qed.

Lemma getLimitFromChargingProfiles_validity_witness :
  getLimitFromChargingProfiles (acStation [] []) 1
      [notYetValidProfile; ampereProfile 2 2 (10 # 1)] date_2024_01_01_noon
    = getLimitFromChargingProfiles (acStation [] []) 1
        [ampereProfile 2 2 (10 # 1)] date_2024_01_01_noon.
Proof.
  apply (getLimitFromChargingProfiles_validity (acStation [] []) 1 notYetValidProfile
           [ampereProfile 2 2 (10 # 1)] date_2024_01_01_noon).
  left. exists date_2024_01_22. split; [reflexivity|].
  unfold date_2024_01_01_noon, date_2024_01_01, date_2024_01_22. lia.
Defined.

(** X5: a relative profile yields no limit on a connector without a
    started transaction; with a started transaction, the schedule of the
    prepared profile starts when the transaction started, whatever start the
    profile declares. *)
Theorem getLimitFromChargingProfile_relative (cs : option ConnectorStatus)
    (currentDate : Z) (cp : ChargingProfile) :
  chargingProfileKind cp = RELATIVE ->
  (hasTransactionStarted cs = false ->
     getLimitFromChargingProfile cs currentDate cp = Returns None) /\
  (forall c cp',
     cs = Some c -> transactionStarted c = Some true ->
     preparedChargingProfile cs currentDate cp = Some cp' ->
     startSchedule (chargingSchedule cp') = transactionStart c).
Proof.
  intros Hrelative.
  pose proof (sameProfileButSchedule_default cs cp) as (_ & _ & Hkind & _).
  rewrite Hrelative in Hkind.
  split.
  - intros Hidle. apply getLimitFromChargingProfile_not_prepared.
    unfold preparedChargingProfile, prepareChargingProfileKind. rewrite Hkind.
    assert (Hcan : forall c0, startSchedule (chargingSchedule c0) = None ->
                     canProceedChargingProfile c0 currentDate = false).
    { intros c0 Hnone. unfold canProceedChargingProfile. rewrite Hnone.
      destruct (_ || _); reflexivity. }
    destruct cs as [c|]; simpl in Hidle; [rewrite Hidle|];
      destruct (startSchedule (chargingSchedule (defaultStartScheduleAndDuration _ cp)))
        eqn:Hstart; cbn [negb]; rewrite Hcan; reflexivity || assumption.
  - intros c cp' -> Hstarted. unfold preparedChargingProfile, prepareChargingProfileKind.
    rewrite Hkind, Hstarted. rewrite bool_decide_eq_true_2 by reflexivity. cbn [negb].
    destruct (negb (canProceedChargingProfile _ currentDate)); [discriminate|].
    intros H. injection H as <-. reflexivity.
Qed.

Lemma getLimitFromChargingProfile_relative_witness :
  getLimitFromChargingProfile None date_2024_01_01_noon relativeProfile = Returns None.
Proof.
  exact (proj1 (getLimitFromChargingProfile_relative None date_2024_01_01_noon
                  relativeProfile eq_refl) eq_refl).
Defined.

Lemma searchSchedulePeriod_limit_of_period (start_ currentDate duration_ : Z)
    (ps : list ChargingSchedulePeriod) :
  forall (previous : option ChargingSchedulePeriod) (l : Q),
  searchSchedulePeriod start_ currentDate duration_ previous ps = Returns (Some l) ->
  (exists p, p ∈ ps /\ l = limit p) \/ (exists q, previous = Some q /\ l = limit q).
Proof.
  induction ps as [|p rest IH]; intros previous l; simpl; [discriminate|].
  destruct (isAfter (addSeconds start_ (startPeriod p)) currentDate).
  - destruct previous as [q|]; [|discriminate].
    intros H. injection H as <-. right. exists q. split; reflexivity.
  - destruct rest as [|next rest'].
    + intros H. injection H as <-. left. exists p. split; [left|reflexivity].
    + destruct (duration_ <? differenceInSeconds (addSeconds start_ (startPeriod next)) start_).
      * intros H. injection H as <-. left. exists p. split; [left|reflexivity].
      * intros H. destruct (IH (Some p) l H) as [(p' & Hin & Hl) | (q & Hq & Hl)].
        -- left. exists p'. split; [right; exact Hin | exact Hl].
        -- injection Hq as <-. left. exists p. split; [left | exact Hl].
Qed.

Lemma getLimitFromSchedulePeriods_limit_of_period (start_ currentDate duration_ : Z)
    (ps : list ChargingSchedulePeriod) (l : Q) :
  fst (getLimitFromSchedulePeriods start_ currentDate duration_ ps) = Returns (Some l) ->
  snd (getLimitFromSchedulePeriods start_ currentDate duration_ ps) = sortedSchedulePeriods ps
  /\ exists p, p ∈ ps /\ l = limit p.
Proof.
  unfold getLimitFromSchedulePeriods.
  pose proof (sortedSchedulePeriods_Permutation ps) as Hperm.
  destruct (isNotEmptyArray ps); [|discriminate].
  destruct (sortedSchedulePeriods ps) as [|first others] eqn:Hsorted; [discriminate|].
  destruct (negb (startPeriod first =? 0)); [discriminate|].
  assert (Hin : forall p, p ∈ first :: others -> p ∈ ps)
    by (intros p Hp; rewrite <- Hperm; exact Hp).
  destruct others as [|second others'].
  - simpl. intros H. injection H as <-. split; [reflexivity|].
    exists first. split; [apply Hin; left | reflexivity].
  - cbn [fst snd]. intros H. split; [reflexivity|].
    destruct (searchSchedulePeriod_limit_of_period _ _ _ _ _ _ H)
      as [(p & Hp & Hl) | (q & Hq & _)]; [|discriminate].
    exists p. split; [apply Hin; exact Hp | exact Hl].
Qed.

(** X6: a limit that [getLimitFromChargingProfiles] returns is the limit of
    a period of one of the given profiles, and the profile returned with it
    is that profile (same id, stack level and rate unit) with its periods
    sorted: no limit is made up, whatever the dates. *)
Theorem getLimitFromChargingProfiles_limit_of_period (st : ChargingStation)
    (connectorId : Z) (cps : list ChargingProfile) (currentDate : Z)
    (result : ChargingProfilesLimit) :
  getLimitFromChargingProfiles st connectorId cps currentDate = Returns (Some result) ->
  exists cp p,
    cp ∈ cps /\
    p ∈ chargingSchedulePeriod (chargingSchedule cp) /\
    resultLimit result = limit p /\
    chargingProfileId (resultChargingProfile result) = chargingProfileId cp /\
    stackLevel (resultChargingProfile result) = stackLevel cp /\
    chargingRateUnit (chargingSchedule (resultChargingProfile result))
      = chargingRateUnit (chargingSchedule cp) /\
    chargingSchedulePeriod (chargingSchedule (resultChargingProfile result))
      = sortedSchedulePeriods (chargingSchedulePeriod (chargingSchedule cp)).
Proof.
  intros Hresult. unfold getLimitFromChargingProfiles in Hresult.
  destruct (getLimitFromChargingProfilesLoop_first _ _ _ _ Hresult)
    as (before & cp & after & -> & _ & Hcp).
  exists cp. unfold getLimitFromChargingProfile in Hcp.
  destruct (preparedChargingProfile (getConnectorStatus st connectorId) currentDate cp)
    as [cp'|] eqn:Hprepared; [|discriminate].
  destruct (sameProfileButSchedule_prepared _ _ _ _ Hprepared)
    as (Hid & Hlevel & _ & _ & _ & _ & Hunit & Hperiods).
  destruct (startSchedule (chargingSchedule cp')) as [s|]; [|discriminate].
  destruct (duration (chargingSchedule cp')) as [[d|]|]; try discriminate.
  destruct (isWithinInterval currentDate s (addSeconds s d)); [|discriminate].
  destruct (getLimitFromSchedulePeriods s currentDate d
              (chargingSchedulePeriod (chargingSchedule cp'))) as [found sorted] eqn:Hfound.
  destruct found as [[l|]|e]; try discriminate.
  injection Hcp as <-.
  destruct (getLimitFromSchedulePeriods_limit_of_period s currentDate d
              (chargingSchedulePeriod (chargingSchedule cp')) l) as (Hsorted & p & Hp & Hl).
  { rewrite Hfound. reflexivity. }
  rewrite Hfound in Hsorted. cbn [snd] in Hsorted. subst sorted.
  rewrite Hperiods in Hp |- *.
  exists p. repeat split; try assumption.
  apply elem_of_app. right. left.
Qed.

Lemma getLimitFromChargingProfiles_limit_of_period_witness :
  exists cp p,
    cp ∈ [unsortedPeriodsProfile] /\
    p ∈ chargingSchedulePeriod (chargingSchedule cp) /\
    (11 # 1) = limit p /\
    1 = chargingProfileId cp /\
    1 = stackLevel cp /\
    AMPERE = chargingRateUnit (chargingSchedule cp) /\
    [mkPeriod 0 (16 # 1) None; mkPeriod 3600 (11 # 1) None; mkPeriod 7200 (6 # 1) None]
      = sortedSchedulePeriods (chargingSchedulePeriod (chargingSchedule cp)).
Proof.
  exact (getLimitFromChargingProfiles_limit_of_period
           (acStation [unsortedPeriodsProfile] []) 1 [unsortedPeriodsProfile]
           (date_2024_01_01 + 5400000)
           (mkProfilesLimit (11 # 1)
              (setChargingSchedulePeriod
                 [mkPeriod 0 (16 # 1) None; mkPeriod 3600 (11 # 1) None;
                  mkPeriod 7200 (6 # 1) None]
                 unsortedPeriodsProfile))
           eq_refl).
Defined.





End ProfilePreparationFacts.

(** ** Reservations: lookup, addition and sweep *)

Section ReservationFacts.

Lemma findReservation_None (f : ReservationFilter) (cs : JsMap ConnectorStatus) :
  findReservation f cs = None
  <-> Forall (fun c => forall r, reservation c = Some r -> reservationMatches f r = false)
        (map snd cs).
Proof.
  induction cs as [|[k c] rest IH]; simpl.
  - split; [constructor | reflexivity].
  - destruct (reservation c) as [r|] eqn:Hr.
    + destruct (reservationMatches f r) eqn:Hmatch.
      * split; [discriminate|]. intros H. apply Forall_cons in H as [H _].
        specialize (H r Hr). congruence.
      * rewrite IH. split.
        -- intros H. constructor; [|exact H]. intros r' Hr'. congruence.
        -- intros H. apply Forall_cons in H as [_ H]. exact H.
    + rewrite IH. split.
      * intros H. constructor; [intros r' Hr'; congruence | exact H].
      * intros H. apply Forall_cons in H as [_ H]. exact H.
Qed.

Lemma findReservation_Some (f : ReservationFilter) (cs : JsMap ConnectorStatus)
    (r : Reservation) :
  findReservation f cs = Some r ->
  reservationMatches f r = true /\ exists c, c ∈ map snd cs /\ reservation c = Some r.
Proof.
  induction cs as [|[k c] rest IH]; simpl; [discriminate|].
  destruct (reservation c) as [r0|] eqn:Hr.
  - destruct (reservationMatches f r0) eqn:Hmatch.
    + intros H. injection H as <-. split; [exact Hmatch|].
      exists c. split; [left | exact Hr].
    + intros H. destruct (IH H) as [Hm (c' & Hin & Hc')].
      split; [exact Hm|]. exists c'. split; [right; exact Hin | exact Hc'].
  - intros H. destruct (IH H) as [Hm (c' & Hin & Hc')].
    split; [exact Hm|]. exists c'. split; [right; exact Hin | exact Hc'].
Qed.

(** X8: [getReservationBy] returns a reservation only if it matches the key
    and value and is held by one of the connectors, and it returns none
    exactly when no connector, of the station or of any of its EVSEs, holds
    a matching reservation. *)
Theorem getReservationBy_sound_complete (st : ChargingStation) (f : ReservationFilter) :
  (forall r, getReservationBy st f = Some r ->
     reservationMatches f r = true /\
     exists c, c ∈ allConnectorStatuses st /\ reservation c = Some r) /\
  (getReservationBy st f = None
   <-> Forall (fun c => forall r, reservation c = Some r -> reservationMatches f r = false)
         (allConnectorStatuses st)).
Proof.
  unfold getReservationBy, allConnectorStatuses. destruct (hasEvses st).
  - induction (evses st) as [|[evseId e] rest [IHsome IHnone]]; simpl.
    + split; [discriminate|]. split; [constructor | reflexivity].
    + destruct (findReservation f (evseConnectors e)) as [r0|] eqn:Hfind.
      * split.
        -- intros r H. injection H as <-.
           destruct (findReservation_Some _ _ _ Hfind) as [Hm (c & Hin & Hc)].
           split; [exact Hm|]. exists c. split; [|exact Hc].
           apply elem_of_app. left. exact Hin.
        -- split; [discriminate|]. intros H. apply Forall_app in H as [H _].
           apply findReservation_None in H. congruence.
      * apply findReservation_None in Hfind. split.
        -- intros r H. destruct (IHsome r H) as [Hm (c & Hin & Hc)].
           split; [exact Hm|]. exists c. split; [|exact Hc].
           apply elem_of_app. right. exact Hin.
        -- rewrite IHnone, Forall_app. tauto.
  - split; [apply findReservation_Some | apply findReservation_None].
Qed.

Lemma findReservation_mapUpdate_Some (f : ReservationFilter) (k : Z)
    (g : ConnectorStatus -> ConnectorStatus) (m : JsMap ConnectorStatus)
    (c : ConnectorStatus) (r : Reservation) :
  findReservation f m = None -> mapGet k m = Some c ->
  reservation (g c) = Some r -> reservationMatches f r = true ->
  findReservation f (mapUpdate k g m) = Some r.
Proof.
  intros Hnone Hget Hr Hmatch. induction m as [|[k' c'] rest IH]; simpl in *; [discriminate|].
  assert (Hc' : forall r', reservation c' = Some r' -> reservationMatches f r' = false).
  { intros r' Hr'. rewrite Hr' in Hnone. destruct (reservationMatches f r'); congruence. }
  assert (Hrest : findReservation f rest = None).
  { destruct (reservation c') as [r'|]; [|exact Hnone].
    rewrite (Hc' r' eq_refl) in Hnone. exact Hnone. }
  destruct (Z.eqb_spec k' k) as [->|Hne]; simpl.
  - injection Hget as ->. rewrite Hr, Hmatch. reflexivity.
  - destruct (reservation c') as [r'|]; [rewrite (Hc' r' eq_refl)|]; apply IH; assumption.
Qed.

Lemma findReservation_mapUpdate_None (f : ReservationFilter) (k : Z)
    (g : ConnectorStatus -> ConnectorStatus) (m : JsMap ConnectorStatus) :
  findReservation f m = None -> (forall c, reservation (g c) = None) ->
  findReservation f (mapUpdate k g m) = None.
Proof.
  intros Hnone Hg. induction m as [|[k' c'] rest IH]; simpl in *; [reflexivity|].
  assert (Hc' : forall r', reservation c' = Some r' -> reservationMatches f r' = false).
  { intros r' Hr'. rewrite Hr' in Hnone. destruct (reservationMatches f r'); congruence. }
  assert (Hrest : findReservation f rest = None).
  { destruct (reservation c') as [r'|]; [|exact Hnone].
    rewrite (Hc' r' eq_refl) in Hnone. exact Hnone. }
  destruct (k' =? k); simpl.
  - rewrite Hg. exact Hrest.
  - destruct (reservation c') as [r'|]; [rewrite (Hc' r' eq_refl)|]; apply IH; assumption.
Qed.

Lemma findEvsesReservation_update_Some (f : ReservationFilter) (k : Z)
    (g : ConnectorStatus -> ConnectorStatus) (es : JsMap EvseStatus)
    (c : ConnectorStatus) (r : Reservation) :
  findEvsesReservation f es = None -> getEvsesConnectorStatus k es = Some c ->
  reservation (g c) = Some r -> reservationMatches f r = true ->
  findEvsesReservation f (updateEvsesConnector k g es) = Some r.
Proof.
  intros Hnone Hget Hr Hmatch. induction es as [|[evseId e] rest IH]; simpl in *; [discriminate|].
  destruct (findReservation f (evseConnectors e)) eqn:Hfind; [discriminate|].
  destruct (mapHas k (evseConnectors e)); simpl.
  - rewrite (findReservation_mapUpdate_Some f k g _ c r Hfind Hget Hr Hmatch). reflexivity.
  - rewrite Hfind. apply IH; assumption.
Qed.

Lemma findEvsesReservation_update_None (f : ReservationFilter) (k : Z)
    (g : ConnectorStatus -> ConnectorStatus) (es : JsMap EvseStatus) :
  findEvsesReservation f es = None -> (forall c, reservation (g c) = None) ->
  findEvsesReservation f (updateEvsesConnector k g es) = None.
Proof.
  intros Hnone Hg. induction es as [|[evseId e] rest IH]; simpl in *; [reflexivity|].
  destruct (findReservation f (evseConnectors e)) eqn:Hfind; [discriminate|].
  destruct (mapHas k (evseConnectors e)); simpl.
  - rewrite (findReservation_mapUpdate_None f k g _ Hfind Hg). exact Hnone.
  - rewrite Hfind. apply IH. exact Hnone.
Qed.

Lemma getReservationBy_update_Some (f : ReservationFilter) (k : Z)
    (g : ConnectorStatus -> ConnectorStatus) (st : ChargingStation)
    (c : ConnectorStatus) (r : Reservation) :
  getReservationBy st f = None -> getConnectorStatus st k = Some c ->
  reservation (g c) = Some r -> reservationMatches f r = true ->
  getReservationBy (updateConnectorStatus k g st) f = Some r.
Proof.
  unfold getReservationBy, getConnectorStatus. rewrite hasEvses_updateConnectorStatus.
  unfold updateConnectorStatus. destruct (hasEvses st); simpl.
  - apply findEvsesReservation_update_Some.
  - apply findReservation_mapUpdate_Some.
Qed.

Lemma getReservationBy_update_None (f : ReservationFilter) (k : Z)
    (g : ConnectorStatus -> ConnectorStatus) (st : ChargingStation) :
  getReservationBy st f = None -> (forall c, reservation (g c) = None) ->
  getReservationBy (updateConnectorStatus k g st) f = None.
Proof.
  unfold getReservationBy. rewrite hasEvses_updateConnectorStatus.
  unfold updateConnectorStatus. destruct (hasEvses st); simpl.
  - apply findEvsesReservation_update_None.
  - apply findReservation_mapUpdate_None.
Qed.

Lemma mapUpdate_compose {V : Type} (k : Z) (g1 g2 : V -> V) (m : JsMap V) :
  mapUpdate k g2 (mapUpdate k g1 m) = mapUpdate k (fun v => g2 (g1 v)) m.
Proof.
  induction m as [|[k' v] rest IH]; simpl; [reflexivity|].
  destruct (Z.eqb_spec k' k) as [->|Hne]; simpl.
  - rewrite Z.eqb_refl. reflexivity.
  - destruct (Z.eqb_spec k' k); [contradiction|]. rewrite IH. reflexivity.
Qed.

Lemma updateEvsesConnector_compose (k : Z) (g1 g2 : ConnectorStatus -> ConnectorStatus)
    (es : JsMap EvseStatus) :
  updateEvsesConnector k g2 (updateEvsesConnector k g1 es)
    = updateEvsesConnector k (fun c => g2 (g1 c)) es.
Proof.
  induction es as [|[evseId e] rest IH]; simpl; [reflexivity|].
  destruct (mapHas k (evseConnectors e)) eqn:Hhas; simpl.
  - rewrite mapHas_mapUpdate, Hhas, mapUpdate_compose. reflexivity.
  - rewrite Hhas, IH. reflexivity.
Qed.

Lemma updateConnectorStatus_compose (k : Z) (g1 g2 : ConnectorStatus -> ConnectorStatus)
    (st : ChargingStation) :
  updateConnectorStatus k g2 (updateConnectorStatus k g1 st)
    = updateConnectorStatus k (fun c => g2 (g1 c)) st.
Proof.
  unfold updateConnectorStatus at 1. rewrite hasEvses_updateConnectorStatus.
  unfold updateConnectorStatus. destruct (hasEvses st); simpl.
  - rewrite updateEvsesConnector_compose. reflexivity.
  - rewrite mapUpdate_compose. reflexivity.
Qed.

Lemma updateConnectorStatus_sendStatusNotification (k : Z)
    (g : ConnectorStatus -> ConnectorStatus) (n : StatusNotification) (st : ChargingStation) :
  updateConnectorStatus k g (sendStatusNotification n st)
    = sendStatusNotification n (updateConnectorStatus k g st).
Proof.
  unfold updateConnectorStatus, sendStatusNotification, hasEvses. simpl.
  destruct ((length (connectors st) =? 0)%nat && (0 <? length (evses st))%nat); reflexivity.
Qed.

Lemma getReservationBy_sendAndSet (st : ChargingStation) (id : Z) (s : ConnectorStatusEnum)
    (send : bool) (f : ReservationFilter) :
  getReservationBy (sendAndSetConnectorStatus st id s send) f
    = getReservationBy (updateConnectorStatus id (setStatus (Some s)) st) f.
Proof.
  unfold sendAndSetConnectorStatus. destruct send; [|reflexivity].
  rewrite updateConnectorStatus_sendStatusNotification. reflexivity.
Qed.

(** Without a reservation of the same id, [addReservation] is the write of
    the reservation followed by [sendAndSetConnectorStatus]. *)
Lemma addReservation_fresh (st : ChargingStation) (r : Reservation) (c : ConnectorStatus) :
  getReservationBy st (ByReservationId (reservationId r)) = None ->
  getConnectorStatus st (reservationConnectorId r) = Some c ->
  addReservation st r
    = (sendAndSetConnectorStatus
         (updateConnectorStatus (reservationConnectorId r) (setReservation (Some r)) st)
         (reservationConnectorId r) Reserved (negb (reservationConnectorId r =? 0)), None).
Proof. intros Hfresh Hc. unfold addReservation. rewrite Hfresh, Hc. reflexivity. Qed.

(** X9: for a reservation whose id is not yet in use, on a connector that
    exists, [addReservation] does not throw; afterwards the connector holds
    the reservation and has the status Reserved, [getReservationBy] finds
    the reservation by its id, one StatusNotification (Reserved) has been
    sent unless the connector is connector 0, and no other connector has
    changed. *)
Theorem addReservation_then_lookup (st : ChargingStation) (r : Reservation)
    (c : ConnectorStatus) :
  getReservationBy st (ByReservationId (reservationId r)) = None ->
  getConnectorStatus st (reservationConnectorId r) = Some c ->
  let id := reservationConnectorId r in
  let st' := fst (addReservation st r) in
  snd (addReservation st r) = None /\
  getConnectorStatus st' id = Some (setStatus (Some Reserved) (setReservation (Some r) c)) /\
  getReservationBy st' (ByReservationId (reservationId r)) = Some r /\
  sentStatusNotifications st'
    = sentStatusNotifications st
        ++ (if id =? 0 then [] else [mkStatusNotification id Reserved]) /\
  (forall id', id' <> id -> getConnectorStatus st' id' = getConnectorStatus st id').
Proof.
  intros Hfresh Hc id st'. subst st' id.
  rewrite (addReservation_fresh st r c Hfresh Hc). cbn [fst snd].
  split; [reflexivity|]. split; [|split; [|split]].
  - rewrite getConnectorStatus_sendAndSet_eq, getConnectorStatus_update_eq, Hc. reflexivity.
  - rewrite getReservationBy_sendAndSet, updateConnectorStatus_compose.
    apply (getReservationBy_update_Some _ _ _ _ c r Hfresh Hc); [reflexivity|].
    simpl. apply Z.eqb_refl.
  - rewrite sentStatusNotifications_sendAndSet, sentStatusNotifications_updateConnectorStatus.
    destruct (reservationConnectorId r =? 0); reflexivity.
  - intros id' Hne.
    rewrite getConnectorStatus_sendAndSet_ne, getConnectorStatus_update_ne by assumption.
    reflexivity.
Qed.

Lemma getReservationBy_update_sendAndSet (k : Z) (g : ConnectorStatus -> ConnectorStatus)
    (st : ChargingStation) (s : ConnectorStatusEnum) (send : bool) (f : ReservationFilter) :
  getReservationBy (updateConnectorStatus k g (sendAndSetConnectorStatus st k s send)) f
    = getReservationBy
        (updateConnectorStatus k (fun c => g (setStatus (Some s) c)) st) f.
Proof.
  unfold sendAndSetConnectorStatus. rewrite updateConnectorStatus_compose.
  destruct send; [|reflexivity].
  rewrite updateConnectorStatus_sendStatusNotification. reflexivity.
Qed.

Lemma addReservation_then_lookup_witness :
  snd (addReservation reservedStation secondReservation) = None /\
  getReservationBy (fst (addReservation reservedStation secondReservation))
      (ByReservationId 8) = Some secondReservation.
Proof.
  destruct (addReservation_then_lookup reservedStation secondReservation
              (mkConnector (Some Operative) (Some Available) None None None None None)
              eq_refl eq_refl) as (Hthrown & _ & Hfound & _).
  split; [exact Hthrown | exact Hfound].
Defined.

(** X10: adding a reservation with a fresh id and removing it again with
    the reason RESERVATION_CANCELED, REPLACE_EXISTING or EXPIRED leaves the
    connector with the status Available and without reservation, whatever
    its status was before the addition, its other fields as they were;
    [getReservationBy] no longer finds the id; with the reason
    CONNECTOR_STATE_CHANGED or TRANSACTION_STARTED the connector keeps the
    status Reserved. *)
Theorem addReservation_then_removeReservation (st : ChargingStation) (r : Reservation)
    (c : ConnectorStatus) (reason : ReservationTerminationReason) :
  getReservationBy st (ByReservationId (reservationId r)) = None ->
  getConnectorStatus st (reservationConnectorId r) = Some c ->
  let id := reservationConnectorId r in
  let removed := removeReservation (fst (addReservation st r)) r reason in
  (reason = RESERVATION_CANCELED \/ reason = REPLACE_EXISTING \/ reason = EXPIRED ->
     snd removed = None /\
     getConnectorStatus (fst removed) id
       = Some (setReservation None (setStatus (Some Available) c)) /\
     getReservationBy (fst removed) (ByReservationId (reservationId r)) = None) /\
  (reason = CONNECTOR_STATE_CHANGED \/ reason = TRANSACTION_STARTED ->
     snd removed = None /\
     getConnectorStatus (fst removed) id
       = Some (setReservation None (setStatus (Some Reserved) c)) /\
     getReservationBy (fst removed) (ByReservationId (reservationId r)) = None).
Proof.
  intros Hfresh Hc id removed. subst removed id.
  rewrite (addReservation_fresh st r c Hfresh Hc). cbn [fst].
  set (id := reservationConnectorId r) in *.
  set (st1 := sendAndSetConnectorStatus
                (updateConnectorStatus id (setReservation (Some r)) st) id Reserved
                (negb (id =? 0))).
  assert (Hc1 : getConnectorStatus st1 id
                = Some (setStatus (Some Reserved) (setReservation (Some r) c))).
  { subst st1. rewrite getConnectorStatus_sendAndSet_eq, getConnectorStatus_update_eq, Hc.
    reflexivity. }
  assert (Hlookup : forall g,
            (forall c0, reservation (g c0) = None) ->
            getReservationBy (updateConnectorStatus id g st1)
              (ByReservationId (reservationId r)) = None).
  { intros g Hg. subst st1.
    rewrite getReservationBy_update_sendAndSet, updateConnectorStatus_compose.
    apply getReservationBy_update_None; [exact Hfresh|]. intros c0. apply Hg. }
  split.
  - intros Hreason.
    assert (removeReservation st1 r reason
            = (updateConnectorStatus id deleteReservation
                 (sendAndSetConnectorStatus st1 id Available (negb (id =? 0))), None)) as ->.
    { unfold removeReservation. fold id. rewrite Hc1.
      destruct Hreason as [-> | [-> | ->]]; reflexivity. }
    cbn [fst snd]. split; [reflexivity|]. split.
    + rewrite getConnectorStatus_update_eq, getConnectorStatus_sendAndSet_eq, Hc1.
      reflexivity.
    + rewrite getReservationBy_update_sendAndSet. apply Hlookup. reflexivity.
  - intros Hreason.
    assert (removeReservation st1 r reason
            = (updateConnectorStatus id deleteReservation st1, None)) as ->.
    { unfold removeReservation. fold id. rewrite Hc1.
      destruct Hreason as [-> | ->]; reflexivity. }
    cbn [fst snd]. split; [reflexivity|]. split.
    + rewrite getConnectorStatus_update_eq, Hc1. reflexivity.
    + apply Hlookup. reflexivity.
Qed.

(** Connector 2 of [reservedStation] is reserved and the reservation
    cancelled: it is Available again and the id is free. *)
Lemma addReservation_then_removeReservation_witness :
  getConnectorStatus
      (fst (removeReservation (fst (addReservation reservedStation secondReservation))
              secondReservation RESERVATION_CANCELED)) 2
    = Some (mkConnector (Some Operative) (Some Available) None None None None None) /\
  getReservationBy
      (fst (removeReservation (fst (addReservation reservedStation secondReservation))
              secondReservation RESERVATION_CANCELED)) (ByReservationId 8)
    = None.
Proof.
  destruct (proj1 (addReservation_then_removeReservation reservedStation secondReservation
                     (mkConnector (Some Operative) (Some Available) None None None None None)
                     RESERVATION_CANCELED eq_refl eq_refl) (or_introl eq_refl))
    as (_ & Hget & Hfree).
  split; [exact Hget | exact Hfree].
Defined.







End ReservationFacts.

(** ** The lifecycle after a failure *)

Section LifecycleFailureFacts.
Import Lifecycle.

Lemma step_start_failed (s s' : State) (e : Event) :
  started (flags s) = false -> starting (flags s) = true ->
  step s e = Some s' ->
  started (flags s') = false /\ starting (flags s') = true.
Proof.
  intros Hstarted Hstarting Hstep.
  destruct s as [[a b c] stops resets]. simpl in Hstarted, Hstarting. subst a b.
  destruct e as [opened| | | | |initialized opened|]; simpl in Hstep.
  - injection Hstep as <-. split; reflexivity.
  - injection Hstep as <-. split; reflexivity.
  - destruct stops; [discriminate|]. injection Hstep as <-. split; reflexivity.
  - destruct stops; [discriminate|]. injection Hstep as <-. split; reflexivity.
  - injection Hstep as <-. split; reflexivity.
  - destruct resets; [discriminate|]. injection Hstep as <-.
    destruct initialized; split; reflexivity.
  - destruct resets; [discriminate|]. injection Hstep as <-. split; reflexivity.
Qed.

(** X12: when a statement of [start] throws after [starting] is set, the
    station is never started again: whatever calls of [start], [stop] and
    [reset] follow, [started] stays false and [starting] stays true, and
    [checkChargingStation] goes on answering that the station can
    proceed. *)
Theorem start_failure_is_final (s s' : State) (es : list Event) :
  started (flags s) = false -> starting (flags s) = true ->
  run s es = Some s' ->
  started (flags s') = false /\ starting (flags s') = true /\
  checkChargingStation (flags s') = true.
Proof.
  revert s. induction es as [|e rest IH]; intros s Hstarted Hstarting Hrun; simpl in Hrun.
  - injection Hrun as <-. unfold checkChargingStation.
    rewrite Hstarted, Hstarting. repeat split; reflexivity.
  - destruct (step s e) as [s1|] eqn:Hstep; [|discriminate].
    destruct (step_start_failed s s1 e Hstarted Hstarting Hstep) as [H1 H2].
    exact (IH s1 H1 H2 Hrun).
Qed.

Lemma start_failure_is_final_witness :
  exists s',
    run (mkState (start false (flags constructor)) 0 0)
        [CallStart true; CallStop; CallReset; ResetResumed true true] = Some s' /\
    started (flags s') = false /\ starting (flags s') = true /\
    checkChargingStation (flags s') = true.
Proof.
  eexists. split; [reflexivity|].
  exact (start_failure_is_final (mkState (start false (flags constructor)) 0 0) _
           [CallStart true; CallStop; CallReset; ResetResumed true true]
           eq_refl eq_refl eq_refl).
Defined.

Lemma step_stop_rejected (s s' : State) (e : Event) :
  started (flags s) = true -> stopping (flags s) = true -> suspendedStops s = 0%nat ->
  step s e = Some s' ->
  flags s' = flags s /\ suspendedStops s' = 0%nat.
Proof.
  intros Hstarted Hstopping Hstops Hstep.
  destruct s as [[a b c] stops resets]. simpl in Hstarted, Hstopping, Hstops. subst a c stops.
  destruct e as [opened| | | | |initialized opened|]; simpl in Hstep;
    try discriminate.
  - injection Hstep as <-. split; reflexivity.
  - injection Hstep as <-. split; reflexivity.
  - injection Hstep as <-. split; reflexivity.
  - destruct resets; [discriminate|]. injection Hstep as <-.
    destruct initialized; split; reflexivity.
  - destruct resets; [discriminate|]. injection Hstep as <-. split; reflexivity.
Qed.

(** X13: when [stopMessageSequence] is rejected, the call of [stop] ends
    with [stopping] still set; with no other [stop] suspended, the station
    can never be stopped: whatever calls follow, the flags stay as they are
    and no call of [stop] or [reset] gets past the test of [stopping]. *)
Theorem stop_failure_is_final (s s' : State) (es : list Event) :
  started (flags s) = true -> stopping (flags s) = true -> suspendedStops s = 0%nat ->
  run s es = Some s' ->
  flags s' = flags s /\ suspendedStops s' = 0%nat.
Proof.
  revert s. induction es as [|e rest IH]; intros s Hstarted Hstopping Hstops Hrun;
    simpl in Hrun.
  - injection Hrun as <-. split; [reflexivity | exact Hstops].
  - destruct (step s e) as [s1|] eqn:Hstep; [|discriminate].
    destruct (step_stop_rejected s s1 e Hstarted Hstopping Hstops Hstep) as [Hflags H0].
    destruct (IH s1) as [Hflags' H0']; try assumption; try (rewrite Hflags; assumption).
    split; [congruence | exact H0'].
Qed.

(** The station is started, a [stop] is called and its
    [stopMessageSequence] is rejected: the calls that follow change
    nothing. *)
Lemma stop_failure_is_final_witness :
  run constructor [CallStart true; CallStop; StopSequenceRejected]
    = Some (mkState (mkFlags true false true) 0 0) /\
  exists s',
    run (mkState (mkFlags true false true) 0 0)
        [CallStop; CallStart true; CallReset; ResetResumed true true; CallStop] = Some s' /\
    flags s' = mkFlags true false true /\ suspendedStops s' = 0%nat.
Proof.
  split; [reflexivity|].
  eexists. split; [reflexivity|].
  exact (stop_failure_is_final (mkState (mkFlags true false true) 0 0) _
           [CallStop; CallStart true; CallReset; ResetResumed true true; CallStop]
           eq_refl eq_refl eq_refl eq_refl).
Defined.

(** X14: in every state that the lifecycle operations reach from the
    constructor at most one call of [stop] is suspended on
    [stopMessageSequence], and while one is, the station is started and
    stopping. *)
Theorem stop_suspended_at_most_once (s : State) :
  reachable s ->
  (suspendedStops s <= 1)%nat /\
  (suspendedStops s = 1%nat -> started (flags s) = true /\ stopping (flags s) = true).
Proof.
  induction 1 as [|s e s' _ [IHle IHone] Hstep].
  - simpl. split; [lia | discriminate].
  - destruct s as [[a b c] stops resets]. simpl in IHle, IHone.
    assert (Hstops : stops = 0%nat \/ (stops = 1%nat /\ a = true /\ c = true)).
    { destruct stops as [|[|n]]; [left; reflexivity | right | lia].
      destruct (IHone eq_refl) as [-> ->]. repeat split. }
    clear IHle IHone.
    destruct e as [opened| | | | |initialized opened|]; simpl in Hstep.
    + injection Hstep as <-. simpl.
      destruct Hstops as [-> | (-> & -> & ->)]; simpl; [split; [lia|discriminate]|].
      split; [lia|]. intros _. split; reflexivity.
    + destruct Hstops as [-> | (-> & -> & ->)]; simpl in Hstep.
      * destruct a, c; simpl in Hstep; injection Hstep as <-; simpl;
          (split; [lia|]); intros; try discriminate; split; reflexivity.
      * injection Hstep as <-. simpl. split; [lia|]. intros _. split; reflexivity.
    + destruct Hstops as [-> | (-> & -> & ->)]; [discriminate|].
      injection Hstep as <-. simpl. split; [lia | discriminate].
    + destruct Hstops as [-> | (-> & -> & ->)]; [discriminate|].
      injection Hstep as <-. simpl. split; [lia | discriminate].
    + destruct Hstops as [-> | (-> & -> & ->)]; simpl in Hstep.
      * destruct a, c; simpl in Hstep; injection Hstep as <-; simpl;
          (split; [lia|]); intros; try discriminate; split; reflexivity.
      * injection Hstep as <-. simpl. split; [lia|]. intros _. split; reflexivity.
    + destruct resets; [discriminate|]. injection Hstep as <-. simpl.
      destruct Hstops as [-> | (-> & -> & ->)]; simpl; [split; [lia|discriminate]|].
      split; [lia|]. intros _. destruct initialized; split; reflexivity.
    + destruct resets; [discriminate|]. injection Hstep as <-. simpl.
      destruct Hstops as [-> | (-> & -> & ->)]; simpl; [split; [lia|discriminate]|].
      split; [lia|]. intros _. split; reflexivity.
Qed.

(** A station that was started, with a [stop] and a [reset] called. *)
Lemma stop_suspended_at_most_once_witness :
  (suspendedStops (mkState (mkFlags true false true) 1 1) <= 1)%nat /\
  (suspendedStops (mkState (mkFlags true false true) 1 1) = 1%nat ->
   started (flags (mkState (mkFlags true false true) 1 1)) = true /\
   stopping (flags (mkState (mkFlags true false true) 1 1)) = true).
Proof.
  apply (stop_suspended_at_most_once (mkState (mkFlags true false true) 1 1)).
  apply (reachable_step (mkState (mkFlags true false true) 1 0) CallReset);
    [|reflexivity].
  apply (reachable_step (mkState (mkFlags true false false) 0 0) CallStop);
    [|reflexivity].
  apply (reachable_step constructor (CallStart true)); [|reflexivity].
  apply reachable_constructor.
Defined.

End LifecycleFailureFacts.

(** ** The requests of the registration *)

Section RegistrationBoundFacts.

Variable defaultInterval : Z.

Lemma countBootNotifications_app (a b : list OnOpenAction) :
  countBootNotifications (a ++ b) = countBootNotifications a + countBootNotifications b.
Proof.
  induction a as [|[] rest IH]; simpl; lia.
Qed.

Lemma countBootNotifications_onOpenEpilogue (st : ChargingStation) (count : Z)
    (done : list OnOpenAction) :
  countBootNotifications (runActions (onOpenEpilogue st count done))
    = countBootNotifications done /\
  runRetryCount (onOpenEpilogue st count done) = count.
Proof.
  unfold onOpenEpilogue. simpl. rewrite !countBootNotifications_app.
  destruct (isRegistered st); [destruct (inAcceptedState st)|]; simpl; split; lia.
Qed.

(** The turns of the loop from a retry count on. *)
Lemma registrationLoop_bounded (answers : list BootNotificationOutcome) :
  forall (st : ChargingStation) (count : Z) (done : list OnOpenAction)
         (info : ChargingStationInfo),
  stationInfo st = Some info ->
  registrationMaxRetries info <> Some (-1) ->
  let sends :=
    countBootNotifications (runActions (registrationLoop defaultInterval answers st count done))
      - countBootNotifications done in
  1 <= sends /\
  sends <= match registrationMaxRetries info with
           | Some m => Z.max 1 (m + 1 - count)
           | None => 1
           end /\
  count <= runRetryCount (registrationLoop defaultInterval answers st count done)
        <= count + sends.
Proof.
  induction answers as [|[r|] rest IH]; intros st count done info Hinfo Hbounded sends.
  - subst sends. simpl. rewrite countBootNotifications_app. simpl.
    destruct (registrationMaxRetries info); lia.
  - subst sends. cbn [registrationLoop].
    change (stationInfo (setBootNotificationResponse (Some r) st)) with (stationInfo st).
    rewrite Hinfo, isRegistered_setBootNotificationResponse.
    destruct (registers r); cbn [negb].
    + destruct (countBootNotifications_onOpenEpilogue
                  (setBootNotificationResponse (Some r) st) count
                  (done ++ [BootNotificationSent])) as [-> ->].
      rewrite countBootNotifications_app. simpl.
      destruct (registrationMaxRetries info); lia.
    + destruct (registrationMaxRetries info) as [m|] eqn:Hmax.
      * rewrite bool_decide_eq_false_2 by exact Hbounded. cbn [negb orb].
        rewrite orb_false_r.
        destruct (Z.leb_spec (count + 1) m) as [Hle|Hgt].
        -- specialize (IH (setBootNotificationResponse (Some r) st) (count + 1)
                         (done ++ [BootNotificationSent;
                                   Slept match interval r with
                                         | Some i => secondsToMilliseconds i
                                         | None => defaultInterval
                                         end]) info Hinfo).
           rewrite Hmax in IH. specialize (IH Hbounded). cbv zeta in IH.
           rewrite countBootNotifications_app in IH. simpl in IH. lia.
        -- destruct (countBootNotifications_onOpenEpilogue
                       (setBootNotificationResponse (Some r) st) (count + 1)
                       (done ++ [BootNotificationSent;
                                 Slept match interval r with
                                       | Some i => secondsToMilliseconds i
                                       | None => defaultInterval
                                       end])) as [-> ->].
           rewrite countBootNotifications_app. simpl. lia.
      * rewrite bool_decide_eq_false_2 by discriminate. cbn [negb orb].
        destruct (countBootNotifications_onOpenEpilogue
                    (setBootNotificationResponse (Some r) st) (count + 1)
                    (done ++ [BootNotificationSent;
                              Slept match interval r with
                                    | Some i => secondsToMilliseconds i
                                    | None => defaultInterval
                                    end])) as [-> ->].
        rewrite countBootNotifications_app. simpl. lia.
  - subst sends. simpl. rewrite countBootNotifications_app. simpl.
    destruct (registrationMaxRetries info); lia.
Qed.

(** X15: whatever the answers to the requests, a run of [onOpen] on a
    station whose [registrationMaxRetries] is not -1 sends at most
    max (1, registrationMaxRetries + 1) BootNotification requests, one
    only when [registrationMaxRetries] is not defined; it sends at least
    one when the connection is opened and the station is not registered,
    and none otherwise; the retry count never exceeds the number of
    requests sent. *)
Theorem onOpen_boot_notifications_bounded (opened : bool)
    (answers : list BootNotificationOutcome) (st : ChargingStation)
    (info : ChargingStationInfo) :
  stationInfo st = Some info ->
  registrationMaxRetries info <> Some (-1) ->
  let sends := countBootNotifications (runActions (onOpen defaultInterval opened answers st)) in
  (if opened && negb (isRegistered st) then 1 <= sends else sends = 0) /\
  sends <= match registrationMaxRetries info with
           | Some m => Z.max 1 (m + 1)
           | None => 1
           end /\
  0 <= runRetryCount (onOpen defaultInterval opened answers st) <= sends.
Proof.
  intros Hinfo Hbounded sends. subst sends. unfold onOpen.
  destruct opened; cbn [andb].
  - destruct (isRegistered st); cbn [negb].
    + destruct (countBootNotifications_onOpenEpilogue st 0 []) as [-> ->]. simpl.
      destruct (registrationMaxRetries info); lia.
    + pose proof (registrationLoop_bounded answers st 0 [] info Hinfo Hbounded) as H.
      cbv zeta in H. change (countBootNotifications []) with 0 in H.
      destruct (registrationMaxRetries info); lia.
  - simpl. destruct (registrationMaxRetries info); lia.
Qed.

End RegistrationBoundFacts.

(** Five Rejected responses for a station with registrationMaxRetries 2:
    three requests are sent. *)
Lemma onOpen_boot_notifications_bounded_witness :
  countBootNotifications
    (runActions (onOpen 60000 true
                   (repeat (Responded (mkBootResponse (Some REJECTED) (Some 5))) 5)
                   (unregisteredStation 2))) = 3 /\
  3 <= Z.max 1 (2 + 1).
Proof.
  split; [reflexivity|].
  exact (proj1 (proj2 (onOpen_boot_notifications_bounded 60000 true
                         (repeat (Responded (mkBootResponse (Some REJECTED) (Some 5))) 5)
                         (unregisteredStation 2)
                         (mkStationInfo (Some AC) (Some (230 # 1)) (Some 3) (Some (22080 # 1))
                            (Some 2))
                         eq_refl ltac:(discriminate)))).
Defined.

(** ** The counters of the request statistics *)

Section StatisticsCounterFacts.
Import PerformanceStatistics.

Lemma countMessageType_nonneg (t : MessageType) (calls : list (MessageType * option Z)) :
  0 <= countMessageType t calls.
Proof.
  induction calls as [|[t' size] rest IH]; simpl; [lia|].
  destruct (isMessageType t t'); lia.
Qed.

Lemma countedFrom_add (counter : option Z) (a b : Z) :
  0 <= a -> 0 <= b ->
  countedFrom (countedFrom counter a) b = countedFrom counter (a + b).
Proof.
  intros Ha Hb. unfold countedFrom.
  destruct (Z.eqb_spec a 0) as [->|Hane].
  - reflexivity.
  - destruct (Z.eqb_spec b 0) as [->|Hbne].
    + rewrite Z.add_0_r. destruct (Z.eqb_spec a 0); [contradiction|reflexivity].
    + destruct (Z.eqb_spec (a + b) 0); [lia|]. simpl. f_equal. lia.
Qed.

(** One call, on the entry of its command. *)
Lemma addRequestStatistic_counters (m : gmap string StatisticsData) (command : string)
    (t : MessageType) (size : option Z) :
  let before := spreadEntry m command in
  let after := spreadEntry (addRequestStatistic m command t size) command in
  requestCount after
    = countedFrom (requestCount before) (if isMessageType CALL_MESSAGE t then 1 else 0) /\
  responseCount after
    = countedFrom (responseCount before)
        (if isMessageType CALL_RESULT_MESSAGE t then 1 else 0) /\
  errorCount after
    = countedFrom (errorCount before) (if isMessageType CALL_ERROR_MESSAGE t then 1 else 0) /\
  timeMeasurementCount after = timeMeasurementCount before /\
  currentTimeMeasurement after = currentTimeMeasurement before /\
  minTimeMeasurement after = minTimeMeasurement before /\
  maxTimeMeasurement after = maxTimeMeasurement before /\
  totalTimeMeasurement after = totalTimeMeasurement before /\
  measurementTimeSeries after = measurementTimeSeries before.
Proof.
  unfold addRequestStatistic, countedFrom.
  destruct t as [| | |code]; simpl isMessageType; cbv iota; unfold spreadEntry;
    destruct (m !! command) as [[[rq|] [rs|] [er|] sz tc cur mn mx tot series]|] eqn:Hentry;
    try destruct size as [s|];
    rewrite ?lookup_insert_eq, ?Hentry; simpl; repeat split; reflexivity.
Qed.

(** X16: after any calls of [addRequestStatistic] for a command, the
    request, response and error counts of the command have gone up by the
    numbers of CALL_MESSAGE, CALL_RESULT_MESSAGE and CALL_ERROR_MESSAGE
    calls, a count that was missing staying so until the first call of its
    type; calls with another message type count nowhere, and the time
    measurements of the command are as before. *)
Theorem addRequestStatistics_counters (calls : list (MessageType * option Z)) :
  forall (m : gmap string StatisticsData) (command : string),
  let before := spreadEntry m command in
  let after := spreadEntry (addRequestStatistics m command calls) command in
  requestCount after
    = countedFrom (requestCount before) (countMessageType CALL_MESSAGE calls) /\
  responseCount after
    = countedFrom (responseCount before) (countMessageType CALL_RESULT_MESSAGE calls) /\
  errorCount after
    = countedFrom (errorCount before) (countMessageType CALL_ERROR_MESSAGE calls) /\
  timeMeasurementCount after = timeMeasurementCount before /\
  currentTimeMeasurement after = currentTimeMeasurement before /\
  minTimeMeasurement after = minTimeMeasurement before /\
  maxTimeMeasurement after = maxTimeMeasurement before /\
  totalTimeMeasurement after = totalTimeMeasurement before /\
  measurementTimeSeries after = measurementTimeSeries before.
Proof.
  induction calls as [|[t size] rest IH]; intros m command before after.
  - subst before after. simpl. unfold countedFrom. simpl. repeat split.
  - subst before after.
    change (addRequestStatistics m command ((t, size) :: rest))
      with (addRequestStatistics (addRequestStatistic m command t size) command rest).
    destruct (IH (addRequestStatistic m command t size) command)
      as (Hrq & Hrs & Her & Htc & Hcur & Hmn & Hmx & Htot & Hseries).
    destruct (addRequestStatistic_counters m command t size)
      as (Hrq1 & Hrs1 & Her1 & Htc1 & Hcur1 & Hmn1 & Hmx1 & Htot1 & Hseries1).
    rewrite Hrq, Hrs, Her, Htc, Hcur, Hmn, Hmx, Htot, Hseries.
    rewrite Hrq1, Hrs1, Her1, Htc1, Hcur1, Hmn1, Hmx1, Htot1, Hseries1.
    cbn [countMessageType].
    pose proof (countMessageType_nonneg CALL_MESSAGE rest).
    pose proof (countMessageType_nonneg CALL_RESULT_MESSAGE rest).
    pose proof (countMessageType_nonneg CALL_ERROR_MESSAGE rest).
    repeat split;
      match goal with
      | |- countedFrom (countedFrom _ (if ?b then _ else _)) _ = _ =>
          destruct b; rewrite countedFrom_add by lia; reflexivity
      end.
Qed.

End StatisticsCounterFacts.

(** ** Timers *)

Section TimerFacts.

Lemma clearInterval_only (t : Timer) (ts : Timers) :
  activeTimers ts = [t] -> activeTimers (clearInterval t ts) = [].
Proof.
  intros Hactive. unfold clearInterval. simpl. rewrite Hactive. simpl.
  rewrite Nat.eqb_refl. reflexivity.
Qed.

End TimerFacts.

Section StatisticsInstanceFacts.
Import StatisticsInstance.

Lemma observing_start (log : LogConfiguration) (p : Instance) :
  observing (start log p) = observing p.
Proof.
  unfold start, startLogStatisticsInterval.
  destruct (if bool_decide (enabled log = Some true) then statisticsInterval log else Some 0)
    as [i|]; [|reflexivity].
  destruct (displayInterval p); [reflexivity|].
  destruct (0 <? i); reflexivity.
Qed.

Lemma observing_calls (cs : list Call) :
  forall p, observing p = false -> observing (calls p cs) = false.
Proof.
  induction cs as [|c rest IH]; intros p Hp; [exact Hp|].
  apply IH. destruct c as [log| |log]; simpl.
  - rewrite observing_start. exact Hp.
  - reflexivity.
  - unfold restart. rewrite observing_start. reflexivity.
Qed.

(** X17: [stop] disconnects the performance observer and nothing sets it
    to observe again: after a [stop] or a [restart], whatever calls of
    [start], [stop] and [restart] follow, the observer does not observe the
    measures. *)
Theorem performanceObserver_disconnected_for_good (cs : list Call) (p : Instance)
    (log : LogConfiguration) :
  observing (calls (stop p) cs) = false /\
  observing (calls (restart log p) cs) = false.
Proof.
  split; apply observing_calls; [reflexivity|].
  unfold restart. rewrite observing_start. reflexivity.
Qed.

Lemma timers_startLogStatisticsInterval (log : LogConfiguration) (p : Instance) :
  activeTimers (timers p) = timersOf (displayInterval p) ->
  activeTimers (timers (startLogStatisticsInterval log p))
    = timersOf (displayInterval (startLogStatisticsInterval log p)).
Proof.
  intros Hp. unfold startLogStatisticsInterval.
  destruct (if bool_decide (enabled log = Some true) then statisticsInterval log else Some 0)
    as [i|]; [|exact Hp].
  destruct (displayInterval p) eqn:Hfield; [rewrite Hfield; exact Hp|].
  destruct (0 <? i); [|rewrite Hfield; exact Hp].
  simpl. rewrite Hp. reflexivity.
Qed.

Lemma timers_stopLogStatisticsInterval (p : Instance) :
  activeTimers (timers p) = timersOf (displayInterval p) ->
  displayInterval (stopLogStatisticsInterval p) = None /\
  activeTimers (timers (stopLogStatisticsInterval p)) = [].
Proof.
  intros Hp. unfold stopLogStatisticsInterval.
  destruct (displayInterval p) as [t|] eqn:Hfield; simpl.
  - split; [reflexivity|]. apply clearInterval_only. exact Hp.
  - rewrite Hfield. split; [reflexivity | exact Hp].
Qed.

Lemma timers_call (p : Instance) (c : Call) :
  activeTimers (timers p) = timersOf (displayInterval p) ->
  activeTimers (timers (call p c)) = timersOf (displayInterval (call p c)).
Proof.
  intros Hp. destruct c as [log| |log]; simpl.
  - apply timers_startLogStatisticsInterval. exact Hp.
  - unfold stop. simpl. destruct (timers_stopLogStatisticsInterval p Hp) as [-> ->].
    reflexivity.
  - unfold restart, start. apply timers_startLogStatisticsInterval.
    unfold stop. simpl. destruct (timers_stopLogStatisticsInterval p Hp) as [-> ->].
    reflexivity.
Qed.

(** X18: whatever calls of [start], [stop] and [restart] an instance of
    [PerformanceStatistics] has had since its construction, the timers that
    it has set and not cleared are the one of [displayInterval], if any: at
    most one timer logs the statistics, and after a [stop] none does. *)
Theorem displayInterval_is_the_only_timer (cs : list Call) :
  let p := calls constructor cs in
  activeTimers (timers p) = timersOf (displayInterval p) /\
  activeTimers (timers (stop p)) = [].
Proof.
  cbv zeta.
  assert (Hinv : forall p, activeTimers (timers p) = timersOf (displayInterval p) ->
                   activeTimers (timers (calls p cs)) = timersOf (displayInterval (calls p cs))).
  { induction cs as [|c rest IH]; intros p Hp; [exact Hp|].
    apply IH. apply timers_call. exact Hp. }
  specialize (Hinv constructor eq_refl).
  split; [exact Hinv|].
  unfold stop. simpl. apply (timers_stopLogStatisticsInterval _ Hinv).
Qed.

End StatisticsInstanceFacts.

Section HeartbeatFacts.
Import Heartbeat.

Lemma timers_startHeartbeat (i : Z) (h : State) :
  activeTimers (timers h) = timersOf (heartbeatSetInterval h) ->
  activeTimers (timers (startHeartbeat i h)) = timersOf (heartbeatSetInterval (startHeartbeat i h)).
Proof.
  intros Hh. unfold startHeartbeat.
  destruct (heartbeatSetInterval h) eqn:Hfield.
  - rewrite Hfield. exact Hh.
  - destruct (0 <? i); [|rewrite Hfield; exact Hh].
    simpl. rewrite Hh. reflexivity.
Qed.

Lemma timers_stopHeartbeat (h : State) :
  activeTimers (timers h) = timersOf (heartbeatSetInterval h) ->
  heartbeatSetInterval (stopHeartbeat h) = None /\
  activeTimers (timers (stopHeartbeat h)) = [].
Proof.
  intros Hh. unfold stopHeartbeat.
  destruct (heartbeatSetInterval h) as [t|] eqn:Hfield; simpl.
  - split; [reflexivity|]. apply clearInterval_only. exact Hh.
  - rewrite Hfield. split; [reflexivity | exact Hh].
Qed.

Lemma timers_heartbeat_calls (cs : list Call) :
  forall h, activeTimers (timers h) = timersOf (heartbeatSetInterval h) ->
  activeTimers (timers (calls h cs)) = timersOf (heartbeatSetInterval (calls h cs)).
Proof.
  induction cs as [|c rest IH]; intros h Hh; [exact Hh|].
  apply IH. destruct c as [i| |i]; simpl.
  - apply timers_startHeartbeat. exact Hh.
  - destruct (timers_stopHeartbeat h Hh) as [-> ->]. reflexivity.
  - unfold restartHeartbeat. apply timers_startHeartbeat.
    destruct (timers_stopHeartbeat h Hh) as [-> ->]. reflexivity.
Qed.

(** X19: whatever calls of [startHeartbeat], [stopHeartbeat] and
    [restartHeartbeat] a station has had since its construction, the timers
    set and not cleared are the one of [heartbeatSetInterval], if any: there
    is never more than one heartbeat. A [restartHeartbeat] then leaves one
    heartbeat with the interval of the call when that is positive and none
    otherwise, while a [startHeartbeat] on a running heartbeat changes
    nothing, whatever the interval has become. *)
Theorem heartbeat_is_the_only_timer (cs : list Call) (i : Z) :
  let h := calls constructor cs in
  activeTimers (timers h) = timersOf (heartbeatSetInterval h) /\
  map timerPeriod (activeTimers (timers (restartHeartbeat i h)))
    = (if 0 <? i then [i] else []) /\
  (heartbeatSetInterval h <> None -> startHeartbeat i h = h).
Proof.
  cbv zeta.
  pose proof (timers_heartbeat_calls cs constructor eq_refl) as Hinv.
  split; [exact Hinv|]. split.
  - unfold restartHeartbeat.
    destruct (timers_stopHeartbeat _ Hinv) as [Hfield Hnone].
    unfold startHeartbeat. rewrite Hfield.
    destruct (0 <? i); [|rewrite Hnone; reflexivity].
    simpl. rewrite Hnone. reflexivity.
  - intros Hrunning. unfold startHeartbeat.
    destruct (heartbeatSetInterval (calls constructor cs)); [reflexivity|contradiction].
Qed.

End HeartbeatFacts.

(** ** The message buffer *)

Section MessageBufferFacts.
Import MessageBuffer.

Variable flushInterval : Z.
Variable isRequest : string -> option bool.



Lemma setAdd_NoDup (message : string) (s : list string) :
  NoDup s -> NoDup (setAdd message s).
Proof.
  intros Hs. unfold setAdd. destruct (bool_decide (message ∈ s)) eqn:Hin; [exact Hs|].
  apply bool_decide_eq_false in Hin.
  apply NoDup_app. split; [exact Hs|]. split.
  - intros x Hx Hx'. apply list_elem_of_singleton in Hx'. subst x. contradiction.
  - apply NoDup_singleton.
Qed.

Lemma setAdd_not_empty (message : string) (s : list string) : setAdd message s <> [].
Proof.
  unfold setAdd. destruct (bool_decide (message ∈ s)) eqn:Hin.
  - apply bool_decide_eq_true in Hin. intros ->. inversion Hin.
  - destruct s; discriminate.
Qed.

Lemma setDelete_elem_of (message m : string) (s : list string) :
  m ∈ setDelete message s <-> m ∈ s /\ m <> message.
Proof.
  unfold setDelete. induction s as [|x rest IH]; simpl.
  - split; [intros H; inversion H | intros [H _]; inversion H].
  - destruct (String.eqb_spec x message) as [->|Hne]; simpl.
    + rewrite IH, elem_of_cons. split; [intros [H1 H2]; auto|].
      intros [[->|H1] H2]; [contradiction | auto].
    + rewrite !elem_of_cons, IH. split.
      * intros [->|[H1 H2]]; auto.
      * intros [[->|H1] H2]; auto.
Qed.

Lemma setDelete_NoDup (message : string) (s : list string) :
  NoDup s -> NoDup (setDelete message s).
Proof.
  induction 1 as [|x rest Hx _ IH]; simpl; [constructor|].
  destruct (String.eqb_spec x message) as [->|Hne]; simpl; [exact IH|].
  constructor; [|exact IH].
  intros Hin. apply setDelete_elem_of in Hin as [Hin _]. contradiction.
Qed.

Lemma bufferInvariant_step (b : State) (e : Event) :
  bufferInvariant b -> bufferInvariant (step flushInterval isRequest b e).
Proof.
  intros (Htimers & Hset & Hnodup). destruct e as [message|opened inAccepted|message error];
    simpl.
  - unfold bufferMessage, setIntervalFlushMessageBuffer. simpl.
    destruct (flushMessageBufferSetInterval b) as [t|] eqn:Hfield;
      unfold bufferInvariant; simpl; rewrite ?Hfield.
    + split; [exact Htimers|]. split; [discriminate | apply setAdd_NoDup; exact Hnodup].
    + split; [rewrite Htimers; reflexivity|].
      split; [discriminate | apply setAdd_NoDup; exact Hnodup].
  - unfold flushTick.
    destruct (if opened && inAccepted then flushMessageBuffer isRequest true b else ([], false))
      as [sent thrown].
    destruct thrown; [repeat split; assumption|].
    destruct (messageBuffer b) as [|m rest] eqn:Hbuffer; simpl.
    + unfold clearIntervalFlushMessageBuffer.
      destruct (flushMessageBufferSetInterval b) as [t|] eqn:Hfield;
        unfold bufferInvariant; simpl; rewrite ?Hfield, ?Hbuffer.
      * split; [apply clearInterval_only; exact Htimers|].
        split; [intros H; contradiction | constructor].
      * split; [exact Htimers|]. split; [intros H; contradiction | constructor].
    + unfold bufferInvariant. rewrite Hbuffer.
      split; [exact Htimers|]. split; [exact Hset | exact Hnodup].
  - unfold sendCallback. destruct error; [repeat split; assumption|].
    unfold bufferInvariant. simpl.
    split; [exact Htimers|]. split; [|apply setDelete_NoDup; exact Hnodup].
    intros Hne. apply Hset. intros Hempty. apply Hne. rewrite Hempty. reflexivity.
Qed.

(** X21: whatever messages are buffered, whatever runs of the flush timer
    and callbacks of sends take place since the construction, the flush
    timer of [flushMessageBufferSetInterval] is the only timer set and not
    cleared, it is set whenever the buffer holds a message, and the buffer
    holds no message twice. *)
Theorem messageBuffer_timer_invariant (es : list Event) :
  let b := run flushInterval isRequest constructor es in
  activeTimers (timers b) = timersOf (flushMessageBufferSetInterval b) /\
  (messageBuffer b <> [] -> flushMessageBufferSetInterval b <> None) /\
  NoDup (messageBuffer b).
Proof.
  cbv zeta.
  assert (Hinv : forall b, bufferInvariant b -> bufferInvariant (run flushInterval isRequest b es)).
  { induction es as [|e rest IH]; intros b Hb; [exact Hb|].
    apply IH. apply bufferInvariant_step. exact Hb. }
  apply Hinv. split; [reflexivity|]. split; [intros H; contradiction | constructor].
Qed.

Lemma setAdd_elem_of (message m : string) (s : list string) :
  m ∈ s -> m ∈ setAdd message s.
Proof.
  intros Hm. unfold setAdd. destruct (bool_decide (message ∈ s)); [exact Hm|].
  apply elem_of_app. left. exact Hm.
Qed.

Lemma messageBuffer_step_kept (b : State) (e : Event) (m : string) :
  m ∈ messageBuffer b -> e <> SendCallback m false ->
  m ∈ messageBuffer (step flushInterval isRequest b e).
Proof.
  intros Hm He. destruct e as [message|opened inAccepted|message error]; simpl.
  - unfold bufferMessage, setIntervalFlushMessageBuffer. simpl.
    destruct (flushMessageBufferSetInterval b); simpl; apply setAdd_elem_of; exact Hm.
  - unfold flushTick.
    destruct (if opened && inAccepted then flushMessageBuffer isRequest true b else ([], false))
      as [sent thrown].
    destruct thrown; [exact Hm|].
    destruct (length (messageBuffer b) =? 0)%nat; [|exact Hm].
    unfold clearIntervalFlushMessageBuffer.
    destruct (flushMessageBufferSetInterval b); exact Hm.
  - unfold sendCallback. destruct error; [exact Hm|]. simpl.
    apply setDelete_elem_of. split; [exact Hm|]. intros ->. apply He. reflexivity.
Qed.

(** X22: a buffered message stays in the buffer until the callback of one
    of its sends runs without error, whatever else is buffered and however
    often the flush timer runs; that callback removes it. *)
Theorem messageBuffer_keeps_unsent_messages (es : list Event) (b : State) (m : string) :
  m ∈ messageBuffer b ->
  Forall (fun e => e <> SendCallback m false) es ->
  m ∈ messageBuffer (run flushInterval isRequest b es) /\
  m ∉ messageBuffer
        (sendCallback m false (run flushInterval isRequest b es)).
Proof.
  intros Hm Hes. split.
  - revert b Hm. induction Hes as [|e rest He _ IH]; intros b Hm; [exact Hm|].
    simpl. apply IH. apply messageBuffer_step_kept; assumption.
  - simpl. intros Hin. apply setDelete_elem_of in Hin as [_ Hne]. apply Hne. reflexivity.
Qed.

End MessageBufferFacts.


(** A message is buffered, the timer runs twice and the send of the first
    run fails: the message is still buffered. *)
Lemma messageBuffer_keeps_unsent_messages_witness :
  "[2,1,Heartbeat]"
    ∈ MessageBuffer.messageBuffer
        (MessageBuffer.run 1000 (fun _ => Some true)
           (MessageBuffer.bufferMessage 1000 "[2,1,Heartbeat]" MessageBuffer.constructor)
           [MessageBuffer.TimerTick true true;
            MessageBuffer.SendCallback "[2,1,Heartbeat]" true;
            MessageBuffer.TimerTick true false]).
Proof.
  refine (proj1 (messageBuffer_keeps_unsent_messages 1000 (fun _ => Some true)
                   [MessageBuffer.TimerTick true true;
                    MessageBuffer.SendCallback "[2,1,Heartbeat]" true;
                    MessageBuffer.TimerTick true false]
                   (MessageBuffer.bufferMessage 1000 "[2,1,Heartbeat]"
                      MessageBuffer.constructor)
                   "[2,1,Heartbeat]" _ _)).
  - left.
  - repeat constructor; discriminate.
Defined.

(** ** Reserving after a reservation *)

Section ReservableFacts.

Lemma getReservationBy_addReservation (st : ChargingStation) (r : Reservation)
    (c : ConnectorStatus) :
  getReservationBy st (ByReservationId (reservationId r)) = None ->
  getConnectorStatus st (reservationConnectorId r) = Some c ->
  getReservationBy (fst (addReservation st r)) (ByReservationId (reservationId r)) = Some r.
Proof.
  intros Hfresh Hc. rewrite (addReservation_fresh st r c Hfresh Hc). cbn [fst].
  rewrite getReservationBy_sendAndSet, updateConnectorStatus_compose.
  apply (getReservationBy_update_Some _ _ _ _ c r Hfresh Hc); [reflexivity|].
  simpl. apply Z.eqb_refl.
Qed.

(** X23: once [addReservation] has attached a reservation with a fresh id
    to an existing connector, [isConnectorReservable] answers false for
    that reservation id until the reservation expires, however it is
    called; called with the id alone it answers true as soon as the
    reservation has expired, although the reservation is still held by the
    connector. *)
Theorem addReservation_then_isConnectorReservable (st : ChargingStation) (r : Reservation)
    (c : ConnectorStatus) (now : Z) :
  getReservationBy st (ByReservationId (reservationId r)) = None ->
  getConnectorStatus st (reservationConnectorId r) = Some c ->
  let st' := fst (addReservation st r) in
  (Helpers.hasReservationExpired now r = false ->
   forall argumentsLength idTag connectorId,
     isConnectorReservable st' now argumentsLength (reservationId r) idTag connectorId
       = false) /\
  (forall idTag connectorId,
     isConnectorReservable st' now 1 (reservationId r) idTag connectorId
       = Helpers.hasReservationExpired now r) /\
  (exists c', getConnectorStatus st' (reservationConnectorId r) = Some c' /\
              reservation c' = Some r).
Proof.
  intros Hfresh Hc st'. subst st'.
  pose proof (getReservationBy_addReservation st r c Hfresh Hc) as Hfound.
  split; [|split].
  - intros Hvalid argumentsLength idTag connectorId.
    unfold isConnectorReservable. rewrite Hfound, Hvalid. simpl.
    destruct (argumentsLength =? 1)%nat; [reflexivity|].
    destruct (1 <? argumentsLength)%nat; reflexivity.
  - intros idTag connectorId. unfold isConnectorReservable. rewrite Hfound. simpl.
    apply negb_involutive.
  - rewrite (addReservation_fresh st r c Hfresh Hc). cbn [fst].
    rewrite getConnectorStatus_sendAndSet_eq, getConnectorStatus_update_eq, Hc.
    eexists. split; reflexivity.
Qed.

(** At 1000 the reservation added to connector 2, which expires at 5000,
    bars its id. *)
Lemma addReservation_then_isConnectorReservable_witness :
  isConnectorReservable (fst (addReservation reservedStation secondReservation)) 1000 3 8
    (Some "TAG-3") (Some 2) = false.
Proof.
  exact (proj1 (addReservation_then_isConnectorReservable reservedStation secondReservation
                  (mkConnector (Some Operative) (Some Available) None None None None None)
                  1000 eq_refl eq_refl) eq_refl 3%nat (Some "TAG-3") (Some 2)).
Defined.

Lemma connectors_addReservation (st : ChargingStation) (r : Reservation)
    (c : ConnectorStatus) :
  hasEvses st = false ->
  getReservationBy st (ByReservationId (reservationId r)) = None ->
  getConnectorStatus st (reservationConnectorId r) = Some c ->
  connectors (fst (addReservation st r))
    = mapUpdate (reservationConnectorId r)
        (fun c => setStatus (Some Reserved) (setReservation (Some r) c)) (connectors st) /\
  evses (fst (addReservation st r)) = evses st.
Proof.
  intros Hmode Hfresh Hc. rewrite (addReservation_fresh st r c Hfresh Hc). cbn [fst].
  unfold sendAndSetConnectorStatus.
  destruct (negb (reservationConnectorId r =? 0)).
  - rewrite updateConnectorStatus_sendStatusNotification, updateConnectorStatus_compose.
    unfold updateConnectorStatus. rewrite Hmode. simpl. split; reflexivity.
  - rewrite updateConnectorStatus_compose.
    unfold updateConnectorStatus. rewrite Hmode. simpl. split; reflexivity.
Qed.

Lemma getNumberOfReservableConnectors_mapUpdate (k : Z)
    (f : ConnectorStatus -> ConnectorStatus) (c : ConnectorStatus)
    (cs : JsMap ConnectorStatus) :
  (forall c', status (f c') = Some Reserved) ->
  mapGet k cs = Some c ->
  Helpers.getNumberOfReservableConnectors (mapUpdate k f cs)
    = Helpers.getNumberOfReservableConnectors cs
      - (if k =? 0 then 0
         else if bool_decide (status c = Some Available) then 1 else 0).
Proof.
  intros Hf. induction cs as [|[k' c'] rest IH]; simpl; [discriminate|].
  destruct (Z.eqb_spec k' k) as [->|Hne].
  - intros Hc. injection Hc as ->. simpl.
    destruct (k =? 0); [lia|].
    rewrite (bool_decide_eq_false_2 (status (f c) = Some Available))
      by (rewrite Hf; discriminate).
    destruct (bool_decide (status c = Some Available)); lia.
  - intros Hc. simpl. rewrite (IH Hc).
    destruct (k' =? 0); [reflexivity|].
    destruct (bool_decide (status c' = Some Available)); lia.
Qed.

(** X24: on a station without EVSEs, [addReservation] of a reservation with
    a fresh id lowers the number of reservable connectors by one when it
    takes a connector other than connector 0 that was Available, or
    connector 0 when this held no reservation, and leaves the number as it
    was otherwise. *)
Theorem addReservation_reservable_connectors (st : ChargingStation) (r : Reservation)
    (c : ConnectorStatus) :
  hasEvses st = false ->
  getReservationBy st (ByReservationId (reservationId r)) = None ->
  getConnectorStatus st (reservationConnectorId r) = Some c ->
  getNumberOfReservableConnectors (fst (addReservation st r))
    = getNumberOfReservableConnectors st
      - (if reservationConnectorId r =? 0
         then match reservation c with Some _ => 0 | None => 1 end
         else if bool_decide (status c = Some Available) then 1 else 0).
Proof.
  intros Hmode Hfresh Hc.
  destruct (connectors_addReservation st r c Hmode Hfresh Hc) as [Hconnectors Hevses].
  assert (Hget : mapGet (reservationConnectorId r) (connectors st) = Some c).
  { unfold getConnectorStatus in Hc. rewrite Hmode in Hc. exact Hc. }
  assert (Hmode' : hasEvses (fst (addReservation st r)) = false).
  { unfold hasEvses in *. rewrite Hconnectors, Hevses, length_mapUpdate. exact Hmode. }
  unfold getNumberOfReservableConnectors, getNumberOfReservationsOnConnectorZero.
  rewrite Hmode, Hmode'. cbn [andb orb negb]. rewrite Hconnectors.
  rewrite (getNumberOfReservableConnectors_mapUpdate (reservationConnectorId r)
             (fun c => setStatus (Some Reserved) (setReservation (Some r) c)) c
             (connectors st) (fun _ => eq_refl) Hget).
  destruct (Z.eqb_spec (reservationConnectorId r) 0) as [Hzero|Hne].
  - rewrite Hzero in *. rewrite mapGet_mapUpdate_eq, Hget. simpl.
    destruct (reservation c); lia.
  - rewrite mapGet_mapUpdate_ne by congruence.
    destruct (bool_decide (status c = Some Available)); lia.
Qed.

(** Connector 2 of [reservedStation] is the only Available one: after the
    reservation none is left. *)
Lemma addReservation_reservable_connectors_witness :
  getNumberOfReservableConnectors reservedStation = 1 /\
  getNumberOfReservableConnectors (fst (addReservation reservedStation secondReservation)) = 0.
Proof.
  split; [reflexivity|].
  exact (addReservation_reservable_connectors reservedStation secondReservation
           (mkConnector (Some Operative) (Some Available) None None None None None)
           eq_refl eq_refl eq_refl).
Defined.

(** X28: when the id of the reservation is in use, [addReservation] first
    removes the reservation found, which is held by the connector that it
    names: that connector becomes Available and loses its reservation, then
    the connector of the new reservation holds it with the status Reserved;
    a StatusNotification (Available) for the former and one (Reserved) for
    the latter are sent in this order, each unless its connector is
    connector 0, and no other connector changes. *)
Theorem addReservation_replaces (st : ChargingStation) (r r0 : Reservation)
    (c c0 : ConnectorStatus) :
  getReservationBy st (ByReservationId (reservationId r)) = Some r0 ->
  getConnectorStatus st (reservationConnectorId r0) = Some c0 ->
  getConnectorStatus st (reservationConnectorId r) = Some c ->
  let k := reservationConnectorId r in
  let k0 := reservationConnectorId r0 in
  let st' := fst (addReservation st r) in
  snd (addReservation st r) = None /\
  getConnectorStatus st' k = Some (setStatus (Some Reserved) (setReservation (Some r) c)) /\
  (k0 <> k ->
   getConnectorStatus st' k0 = Some (deleteReservation (setStatus (Some Available) c0))) /\
  sentStatusNotifications st'
    = sentStatusNotifications st
        ++ (if k0 =? 0 then [] else [mkStatusNotification k0 Available])
        ++ (if k =? 0 then [] else [mkStatusNotification k Reserved]) /\
  (forall id, id <> k -> id <> k0 -> getConnectorStatus st' id = getConnectorStatus st id).
Proof.
  intros Hfound Hc0 Hc k k0 st'. subst k k0 st'.
  set (k := reservationConnectorId r) in *. set (k0 := reservationConnectorId r0) in *.
  set (st1 := updateConnectorStatus k0 deleteReservation
                (sendAndSetConnectorStatus st k0 Available (negb (k0 =? 0)))).
  assert (Hremoved : removeReservation st r0 REPLACE_EXISTING = (st1, None)).
  { unfold removeReservation. fold k0. rewrite Hc0. reflexivity. }
  assert (Hk : exists c1, getConnectorStatus st1 k = Some c1 /\
                 setStatus (Some Reserved) (setReservation (Some r) c1)
                   = setStatus (Some Reserved) (setReservation (Some r) c)).
  { subst st1. destruct (Z.eq_dec k k0) as [Heq|Hne].
    - rewrite Heq in *. rewrite getConnectorStatus_update_eq, getConnectorStatus_sendAndSet_eq.
      rewrite Hc0 in *. injection Hc as <-. eexists. split; reflexivity.
    - rewrite getConnectorStatus_update_ne, getConnectorStatus_sendAndSet_ne by assumption.
      exists c. split; [exact Hc | reflexivity]. }
  destruct Hk as (c1 & Hc1 & Hsame).
  assert (Hadd : addReservation st r
                 = (sendAndSetConnectorStatus
                      (updateConnectorStatus k (setReservation (Some r)) st1)
                      k Reserved (negb (k =? 0)), None)).
  { unfold addReservation. rewrite Hfound, Hremoved. fold k. rewrite Hc1. reflexivity. }
  rewrite Hadd. cbn [fst snd]. split; [reflexivity|]. split; [|split; [|split]].
  - rewrite getConnectorStatus_sendAndSet_eq, getConnectorStatus_update_eq, Hc1.
    simpl. f_equal. exact Hsame.
  - intros Hne.
    rewrite getConnectorStatus_sendAndSet_ne, getConnectorStatus_update_ne by assumption.
    subst st1. rewrite getConnectorStatus_update_eq, getConnectorStatus_sendAndSet_eq, Hc0.
    reflexivity.
  - rewrite sentStatusNotifications_sendAndSet, sentStatusNotifications_updateConnectorStatus.
    subst st1.
    rewrite sentStatusNotifications_updateConnectorStatus, sentStatusNotifications_sendAndSet.
    rewrite <- app_assoc. destruct (k0 =? 0), (k =? 0); reflexivity.
  - intros id Hk Hk0.
    rewrite getConnectorStatus_sendAndSet_ne, getConnectorStatus_update_ne by assumption.
    subst st1.
    rewrite getConnectorStatus_update_ne, getConnectorStatus_sendAndSet_ne by assumption.
    reflexivity.
Qed.

(** The reservation 7 of connector 1 of [reservedStation] is taken over by
    connector 2. *)
Lemma addReservation_replaces_witness :
  getConnectorStatus
      (fst (addReservation reservedStation (mkReservation 7 2 "TAG-2" 5000 None))) 1
    = Some (mkConnector (Some Operative) (Some Available) None None None None None) /\
  sentStatusNotifications
      (fst (addReservation reservedStation (mkReservation 7 2 "TAG-2" 5000 None)))
    = [mkStatusNotification 1 Available; mkStatusNotification 2 Reserved].
Proof.
  destruct (addReservation_replaces reservedStation (mkReservation 7 2 "TAG-2" 5000 None)
              sampleReservation
              (mkConnector (Some Operative) (Some Available) None None None None None)
              (mkConnector (Some Operative) (Some Reserved) None None None None
                 (Some sampleReservation))
              eq_refl eq_refl eq_refl) as (_ & _ & Hfreed & Hsent & _).
  split; [apply Hfreed; discriminate | exact Hsent].
Defined.

End ReservableFacts.

(** ** Preparing a recurring profile twice *)

Section RecurringStabilityFacts.
Import DateFns Helpers.





End RecurringStabilityFacts.

(** ** Reconnecting *)

Section ReconnectFacts.
Import Reconnect.

Variable exponentialDelay : Z -> Q.
Variable connectionTimeout : Z.

Lemma reconnectTimeout_reconnect (stationInfo : option ReconnectInfo)
    (stopOnConnectionFailure : bool) (count : Z) (t : Retry) :
  retry (reconnect exponentialDelay connectionTimeout stationInfo stopOnConnectionFailure
           count) = Some t ->
  (0 <= retryHandshakeTimeout t)%Q /\
  (retryDelay t - 1000 <= retryHandshakeTimeout t)%Q /\
  (retryHandshakeTimeout t == 0 \/ retryHandshakeTimeout t == retryDelay t - 1000)%Q.
Proof.
  unfold reconnect. destruct stationInfo as [info|]; [|discriminate].
  destruct (match autoReconnectMaxRetries info with
            | Some maxRetries => (count <? maxRetries) || (maxRetries =? -1)
            | None => false
            end); [|discriminate].
  simpl. intros H. injection H as <-. simpl.
  set (d := if bool_decide (reconnectExponentialDelay info = Some true)
            then exponentialDelay (count + 1)
            else inject_Z (secondsToMilliseconds connectionTimeout)).
  destruct (Qle_bool (d - (1000 # 1))%Q (0 # 1)) eqn:Hle; simpl.
  - apply Qle_bool_iff in Hle. split; [apply Qle_refl|].
    split; [exact Hle | left; reflexivity].
  - assert (Hgt : (0 < d - (1000 # 1))%Q).
    { apply Qnot_le_lt. intros H. apply Qle_bool_iff in H. congruence. }
    split; [apply Qlt_le_weak; exact Hgt|].
    split; [apply Qle_refl | right; reflexivity].
Qed.

(** The closes of a started station that are not normal, from a retry
    count on. *)
Lemma onCloses_abnormal (n : nat) (info : ReconnectInfo) (m : Z)
    (stopOnConnectionFailure : bool) :
  autoReconnectMaxRetries info = Some m ->
  forall count,
  0 <= count ->
  let result := onCloses exponentialDelay connectionTimeout (repeat (CloseOther, true) n)
                  (Some info) stopOnConnectionFailure count in
  Z.of_nat (length (snd result))
    = (if m =? -1 then Z.of_nat n else Z.min (Z.of_nat n) (Z.max 0 (m - count))) /\
  fst result = count + Z.of_nat (length (snd result)).
Proof.
  intros Hmax. induction n as [|n IH]; intros count Hcount.
  - simpl. destruct (m =? -1); split; lia.
  - cbn [repeat onCloses onClose]. unfold reconnect. rewrite Hmax.
    specialize (IH (if (count <? m) || (m =? -1) then count + 1 else count)).
    destruct ((count <? m) || (m =? -1)) eqn:Hretry; cbn [autoReconnectRetryCount retry];
      specialize (IH ltac:(lia)); cbv zeta in IH;
      match goal with
      | |- context [onCloses ?a ?b ?c ?d ?e ?f] =>
          destruct (onCloses a b c d e f) as [count' retries]
      end;
      cbn [fst snd length] in *;
      destruct (Z.eqb_spec m (-1)); destruct (Z.ltb_spec count m);
      try discriminate; lia.
Qed.

Lemma onCloses_count_bounded (closes : list (WebSocketCloseEventStatusCode * bool))
    (stationInfo : option ReconnectInfo) (stopOnConnectionFailure : bool) (m : Z) :
  (forall info, stationInfo = Some info ->
                autoReconnectMaxRetries info <> Some (-1) /\
                forall m', autoReconnectMaxRetries info = Some m' -> m' <= m) ->
  forall count,
  0 <= count <= Z.max 0 m ->
  0 <= fst (onCloses exponentialDelay connectionTimeout closes stationInfo
              stopOnConnectionFailure count) <= Z.max 0 m.
Proof.
  intros Hinfo. induction closes as [|[code started] rest IH]; intros count Hcount;
    [exact Hcount|].
  cbn [onCloses].
  set (r := onClose exponentialDelay connectionTimeout code started stationInfo
              stopOnConnectionFailure count).
  assert (Hr : 0 <= autoReconnectRetryCount r <= Z.max 0 m).
  { subst r. unfold onClose, reconnect.
    destruct code; cbn [autoReconnectRetryCount]; try lia.
    destruct started; cbn [autoReconnectRetryCount]; [|exact Hcount].
    destruct stationInfo as [info|]; cbn [autoReconnectRetryCount]; [|exact Hcount].
    destruct (Hinfo info eq_refl) as [Hbounded Hle].
    destruct (autoReconnectMaxRetries info) as [m'|]; cbn [autoReconnectRetryCount];
      [|exact Hcount].
    specialize (Hle m' eq_refl).
    destruct (Z.eqb_spec m' (-1)) as [->|_]; [contradiction|].
    rewrite orb_false_r.
    destruct (Z.ltb_spec count m'); cbn [autoReconnectRetryCount]; lia. }
  specialize (IH (autoReconnectRetryCount r) Hr).
  destruct (onCloses exponentialDelay connectionTimeout rest stationInfo
              stopOnConnectionFailure (autoReconnectRetryCount r)) as [count' retries].
  exact IH.
Qed.

(** X26: with [autoReconnectMaxRetries] m, a started station whose
    connection closes abnormally n times in a row, from the retry count 0,
    is on its way to reconnect min (n, m) times (n times when m is -1), the
    retry count going up by one each time; whatever the closes, a retry
    count within [0, max (0, m)] stays there when m is not -1; and every
    reconnection is given as handshake timeout the larger of 0 and its
    delay less 1000 ms. *)
Theorem onClose_reconnections_bounded (info : ReconnectInfo) (m : Z)
    (stopOnConnectionFailure : bool) :
  autoReconnectMaxRetries info = Some m ->
  (forall n,
     let result := onCloses exponentialDelay connectionTimeout (repeat (CloseOther, true) n)
                     (Some info) stopOnConnectionFailure 0 in
     Z.of_nat (length (snd result))
       = (if m =? -1 then Z.of_nat n else Z.min (Z.of_nat n) (Z.max 0 m)) /\
     fst result = Z.of_nat (length (snd result))) /\
  (m <> -1 ->
   forall closes count,
     0 <= count <= Z.max 0 m ->
     0 <= fst (onCloses exponentialDelay connectionTimeout closes (Some info)
                 stopOnConnectionFailure count) <= Z.max 0 m) /\
  (forall code started count t,
     retry (onClose exponentialDelay connectionTimeout code started (Some info)
              stopOnConnectionFailure count) = Some t ->
     (0 <= retryHandshakeTimeout t)%Q /\
     (retryDelay t - 1000 <= retryHandshakeTimeout t)%Q /\
     (retryHandshakeTimeout t == 0 \/ retryHandshakeTimeout t == retryDelay t - 1000)%Q).
Proof.
  intros Hmax. split; [|split].
  - intros n.
    pose proof (onCloses_abnormal n info m stopOnConnectionFailure Hmax 0 ltac:(lia)) as H.
    cbv zeta in *. rewrite Z.sub_0_r in H. destruct H as [-> ->]. split; [reflexivity|lia].
  - intros Hbounded closes count Hcount.
    apply onCloses_count_bounded; [|exact Hcount].
    intros info' Hinfo'. injection Hinfo' as <-. rewrite Hmax. split; [congruence|].
    intros m' Hm'. injection Hm' as <-. lia.
  - intros code started count t. unfold onClose.
    destruct code; cbn [retry]; try discriminate.
    destruct started; cbn [retry]; [|discriminate].
    apply reconnectTimeout_reconnect.
Qed.

End ReconnectFacts.

(** Two retries allowed, the connection timeout 30 s: of five closes in a
    row, two are followed by a reconnection. *)
Lemma onClose_reconnections_bounded_witness :
  Z.of_nat (length (snd (Reconnect.onCloses (fun n => inject_Z (2 ^ n * 100)) 30
                           (repeat (Reconnect.CloseOther, true) 5)
                           (Some (Reconnect.mkReconnectInfo (Some 2) None)) false 0)))
    = Z.min 5 (Z.max 0 2).
Proof.
  exact (proj1 (proj1 (onClose_reconnections_bounded (fun n => inject_Z (2 ^ n * 100)) 30
                         (Reconnect.mkReconnectInfo (Some 2) None) 2 false eq_refl) 5%nat)).
Defined.

(** ** Waiting for events *)

Section WaitEventsFacts.
Import WaitEvents.

Lemma waitedFor_listening (eventsToWait : Z) (n : nat) :
  eventsToWait <> 0 ->
  events (waitedFor eventsToWait n) = Z.of_nat n /\
  listening (waitedFor eventsToWait n) = true /\
  resolved (waitedFor eventsToWait n)
    = (if (1 <=? eventsToWait) && (eventsToWait <=? Z.of_nat n) then Some eventsToWait
       else None).
Proof.
  intros Hne. induction n as [|n (Hevents & Hlistening & Hresolved)].
  - unfold waitedFor, waitChargingStationEvents. simpl.
    destruct (Z.eqb_spec eventsToWait 0); [contradiction|]. simpl.
    repeat split.
    repeat match goal with
           | |- context [Z.leb ?a ?b] => destruct (Z.leb_spec a b)
           end; simpl; reflexivity || lia.
  - unfold waitedFor in *. rewrite Nat.iter_succ.
    destruct (Nat.iter n (emitted eventsToWait) (waitChargingStationEvents eventsToWait))
      as [counted registered value].
    cbn [events listening resolved] in *. subst counted registered value.
    unfold emitted. cbn [events listening resolved].
    rewrite Nat2Z.inj_succ. split; [lia|]. split; [reflexivity|].
    repeat match goal with
           | |- context [Z.leb ?a ?b] => destruct (Z.leb_spec a b)
           | |- context [Z.eqb ?a ?b] => destruct (Z.eqb_spec a b)
           end; simpl; try reflexivity; try lia; f_equal; lia.
Qed.

(** X27: the promise of [waitChargingStationEvents] is resolved at once
    with 0 when no event is waited for, and otherwise exactly when the
    number of events emitted reaches the number waited for, with that
    number; it is never resolved when the number waited for is negative,
    and later events change nothing. *)
Theorem waitChargingStationEvents_resolved (eventsToWait : Z) (n : nat) :
  resolved (waitedFor eventsToWait n)
    = (if (0 <=? eventsToWait) && (eventsToWait <=? Z.of_nat n) then Some eventsToWait
       else None).
Proof.
  destruct (Z.eq_dec eventsToWait 0) as [->|Hne].
  - assert (H : waitedFor 0 n = mkWaiting 0 false (Some 0)).
    { induction n as [|n IH]; [reflexivity|].
      unfold waitedFor in *. rewrite Nat.iter_succ, IH. reflexivity. }
    rewrite H. simpl. destruct (Z.leb_spec 0 (Z.of_nat n)); [reflexivity|lia].
  - destruct (waitedFor_listening eventsToWait n Hne) as (_ & _ & ->).
    repeat match goal with
           | |- context [Z.leb ?a ?b] => destruct (Z.leb_spec a b)
           end; simpl; reflexivity || lia.
Qed.

End WaitEventsFacts.
